(** * State Threads (annotated re-implementation): a shallow embedding

    The development follows the C sources file by file:

    - [common.h]  : the data model (threads, virtual processor, queues);
    - [sched.c]   : the sleep heap, [st_poll], thread creation and join;
    - [sync.c]    : [st_usleep], condition variables and mutexes;
    - [event.c]   : the epoll back end ([_st_epoll_pollset_del]);
    - [key.c]     : thread-specific data;
    - [io.c]      : [st_netfd_poll];
    - [stk.c]     : the stack allocator used by [st_thread_create].

    Pointers are addresses ([Z]); a nullable pointer is an [option Z].  The C
    heap is a family of finite maps from addresses to records.  Every function
    is a computation in a state monad over that heap which can also stop on an
    invalid memory access ([Fault]) or run out of loop fuel ([Spin]).  A
    blocking call is cut at its context switch into an [_enter] half (up to
    [_ST_SWITCH_CONTEXT]) and a [_resume] half (from there on). *)

From stdpp Require Import base option list gmap.
From Stdlib Require Import ZArith Lia.

Open Scope Z_scope.

(** ** Machine integers *)

(** [int] is a 32-bit two's complement integer, [st_utime_t] an unsigned
    64-bit one. *)
Definition wrap_int (x : Z) : Z := (x + 2 ^ 31) mod 2 ^ 32 - 2 ^ 31.
Definition wrap_utime (x : Z) : Z := x mod 2 ^ 64.

(** C truth value of an integer expression. *)
Definition c_true (x : Z) : bool := negb (x =? 0).

(** ** Constants of [common.h] and [public.h] *)

Definition _ST_ST_RUNNING : Z := 0.
Definition _ST_ST_RUNNABLE : Z := 1.
Definition _ST_ST_IO_WAIT : Z := 2.
Definition _ST_ST_LOCK_WAIT : Z := 3.
Definition _ST_ST_COND_WAIT : Z := 4.
Definition _ST_ST_SLEEPING : Z := 5.
Definition _ST_ST_ZOMBIE : Z := 6.
Definition _ST_ST_SUSPENDED : Z := 7.

Definition _ST_FL_PRIMORDIAL : Z := 0x01.
Definition _ST_FL_IDLE_THREAD : Z := 0x02.
Definition _ST_FL_ON_SLEEPQ : Z := 0x04.
Definition _ST_FL_INTERRUPT : Z := 0x08.
Definition _ST_FL_TIMEDOUT : Z := 0x10.

Definition ST_UTIME_NO_TIMEOUT : Z := 2 ^ 64 - 1.
Definition ST_DEFAULT_STACK_SIZE : Z := 128 * 1024.
Definition ST_KEYS_MAX : Z := 16.

(** Constants of the system headers ([errno.h], [poll.h], [sys/epoll.h]),
    with their Linux values. *)
Definition EPERM : Z := 1.
Definition EINTR : Z := 4.
Definition EBADF : Z := 9.
Definition EAGAIN : Z := 11.
Definition EBUSY : Z := 16.
Definition ENOMEM : Z := 12.
Definition EEXIST : Z := 17.
Definition EINVAL : Z := 22.
Definition EDEADLK : Z := 35.
Definition ETIME : Z := 62.

Definition POLLIN : Z := 0x01.
Definition POLLPRI : Z := 0x02.
Definition POLLOUT : Z := 0x04.
Definition POLLERR : Z := 0x08.
Definition POLLHUP : Z := 0x10.
Definition POLLNVAL : Z := 0x20.

Definition EPOLLIN : Z := 0x01.
Definition EPOLLPRI : Z := 0x02.
Definition EPOLLOUT : Z := 0x04.

Definition EPOLL_CTL_ADD : Z := 1.
Definition EPOLL_CTL_DEL : Z := 2.
Definition EPOLL_CTL_MOD : Z := 3.

(** [flags & bit] and [flags &= ~bit], [flags |= bit]. *)
Definition flag_set (flags bit : Z) : bool := c_true (Z.land flags bit).
Definition flag_clear (flags bit : Z) : Z := Z.land flags (Z.lnot bit).
Definition flag_add (flags bit : Z) : Z := Z.lor flags bit.

(** ** Data model ([common.h], [event.c]) *)

(** [struct _st_stack]. *)
Record _st_stack_t := mk_stack {
  vaddr : Z;
  vaddr_size : Z;
  stk_size : Z;
  stk_bottom : Z;
  stk_top : Z;
  sp : Z
}.

(** [struct _st_thread].  The two intrusive list anchors [links] and
    [wait_links] are represented by the membership of the thread's address in
    the queues below (a thread is linked through each anchor into at most one
    list at a time); the saved machine context is not represented. *)
Record _st_thread_t := mk_thread {
  t_state : Z;
  t_flags : Z;
  t_start : Z;
  t_arg : Z;
  t_retval : Z;
  t_stack : option Z;
  t_due : Z;
  t_left : option Z;
  t_right : option Z;
  t_heap_index : Z;
  t_private_data : list Z;
  t_term : option Z
}.

(** [struct _st_cond] and [struct _st_mutex]: the wait queue lists the
    waiting threads from head to tail. *)
Record _st_cond_t := mk_cond { c_wait_q : list Z }.
Record _st_mutex_t := mk_mutex { m_owner : option Z; m_wait_q : list Z }.

(** [struct pollfd]. *)
Record pollfd := mk_pollfd { pd_fd : Z; pd_events : Z; pd_revents : Z }.

(** [struct _st_pollq]; [pq_pds] is the address of the caller's array. *)
Record _st_pollq_t := mk_pollq {
  pq_thread : Z;
  pq_pds : Z;
  pq_npds : Z;
  pq_on_ioq : Z
}.

(** [struct _st_vp]. *)
Record _st_vp_t := mk_vp {
  idle_thread : option Z;
  last_clock : Z;
  run_q : list Z;
  io_q : list Z;
  zombie_q : list Z;
  pagesize : Z;
  sleep_q : option Z;
  sleepq_size : Z
}.

(** [struct _st_netfd] (the fields [st_netfd_poll] reads). *)
Record _st_netfd_t := mk_netfd { osfd : Z; inuse : Z }.

(** [struct _epoll_fd_data]. *)
Record _epoll_fd_data_t := mk_fd_data {
  rd_ref_cnt : Z;
  wr_ref_cnt : Z;
  ex_ref_cnt : Z;
  revents : Z
}.

(** One [epoll_ctl(epfd, op, fd, &ev)] system call, as issued. *)
Record epoll_ctl_call := mk_ctl { ctl_op : Z; ctl_fd : Z; ctl_events : Z }.

(** [struct _st_epolldata].  [fd_data] is the descriptor array (its length is
    [fd_data_size]).  The kernel is outside the program: [ctl_result] gives
    the return value of each [epoll_ctl] call and the [errno] it leaves when
    it fails, [ctl_log] records the calls
    issued so far, oldest first, and [realloc_ok] tells whether [realloc]
    succeeds. *)
Record _st_epolldata := mk_epoll {
  fd_data : list _epoll_fd_data_t;
  evtlist_size : Z;
  evtlist_cnt : Z;
  ctl_result : epoll_ctl_call → Z * Z;
  ctl_log : list epoll_ctl_call;
  realloc_ok : bool
}.

(** The whole program state: the C heap and the globals of [sched.c],
    [key.c], [stk.c] and [event.c].  [cells] holds the [int] and [void *]
    objects that callers pass by address ([keyp], [retvalp]);
    [destructor_calls] lists the calls made to user destructors, as
    (function, argument), oldest first. *)
Record world := mk_world {
  threads : gmap Z _st_thread_t;
  conds : gmap Z _st_cond_t;
  mutexes : gmap Z _st_mutex_t;
  pollqs : gmap Z _st_pollq_t;
  pollfds : gmap Z (list pollfd);
  stacks : gmap Z _st_stack_t;
  cells : gmap Z Z;
  _st_this_vp : _st_vp_t;
  _st_this_thread : Z;
  _st_active_count : Z;
  errno : Z;
  _st_epoll_data : _st_epolldata;
  key_max : Z;
  _st_destructors : list Z;
  destructor_calls : list (Z * Z);
  _st_free_stacks : list Z;
  _st_num_free_stacks : Z;
  _st_randomize_stacks : Z
}.

(** ** Field updates *)

Definition set_t_state (v : Z) (t : _st_thread_t) : _st_thread_t :=
  mk_thread v (t_flags t) (t_start t) (t_arg t) (t_retval t) (t_stack t)
    (t_due t) (t_left t) (t_right t) (t_heap_index t) (t_private_data t) (t_term t).
Definition set_t_flags (v : Z) (t : _st_thread_t) : _st_thread_t :=
  mk_thread (t_state t) v (t_start t) (t_arg t) (t_retval t) (t_stack t)
    (t_due t) (t_left t) (t_right t) (t_heap_index t) (t_private_data t) (t_term t).
Definition set_t_due (v : Z) (t : _st_thread_t) : _st_thread_t :=
  mk_thread (t_state t) (t_flags t) (t_start t) (t_arg t) (t_retval t) (t_stack t)
    v (t_left t) (t_right t) (t_heap_index t) (t_private_data t) (t_term t).
Definition set_t_left (v : option Z) (t : _st_thread_t) : _st_thread_t :=
  mk_thread (t_state t) (t_flags t) (t_start t) (t_arg t) (t_retval t) (t_stack t)
    (t_due t) v (t_right t) (t_heap_index t) (t_private_data t) (t_term t).
Definition set_t_right (v : option Z) (t : _st_thread_t) : _st_thread_t :=
  mk_thread (t_state t) (t_flags t) (t_start t) (t_arg t) (t_retval t) (t_stack t)
    (t_due t) (t_left t) v (t_heap_index t) (t_private_data t) (t_term t).
Definition set_t_heap_index (v : Z) (t : _st_thread_t) : _st_thread_t :=
  mk_thread (t_state t) (t_flags t) (t_start t) (t_arg t) (t_retval t) (t_stack t)
    (t_due t) (t_left t) (t_right t) v (t_private_data t) (t_term t).
Definition set_t_private_data (v : list Z) (t : _st_thread_t) : _st_thread_t :=
  mk_thread (t_state t) (t_flags t) (t_start t) (t_arg t) (t_retval t) (t_stack t)
    (t_due t) (t_left t) (t_right t) (t_heap_index t) v (t_term t).

Definition set_sleep_q (v : option Z) (p : _st_vp_t) : _st_vp_t :=
  mk_vp (idle_thread p) (last_clock p) (run_q p) (io_q p) (zombie_q p)
    (pagesize p) v (sleepq_size p).
Definition set_sleepq_size (v : Z) (p : _st_vp_t) : _st_vp_t :=
  mk_vp (idle_thread p) (last_clock p) (run_q p) (io_q p) (zombie_q p)
    (pagesize p) (sleep_q p) v.
Definition set_run_q (v : list Z) (p : _st_vp_t) : _st_vp_t :=
  mk_vp (idle_thread p) (last_clock p) v (io_q p) (zombie_q p)
    (pagesize p) (sleep_q p) (sleepq_size p).
Definition set_io_q (v : list Z) (p : _st_vp_t) : _st_vp_t :=
  mk_vp (idle_thread p) (last_clock p) (run_q p) v (zombie_q p)
    (pagesize p) (sleep_q p) (sleepq_size p).
Definition set_zombie_q (v : list Z) (p : _st_vp_t) : _st_vp_t :=
  mk_vp (idle_thread p) (last_clock p) (run_q p) (io_q p) v
    (pagesize p) (sleep_q p) (sleepq_size p).

Definition set_fd_data (v : list _epoll_fd_data_t) (e : _st_epolldata) : _st_epolldata :=
  mk_epoll v (evtlist_size e) (evtlist_cnt e) (ctl_result e) (ctl_log e) (realloc_ok e).
Definition set_evtlist_size (v : Z) (e : _st_epolldata) : _st_epolldata :=
  mk_epoll (fd_data e) v (evtlist_cnt e) (ctl_result e) (ctl_log e) (realloc_ok e).
Definition set_evtlist_cnt (v : Z) (e : _st_epolldata) : _st_epolldata :=
  mk_epoll (fd_data e) (evtlist_size e) v (ctl_result e) (ctl_log e) (realloc_ok e).
Definition set_ctl_log (v : list epoll_ctl_call) (e : _st_epolldata) : _st_epolldata :=
  mk_epoll (fd_data e) (evtlist_size e) (evtlist_cnt e) (ctl_result e) v (realloc_ok e).

Definition set_threads (v : gmap Z _st_thread_t) (w : world) : world :=
  mk_world v (conds w) (mutexes w) (pollqs w) (pollfds w) (stacks w) (cells w)
    (_st_this_vp w) (_st_this_thread w) (_st_active_count w) (errno w)
    (_st_epoll_data w) (key_max w) (_st_destructors w) (destructor_calls w)
    (_st_free_stacks w) (_st_num_free_stacks w) (_st_randomize_stacks w).
Definition set_conds (v : gmap Z _st_cond_t) (w : world) : world :=
  mk_world (threads w) v (mutexes w) (pollqs w) (pollfds w) (stacks w) (cells w)
    (_st_this_vp w) (_st_this_thread w) (_st_active_count w) (errno w)
    (_st_epoll_data w) (key_max w) (_st_destructors w) (destructor_calls w)
    (_st_free_stacks w) (_st_num_free_stacks w) (_st_randomize_stacks w).
Definition set_mutexes (v : gmap Z _st_mutex_t) (w : world) : world :=
  mk_world (threads w) (conds w) v (pollqs w) (pollfds w) (stacks w) (cells w)
    (_st_this_vp w) (_st_this_thread w) (_st_active_count w) (errno w)
    (_st_epoll_data w) (key_max w) (_st_destructors w) (destructor_calls w)
    (_st_free_stacks w) (_st_num_free_stacks w) (_st_randomize_stacks w).
Definition set_pollqs (v : gmap Z _st_pollq_t) (w : world) : world :=
  mk_world (threads w) (conds w) (mutexes w) v (pollfds w) (stacks w) (cells w)
    (_st_this_vp w) (_st_this_thread w) (_st_active_count w) (errno w)
    (_st_epoll_data w) (key_max w) (_st_destructors w) (destructor_calls w)
    (_st_free_stacks w) (_st_num_free_stacks w) (_st_randomize_stacks w).
Definition set_pollfds (v : gmap Z (list pollfd)) (w : world) : world :=
  mk_world (threads w) (conds w) (mutexes w) (pollqs w) v (stacks w) (cells w)
    (_st_this_vp w) (_st_this_thread w) (_st_active_count w) (errno w)
    (_st_epoll_data w) (key_max w) (_st_destructors w) (destructor_calls w)
    (_st_free_stacks w) (_st_num_free_stacks w) (_st_randomize_stacks w).
Definition set_stacks (v : gmap Z _st_stack_t) (w : world) : world :=
  mk_world (threads w) (conds w) (mutexes w) (pollqs w) (pollfds w) v (cells w)
    (_st_this_vp w) (_st_this_thread w) (_st_active_count w) (errno w)
    (_st_epoll_data w) (key_max w) (_st_destructors w) (destructor_calls w)
    (_st_free_stacks w) (_st_num_free_stacks w) (_st_randomize_stacks w).
Definition set_cells (v : gmap Z Z) (w : world) : world :=
  mk_world (threads w) (conds w) (mutexes w) (pollqs w) (pollfds w) (stacks w) v
    (_st_this_vp w) (_st_this_thread w) (_st_active_count w) (errno w)
    (_st_epoll_data w) (key_max w) (_st_destructors w) (destructor_calls w)
    (_st_free_stacks w) (_st_num_free_stacks w) (_st_randomize_stacks w).
Definition set_vp (v : _st_vp_t) (w : world) : world :=
  mk_world (threads w) (conds w) (mutexes w) (pollqs w) (pollfds w) (stacks w) (cells w)
    v (_st_this_thread w) (_st_active_count w) (errno w)
    (_st_epoll_data w) (key_max w) (_st_destructors w) (destructor_calls w)
    (_st_free_stacks w) (_st_num_free_stacks w) (_st_randomize_stacks w).
Definition set_active_count (v : Z) (w : world) : world :=
  mk_world (threads w) (conds w) (mutexes w) (pollqs w) (pollfds w) (stacks w) (cells w)
    (_st_this_vp w) (_st_this_thread w) v (errno w)
    (_st_epoll_data w) (key_max w) (_st_destructors w) (destructor_calls w)
    (_st_free_stacks w) (_st_num_free_stacks w) (_st_randomize_stacks w).
Definition set_errno (v : Z) (w : world) : world :=
  mk_world (threads w) (conds w) (mutexes w) (pollqs w) (pollfds w) (stacks w) (cells w)
    (_st_this_vp w) (_st_this_thread w) (_st_active_count w) v
    (_st_epoll_data w) (key_max w) (_st_destructors w) (destructor_calls w)
    (_st_free_stacks w) (_st_num_free_stacks w) (_st_randomize_stacks w).
Definition set_epoll_data (v : _st_epolldata) (w : world) : world :=
  mk_world (threads w) (conds w) (mutexes w) (pollqs w) (pollfds w) (stacks w) (cells w)
    (_st_this_vp w) (_st_this_thread w) (_st_active_count w) (errno w)
    v (key_max w) (_st_destructors w) (destructor_calls w)
    (_st_free_stacks w) (_st_num_free_stacks w) (_st_randomize_stacks w).
Definition set_key_max (v : Z) (w : world) : world :=
  mk_world (threads w) (conds w) (mutexes w) (pollqs w) (pollfds w) (stacks w) (cells w)
    (_st_this_vp w) (_st_this_thread w) (_st_active_count w) (errno w)
    (_st_epoll_data w) v (_st_destructors w) (destructor_calls w)
    (_st_free_stacks w) (_st_num_free_stacks w) (_st_randomize_stacks w).
Definition set_destructors (v : list Z) (w : world) : world :=
  mk_world (threads w) (conds w) (mutexes w) (pollqs w) (pollfds w) (stacks w) (cells w)
    (_st_this_vp w) (_st_this_thread w) (_st_active_count w) (errno w)
    (_st_epoll_data w) (key_max w) v (destructor_calls w)
    (_st_free_stacks w) (_st_num_free_stacks w) (_st_randomize_stacks w).
Definition set_destructor_calls (v : list (Z * Z)) (w : world) : world :=
  mk_world (threads w) (conds w) (mutexes w) (pollqs w) (pollfds w) (stacks w) (cells w)
    (_st_this_vp w) (_st_this_thread w) (_st_active_count w) (errno w)
    (_st_epoll_data w) (key_max w) (_st_destructors w) v
    (_st_free_stacks w) (_st_num_free_stacks w) (_st_randomize_stacks w).
Definition set_free_stacks (v : list Z) (n : Z) (w : world) : world :=
  mk_world (threads w) (conds w) (mutexes w) (pollqs w) (pollfds w) (stacks w) (cells w)
    (_st_this_vp w) (_st_this_thread w) (_st_active_count w) (errno w)
    (_st_epoll_data w) (key_max w) (_st_destructors w) (destructor_calls w)
    v n (_st_randomize_stacks w).

(** ** The monad of C computations *)

(** A computation either returns a value and a new state, stops on an
    invalid memory access (keeping the state reached), or exhausts the fuel
    given to one of its unbounded loops. *)
Inductive res (A : Type) : Type :=
| Ret (a : A) (w : world)
| Fault (w : world)
| Spin.
Arguments Ret {A} a w.
Arguments Fault {A} w.
Arguments Spin {A}.

Definition M (A : Type) : Type := world → res A.

#[global] Instance M_ret : MRet M := λ A a w, Ret a w.
#[global] Instance M_bind : MBind M := λ A B k m w,
  match m w with
  | Ret a w' => k a w'
  | Fault w' => Fault w'
  | Spin => Spin
  end.

Definition fault {A} : M A := λ w, Fault w.
Definition spin {A} : M A := λ _, Spin.
Definition get {A} (f : world → A) : M A := λ w, Ret (f w) w.
Definition modify (f : world → world) : M unit := λ w, Ret tt (f w).
Definition when (b : bool) (m : M unit) : M unit := if b then m else mret tt.

(** Dereferencing: [thread->...] faults when [thread] is not the address of
    a live thread. *)
Definition get_thread (thread : Z) : M _st_thread_t := λ w,
  match threads w !! thread with
  | Some th => Ret th w
  | None => Fault w
  end.

Definition upd_thread (thread : Z) (f : _st_thread_t → _st_thread_t) : M unit := λ w,
  match threads w !! thread with
  | Some th => Ret tt (set_threads (<[thread := f th]> (threads w)) w)
  | None => Fault w
  end.

(** Dereferencing a possibly null pointer. *)
Definition get_thread_opt (p : option Z) : M _st_thread_t :=
  match p with
  | Some thread => get_thread thread
  | None => fault
  end.

Definition upd_thread_opt (p : option Z) (f : _st_thread_t → _st_thread_t) : M unit :=
  match p with
  | Some thread => upd_thread thread f
  | None => fault
  end.

Definition upd_vp (f : _st_vp_t → _st_vp_t) : M unit :=
  modify (λ w, set_vp (f (_st_this_vp w)) w).

(** [_ST_CURRENT_THREAD()]. *)
Definition _ST_CURRENT_THREAD : M Z := get _st_this_thread.

(** [_ST_ADD_RUNQ(thr)]: [ST_APPEND_LINK] on the run queue. *)
Definition _ST_ADD_RUNQ (thr : Z) : M unit :=
  upd_vp (λ p, set_run_q (run_q p ++ [thr]) p).

(** What a blocking call does at the point the model follows it to: it
    returns to its caller, or it switches to the scheduler. *)
Inductive call : Type :=
| Return (rv : Z)
| Yield.

(** ** The sleep heap ([sched.c]) *)

(** A [_st_thread_t **]: the address of [_ST_SLEEPQ], or of the [left] or
    [right] field of the thread a pointer refers to.  Taking the address of a
    field does not access memory, so the pointer may be null; loading or
    storing through such a slot faults. *)
Inductive slot : Type :=
| SlotRoot
| SlotLeft (parent : option Z)
| SlotRight (parent : option Z).

(** [*p]. *)
Definition load (p : slot) : M (option Z) :=
  match p with
  | SlotRoot => get (λ w, sleep_q (_st_this_vp w))
  | SlotLeft parent => th ← get_thread_opt parent; mret (t_left th)
  | SlotRight parent => th ← get_thread_opt parent; mret (t_right th)
  end.

(** [*p = v]. *)
Definition store (p : slot) (v : option Z) : M unit :=
  match p with
  | SlotRoot => upd_vp (set_sleep_q v)
  | SlotLeft parent => upd_thread_opt parent (set_t_left v)
  | SlotRight parent => upd_thread_opt parent (set_t_right v)
  end.

(** The first loop of [heap_insert]:
    [while (s) { s >> 1; bits++; }].
    The statement [s >> 1;] computes a value and drops it, so [s] is the same
    at every test.  [fuel] bounds the number of tests. *)
Fixpoint heap_insert_bits (fuel : nat) (s bits : Z) : M Z :=
  match fuel with
  | O => spin
  | S fuel' =>
      if c_true s then
        let _ := Z.shiftr s 1 in
        heap_insert_bits fuel' s (wrap_int (bits + 1))
      else mret bits
  end.

(** The second loop of [heap_insert],
    [for (bit = bits - 2; bit >= 0; bit--)], with [n = bit + 1] iterations
    left.  It returns the final [thread], [p] and [index]. *)
Fixpoint heap_insert_walk (n : nat) (target thread : Z) (p : slot) (index : Z)
  : M (Z * slot * Z) :=
  match n with
  | O => mret (thread, p, index)
  | S n' =>
      let bit := Z.of_nat n' in
      th ← get_thread thread;
      cur ← load p;
      tcur ← get_thread_opt cur;
      thread' ←
        (if t_due th <? t_due tcur then
           match cur with
           | Some t =>
               upd_thread thread (set_t_left (t_left tcur));;
               tcur' ← get_thread t;
               upd_thread thread (set_t_right (t_right tcur'));;
               store p (Some thread);;
               upd_thread thread (set_t_heap_index index);;
               mret t
           | None => fault
           end
         else mret thread);
      let index := wrap_int (Z.shiftl index 1) in
      cur' ← load p;
      if c_true (Z.land target (Z.shiftl 1 bit)) then
        heap_insert_walk n' target thread' (SlotRight cur') (wrap_int (Z.lor index 1))
      else
        heap_insert_walk n' target thread' (SlotLeft cur') index
  end.

(** [heap_insert(thread)]; the result is the slot [p] it returns. *)
Definition heap_insert (fuel : nat) (thread : Z) : M slot :=
  th ← get_thread thread;
  let target := t_heap_index th in
  let s := target in
  bits ← heap_insert_bits fuel s 0;
  '(thread, p, index) ← heap_insert_walk (Z.to_nat (bits - 1)) target thread SlotRoot 1;
  upd_thread thread (set_t_heap_index index);;
  store p (Some thread);;
  upd_thread thread (set_t_right None);;
  upd_thread thread (set_t_left None);;
  mret p.

(** The first loop of [heap_delete]:
    [while (s) { s >>= 1; bits++; }]. *)
Fixpoint heap_delete_bits (fuel : nat) (s bits : Z) : M Z :=
  match fuel with
  | O => spin
  | S fuel' =>
      if c_true s then heap_delete_bits fuel' (Z.shiftr s 1) (wrap_int (bits + 1))
      else mret bits
  end.

(** The walk to the last heap element, with [n = bit + 1] iterations left. *)
Fixpoint heap_delete_walk (n : nat) (size : Z) (p : slot) : M slot :=
  match n with
  | O => mret p
  | S n' =>
      let bit := Z.of_nat n' in
      cur ← load p;
      if c_true (Z.land size (Z.shiftl 1 bit)) then
        heap_delete_walk n' size (SlotRight cur)
      else
        heap_delete_walk n' size (SlotLeft cur)
  end.

(** The [for (;;)] loop of [heap_delete] that re-establishes the heap
    invariant below [t], which hangs from slot [p]. *)
Fixpoint heap_delete_sift (fuel : nat) (t : Z) (p : slot) : M unit :=
  match fuel with
  | O => spin
  | S fuel' =>
      tt0 ← get_thread t;
      match t_left tt0 with
      | None => mret tt
      | Some l =>
          y ← match t_right tt0 with
              | None => mret l
              | Some r =>
                  tl ← get_thread l;
                  tr ← get_thread r;
                  mret (if t_due tl <? t_due tr then l else r)
              end;
          ty ← get_thread y;
          if t_due tt0 >? t_due ty then
            let tl := t_left ty in
            let tr := t_right ty in
            store p (Some y);;
            tt1 ← get_thread t;
            p' ← (if decide (Some y = t_left tt1) then
                    upd_thread y (set_t_left (Some t));;
                    tt2 ← get_thread t;
                    upd_thread y (set_t_right (t_right tt2));;
                    mret (SlotLeft (Some y))
                  else
                    upd_thread y (set_t_left (t_left tt1));;
                    upd_thread y (set_t_right (Some t));;
                    mret (SlotRight (Some y)));
            upd_thread t (set_t_left tl);;
            upd_thread t (set_t_right tr);;
            tt3 ← get_thread t;
            let index_tmp := t_heap_index tt3 in
            ty' ← get_thread y;
            upd_thread t (set_t_heap_index (t_heap_index ty'));;
            upd_thread y (set_t_heap_index index_tmp);;
            heap_delete_sift fuel' t p'
          else mret tt
      end
  end.

(** [heap_delete(thread)]. *)
Definition heap_delete (fuel : nat) (thread : Z) : M unit :=
  size ← get (λ w, sleepq_size (_st_this_vp w));
  bits ← heap_delete_bits fuel size 0;
  size ← get (λ w, sleepq_size (_st_this_vp w));
  p ← heap_delete_walk (Z.to_nat (bits - 1)) size SlotRoot;
  t ← load p;
  store p None;;
  upd_vp (λ v, set_sleepq_size (wrap_int (sleepq_size v - 1)) v);;
  (if decide (t ≠ Some thread) then
     th ← get_thread thread;
     upd_thread_opt t (set_t_heap_index (t_heap_index th));;
     tlast ← match t with Some a => mret a | None => fault end;
     p ← heap_insert fuel tlast;
     t ← load p;
     th ← get_thread thread;
     upd_thread_opt t (set_t_left (t_left th));;
     th ← get_thread thread;
     upd_thread_opt t (set_t_right (t_right th));;
     match t with
     | Some a => heap_delete_sift fuel a p
     | None => fault
     end
   else mret tt);;
  upd_thread thread (set_t_right None);;
  upd_thread thread (set_t_left None).

(** [_st_add_sleep_q(thread, timeout)]. *)
Definition _st_add_sleep_q (fuel : nat) (thread timeout : Z) : M unit :=
  clock ← get (λ w, last_clock (_st_this_vp w));
  upd_thread thread (set_t_due (wrap_utime (clock + timeout)));;
  th ← get_thread thread;
  upd_thread thread (set_t_flags (flag_add (t_flags th) _ST_FL_ON_SLEEPQ));;
  upd_vp (λ v, set_sleepq_size (wrap_int (sleepq_size v + 1)) v);;
  size ← get (λ w, sleepq_size (_st_this_vp w));
  upd_thread thread (set_t_heap_index size);;
  heap_insert fuel thread;;
  mret tt.

(** [_st_del_sleep_q(thread)]. *)
Definition _st_del_sleep_q (fuel : nat) (thread : Z) : M unit :=
  heap_delete fuel thread;;
  th ← get_thread thread;
  upd_thread thread (set_t_flags (flag_clear (t_flags th) _ST_FL_ON_SLEEPQ)).

Definition _ST_ADD_SLEEPQ := _st_add_sleep_q.
Definition _ST_DEL_SLEEPQ := _st_del_sleep_q.

(** ** Sleeping, condition variables and mutexes ([sync.c]) *)

Definition get_cond (cvar : Z) : M _st_cond_t := λ w,
  match conds w !! cvar with
  | Some c => Ret c w
  | None => Fault w
  end.

Definition upd_cond (cvar : Z) (f : _st_cond_t → _st_cond_t) : M unit := λ w,
  match conds w !! cvar with
  | Some c => Ret tt (set_conds (<[cvar := f c]> (conds w)) w)
  | None => Fault w
  end.

Definition get_mutex (lock : Z) : M _st_mutex_t := λ w,
  match mutexes w !! lock with
  | Some m => Ret m w
  | None => Fault w
  end.

Definition upd_mutex (lock : Z) (f : _st_mutex_t → _st_mutex_t) : M unit := λ w,
  match mutexes w !! lock with
  | Some m => Ret tt (set_mutexes (<[lock := f m]> (mutexes w)) w)
  | None => Fault w
  end.

Definition set_m_owner (v : option Z) (m : _st_mutex_t) : _st_mutex_t :=
  mk_mutex v (m_wait_q m).
Definition set_m_wait_q (v : list Z) (m : _st_mutex_t) : _st_mutex_t :=
  mk_mutex (m_owner m) v.

(** [ST_APPEND_LINK(e, l)] puts [e] at the tail of the list; [ST_REMOVE_LINK(e)]
    takes [e] out of the list it is linked in, which the callers below name:
    the wait queue a thread appended itself to, the I/O queue, the zombie
    queue or the free list. *)
Definition ST_APPEND_LINK (e : Z) (l : list Z) : list Z := l ++ [e].
Definition ST_REMOVE_LINK (e : Z) (l : list Z) : list Z := filter (λ x, x ≠ e) l.
Definition ST_CLIST_IS_EMPTY (l : list Z) : bool :=
  match l with
  | [] => true
  | _ :: _ => false
  end.

(** [errno = e; return -1;] *)
Definition fail_with (e : Z) : M Z := modify (set_errno e);; mret (-1).

(** [st_usleep(usecs)] up to its context switch. *)
Definition st_usleep_enter (fuel : nat) (usecs : Z) : M call :=
  me ← _ST_CURRENT_THREAD;
  th ← get_thread me;
  if flag_set (t_flags th) _ST_FL_INTERRUPT then
    rv ← fail_with EINTR; mret (Return rv)
  else
    (if decide (usecs ≠ ST_UTIME_NO_TIMEOUT) then
       upd_thread me (set_t_state _ST_ST_SLEEPING);;
       _ST_ADD_SLEEPQ fuel me usecs
     else
       upd_thread me (set_t_state _ST_ST_SUSPENDED));;
    mret Yield.


(** [st_cond_timedwait(cvar, timeout)] up to its context switch. *)
Definition st_cond_timedwait_enter (fuel : nat) (cvar timeout : Z) : M call :=
  me ← _ST_CURRENT_THREAD;
  th ← get_thread me;
  if flag_set (t_flags th) _ST_FL_INTERRUPT then
    rv ← fail_with EINTR; mret (Return rv)
  else
    upd_thread me (set_t_state _ST_ST_COND_WAIT);;
    upd_cond cvar (λ c, mk_cond (ST_APPEND_LINK me (c_wait_q c)));;
    when (bool_decide (timeout ≠ ST_UTIME_NO_TIMEOUT)) (_ST_ADD_SLEEPQ fuel me timeout);;
    mret Yield.

(** [st_cond_timedwait] from the point where the thread [me] runs again. *)
Definition st_cond_timedwait_resume (me cvar : Z) : M Z :=
  upd_cond cvar (λ c, mk_cond (ST_REMOVE_LINK me (c_wait_q c)));;
  let rv := 0 in
  th ← get_thread me;
  rv ← (if flag_set (t_flags th) _ST_FL_INTERRUPT then
          upd_thread me (set_t_flags (flag_clear (t_flags th) _ST_FL_INTERRUPT));;
          modify (set_errno EINTR);;
          mret (-1)
        else mret rv);
  th ← get_thread me;
  rv ← (if flag_set (t_flags th) _ST_FL_TIMEDOUT then
          modify (set_errno ETIME);;
          mret (-1)
        else mret rv);
  mret rv.

(** [st_cond_wait(cvar)] is [st_cond_timedwait(cvar, ST_UTIME_NO_TIMEOUT)]. *)
Definition st_cond_wait_enter (fuel : nat) (cvar : Z) : M call :=
  st_cond_timedwait_enter fuel cvar ST_UTIME_NO_TIMEOUT.
Definition st_cond_wait_resume (me cvar : Z) : M Z :=
  st_cond_timedwait_resume me cvar.

(** The loop of [_st_cond_signal] over the wait queue, from its head. *)
Fixpoint _st_cond_signal_loop (fuel : nat) (q : list Z) (broadcast : Z) : M unit :=
  match q with
  | [] => mret tt
  | thread :: q' =>
      th ← get_thread thread;
      when (bool_decide (t_state th = _ST_ST_COND_WAIT)) (_ST_DEL_SLEEPQ fuel thread);;
      upd_thread thread (set_t_state _ST_ST_RUNNABLE);;
      _ST_ADD_RUNQ thread;;
      if c_true broadcast then _st_cond_signal_loop fuel q' broadcast
      else mret tt
  end.

(** [_st_cond_signal(cvar, broadcast)]. *)
Definition _st_cond_signal (fuel : nat) (cvar broadcast : Z) : M Z :=
  c ← get_cond cvar;
  _st_cond_signal_loop fuel (c_wait_q c) broadcast;;
  mret 0.

Definition st_cond_signal (fuel : nat) (cvar : Z) : M Z := _st_cond_signal fuel cvar 0.
Definition st_cond_broadcast (fuel : nat) (cvar : Z) : M Z := _st_cond_signal fuel cvar 1.

(** [st_mutex_lock(lock)] up to its context switch. *)
Definition st_mutex_lock_enter (lock : Z) : M call :=
  me ← _ST_CURRENT_THREAD;
  th ← get_thread me;
  if flag_set (t_flags th) _ST_FL_INTERRUPT then
    rv ← fail_with EINTR; mret (Return rv)
  else
    m ← get_mutex lock;
    match m_owner m with
    | None =>
        upd_mutex lock (set_m_owner (Some me));;
        mret (Return 0)
    | Some owner =>
        if decide (owner = me) then
          rv ← fail_with EDEADLK; mret (Return rv)
        else
          upd_thread me (set_t_state _ST_ST_LOCK_WAIT);;
          upd_mutex lock (λ m, set_m_wait_q (ST_APPEND_LINK me (m_wait_q m)) m);;
          mret Yield
    end.

(** [st_mutex_lock] from the point where the thread [me] runs again. *)
Definition st_mutex_lock_resume (me lock : Z) : M Z :=
  upd_mutex lock (λ m, set_m_wait_q (ST_REMOVE_LINK me (m_wait_q m)) m);;
  th ← get_thread me;
  m ← get_mutex lock;
  if flag_set (t_flags th) _ST_FL_INTERRUPT && bool_decide (m_owner m ≠ Some me) then
    upd_thread me (set_t_flags (flag_clear (t_flags th) _ST_FL_INTERRUPT));;
    fail_with EINTR
  else mret 0.

(** The loop of [st_mutex_unlock] over the wait queue, from its head. *)
Fixpoint st_mutex_unlock_loop (lock : Z) (q : list Z) : M Z :=
  match q with
  | [] =>
      upd_mutex lock (set_m_owner None);;
      mret 0
  | thread :: q' =>
      th ← get_thread thread;
      if decide (t_state th = _ST_ST_LOCK_WAIT) then
        upd_mutex lock (set_m_owner (Some thread));;
        upd_thread thread (set_t_state _ST_ST_RUNNABLE);;
        _ST_ADD_RUNQ thread;;
        mret 0
      else st_mutex_unlock_loop lock q'
  end.

(** [st_mutex_unlock(lock)]. *)
Definition st_mutex_unlock (lock : Z) : M Z :=
  m ← get_mutex lock;
  me ← _ST_CURRENT_THREAD;
  if decide (m_owner m ≠ Some me) then fail_with EPERM
  else st_mutex_unlock_loop lock (m_wait_q m).

(** [st_mutex_trylock(lock)]. *)
Definition st_mutex_trylock (lock : Z) : M Z :=
  m ← get_mutex lock;
  match m_owner m with
  | Some _ => fail_with EBUSY
  | None =>
      me ← _ST_CURRENT_THREAD;
      upd_mutex lock (set_m_owner (Some me));;
      mret 0
  end.

(** ** The epoll event system ([event.c]) *)

(** The operations of [_st_eventsys_t] that the scheduler calls with the
    program state only ([init] and [dispatch] talk to the kernel and are not
    represented). *)
Record _st_eventsys_t := mk_eventsys {
  pollset_add : Z → Z → M Z;
  pollset_del : Z → Z → M unit;
  fd_new : Z → M Z;
  fd_close : Z → M Z;
  fd_getlimit : M Z
}.

Definition set_rd_ref_cnt (v : Z) (d : _epoll_fd_data_t) : _epoll_fd_data_t :=
  mk_fd_data v (wr_ref_cnt d) (ex_ref_cnt d) (revents d).
Definition set_wr_ref_cnt (v : Z) (d : _epoll_fd_data_t) : _epoll_fd_data_t :=
  mk_fd_data (rd_ref_cnt d) v (ex_ref_cnt d) (revents d).
Definition set_ex_ref_cnt (v : Z) (d : _epoll_fd_data_t) : _epoll_fd_data_t :=
  mk_fd_data (rd_ref_cnt d) (wr_ref_cnt d) v (revents d).

(** [_st_epoll_data->fd_data[fd]]: an access outside the array faults. *)
Definition get_fd_data (fd : Z) : M _epoll_fd_data_t := λ w,
  if fd <? 0 then Fault w
  else match fd_data (_st_epoll_data w) !! Z.to_nat fd with
       | Some d => Ret d w
       | None => Fault w
       end.

Definition upd_fd_data (fd : Z) (f : _epoll_fd_data_t → _epoll_fd_data_t) : M unit := λ w,
  if fd <? 0 then Fault w
  else match fd_data (_st_epoll_data w) !! Z.to_nat fd with
       | Some d =>
           Ret tt (set_epoll_data
                     (set_fd_data (<[Z.to_nat fd := f d]> (fd_data (_st_epoll_data w)))
                        (_st_epoll_data w)) w)
       | None => Fault w
       end.

Definition upd_epoll (f : _st_epolldata → _st_epolldata) : M unit :=
  modify (λ w, set_epoll_data (f (_st_epoll_data w)) w).

(** [pds[i]]. *)
Definition get_pollfd (pds i : Z) : M pollfd := λ w,
  match pollfds w !! pds with
  | Some a =>
      if i <? 0 then Fault w
      else match a !! Z.to_nat i with
           | Some pd => Ret pd w
           | None => Fault w
           end
  | None => Fault w
  end.

Definition _ST_EPOLL_READ_BIT (d : _epoll_fd_data_t) : Z :=
  if c_true (rd_ref_cnt d) then EPOLLIN else 0.
Definition _ST_EPOLL_WRITE_BIT (d : _epoll_fd_data_t) : Z :=
  if c_true (wr_ref_cnt d) then EPOLLOUT else 0.
Definition _ST_EPOLL_EXCEP_BIT (d : _epoll_fd_data_t) : Z :=
  if c_true (ex_ref_cnt d) then EPOLLPRI else 0.
Definition _ST_EPOLL_EVENTS (d : _epoll_fd_data_t) : Z :=
  Z.lor (Z.lor (_ST_EPOLL_READ_BIT d) (_ST_EPOLL_WRITE_BIT d)) (_ST_EPOLL_EXCEP_BIT d).

(** The system call [epoll_ctl(epfd, op, fd, &ev)] with [ev.events = events]:
    the call is logged, the kernel decides the result. *)
Definition epoll_ctl (op fd events : Z) : M Z := λ w,
  let c := mk_ctl op fd events in
  let e := _st_epoll_data w in
  let '(rv, err) := ctl_result e c in
  let w' := set_epoll_data (set_ctl_log (ctl_log e ++ [c]) e) w in
  Ret rv (if rv <? 0 then set_errno err w' else w').

(** The body of the loop of [_st_epoll_pollset_del], for the entry [pd]. *)
Definition _st_epoll_pollset_del_entry (pd : pollfd) : M unit :=
  let fd := pd_fd pd in
  d ← get_fd_data fd;
  let old_events := _ST_EPOLL_EVENTS d in
  when (c_true (Z.land (pd_events pd) POLLIN))
    (upd_fd_data fd (λ d, set_rd_ref_cnt (wrap_int (rd_ref_cnt d - 1)) d));;
  when (c_true (Z.land (pd_events pd) POLLOUT))
    (upd_fd_data fd (λ d, set_wr_ref_cnt (wrap_int (wr_ref_cnt d - 1)) d));;
  when (c_true (Z.land (pd_events pd) POLLPRI))
    (upd_fd_data fd (λ d, set_ex_ref_cnt (wrap_int (ex_ref_cnt d - 1)) d));;
  d ← get_fd_data fd;
  let events := _ST_EPOLL_EVENTS d in
  if negb (events =? old_events) && (revents d =? 0) then
    let op := if c_true events then EPOLL_CTL_MOD else EPOLL_CTL_DEL in
    r ← epoll_ctl op fd events;
    when ((r =? 0) && (op =? EPOLL_CTL_DEL))
      (upd_epoll (λ e, set_evtlist_cnt (wrap_int (evtlist_cnt e - 1)) e))
  else mret tt.

(** [for (pd = pds; pd < epd; pd++)], at entry [i] with [n] entries left. *)
Fixpoint _st_epoll_pollset_del_loop (n : nat) (pds i : Z) : M unit :=
  match n with
  | O => mret tt
  | S n' =>
      pd ← get_pollfd pds i;
      _st_epoll_pollset_del_entry pd;;
      _st_epoll_pollset_del_loop n' pds (i + 1)
  end.

(** [_st_epoll_pollset_del(pds, npds)]. *)
Definition _st_epoll_pollset_del (pds npds : Z) : M unit :=
  _st_epoll_pollset_del_loop (Z.to_nat npds) pds 0.

(** [while (limit >= n) n <<= 1;], the doubling loop of the two [expand]
    functions. *)
Fixpoint expand_size (fuel : nat) (limit n : Z) : M Z :=
  match fuel with
  | O => spin
  | S fuel' =>
      if limit >=? n then expand_size fuel' limit (wrap_int (Z.shiftl n 1))
      else mret n
  end.

Definition zero_fd_data : _epoll_fd_data_t := mk_fd_data 0 0 0 0.

(** [_st_epoll_fd_data_expand(maxfd)]. *)
Definition _st_epoll_fd_data_expand (fuel : nat) (maxfd : Z) : M Z :=
  size ← get (λ w, Z.of_nat (length (fd_data (_st_epoll_data w))));
  n ← expand_size fuel maxfd size;
  ok ← get (λ w, realloc_ok (_st_epoll_data w));
  if (ok : bool) then
    upd_epoll (λ e, set_fd_data (fd_data e ++ replicate (Z.to_nat (n - size)) zero_fd_data) e);;
    mret 0
  else
    modify (set_errno ENOMEM);; mret (-1).

(** [_st_epoll_evtlist_expand()]. *)
Definition _st_epoll_evtlist_expand (fuel : nat) : M unit :=
  e ← get _st_epoll_data;
  n ← expand_size fuel (evtlist_cnt e - 1) (evtlist_size e);
  ok ← get (λ w, realloc_ok (_st_epoll_data w));
  if (ok : bool) then upd_epoll (set_evtlist_size n)
  else modify (set_errno ENOMEM).

(** The validation loop of [_st_epoll_pollset_add]: 0 when every entry is
    accepted, -1 as soon as one is not. *)
Fixpoint _st_epoll_pollset_add_check (fuel n : nat) (pds i : Z) : M Z :=
  match n with
  | O => mret 0
  | S n' =>
      pd ← get_pollfd pds i;
      let fd := pd_fd pd in
      if (fd <? 0) || negb (c_true (pd_events pd))
         || c_true (Z.land (pd_events pd) (Z.lnot (Z.lor (Z.lor POLLIN POLLOUT) POLLPRI)))
      then fail_with EINVAL
      else
        size ← get (λ w, Z.of_nat (length (fd_data (_st_epoll_data w))));
        r ← (if fd >=? size then _st_epoll_fd_data_expand fuel fd else mret 0);
        if r <? 0 then mret (-1)
        else _st_epoll_pollset_add_check fuel n' pds (i + 1)
  end.

(** The registration loop of [_st_epoll_pollset_add]; the result is the
    value of [i] when the loop is left. *)
Fixpoint _st_epoll_pollset_add_loop (fuel n : nat) (pds i : Z) : M Z :=
  match n with
  | O => mret i
  | S n' =>
      pd ← get_pollfd pds i;
      let fd := pd_fd pd in
      d ← get_fd_data fd;
      let old_events := _ST_EPOLL_EVENTS d in
      when (c_true (Z.land (pd_events pd) POLLIN))
        (upd_fd_data fd (λ d, set_rd_ref_cnt (wrap_int (rd_ref_cnt d + 1)) d));;
      when (c_true (Z.land (pd_events pd) POLLOUT))
        (upd_fd_data fd (λ d, set_wr_ref_cnt (wrap_int (wr_ref_cnt d + 1)) d));;
      when (c_true (Z.land (pd_events pd) POLLPRI))
        (upd_fd_data fd (λ d, set_ex_ref_cnt (wrap_int (ex_ref_cnt d + 1)) d));;
      d ← get_fd_data fd;
      let events := _ST_EPOLL_EVENTS d in
      if negb (events =? old_events) then
        let op := if c_true old_events then EPOLL_CTL_MOD else EPOLL_CTL_ADD in
        r ← epoll_ctl op fd events;
        err ← get errno;
        if (r <? 0) && (negb (op =? EPOLL_CTL_ADD) || negb (err =? EEXIST)) then mret i
        else
          (if op =? EPOLL_CTL_ADD then
             upd_epoll (λ e, set_evtlist_cnt (wrap_int (evtlist_cnt e + 1)) e);;
             e ← get _st_epoll_data;
             when (evtlist_cnt e >? evtlist_size e) (_st_epoll_evtlist_expand fuel)
           else mret tt);;
          _st_epoll_pollset_add_loop fuel n' pds (i + 1)
      else _st_epoll_pollset_add_loop fuel n' pds (i + 1)
  end.

(** [_st_epoll_pollset_add(pds, npds)]. *)
Definition _st_epoll_pollset_add (fuel : nat) (pds npds : Z) : M Z :=
  r ← _st_epoll_pollset_add_check fuel (Z.to_nat npds) pds 0;
  if r <? 0 then mret (-1)
  else
    i ← _st_epoll_pollset_add_loop fuel (Z.to_nat npds) pds 0;
    if i <? npds then
      err ← get errno;
      _st_epoll_pollset_del pds (i + 1);;
      modify (set_errno err);;
      mret (-1)
    else mret 0.

(** [_st_epoll_fd_new(osfd)], [_st_epoll_fd_close(osfd)] and
    [_st_epoll_fd_getlimit()]. *)
Definition _st_epoll_fd_new (fuel : nat) (osfd : Z) : M Z :=
  size ← get (λ w, Z.of_nat (length (fd_data (_st_epoll_data w))));
  r ← (if osfd >=? size then _st_epoll_fd_data_expand fuel osfd else mret 0);
  if r <? 0 then mret (-1) else mret 0.

Definition _st_epoll_fd_close (osfd : Z) : M Z :=
  d ← get_fd_data osfd;
  if c_true (rd_ref_cnt d) || c_true (wr_ref_cnt d) || c_true (ex_ref_cnt d)
  then fail_with EBUSY
  else mret 0.

Definition _st_epoll_fd_getlimit : M Z := mret 0.

(** [_st_epoll_eventsys], the only back end ([_st_eventsys] points to it). *)
Definition _st_epoll_eventsys (fuel : nat) : _st_eventsys_t :=
  mk_eventsys (_st_epoll_pollset_add fuel) _st_epoll_pollset_del
    (_st_epoll_fd_new fuel) _st_epoll_fd_close _st_epoll_fd_getlimit.

(** ** Polling ([sched.c]) *)

Definition get_pollq (pq : Z) : M _st_pollq_t := λ w,
  match pollqs w !! pq with
  | Some q => Ret q w
  | None => Fault w
  end.

(** The counting loop of [st_poll],
    [for (pd = pds; pd != epd; pd++) if (pd->events) n++;],
    at entry [i] with [k] entries left. *)
Fixpoint st_poll_count (k : nat) (pds i n : Z) : M Z :=
  match k with
  | O => mret n
  | S k' =>
      pd ← get_pollfd pds i;
      st_poll_count k' pds (i + 1)
        (if c_true (pd_events pd) then wrap_int (n + 1) else n)
  end.

Section Poll.

(** [_st_eventsys], the event system in use. *)
Variable _st_eventsys : _st_eventsys_t.

(** [st_poll(pds, npds, timeout)] up to its context switch; [pq] is the
    address of the local variable [pq]. *)
Definition st_poll_enter (fuel : nat) (pq pds npds timeout : Z) : M call :=
  me ← _ST_CURRENT_THREAD;
  th ← get_thread me;
  if flag_set (t_flags th) _ST_FL_INTERRUPT then
    upd_thread me (set_t_flags (flag_clear (t_flags th) _ST_FL_INTERRUPT));;
    rv ← fail_with EINTR; mret (Return rv)
  else
    r ← pollset_add _st_eventsys pds npds;
    if r <? 0 then mret (Return (-1))
    else
      modify (λ w, set_pollqs (<[pq := mk_pollq me pds npds 1]> (pollqs w)) w);;
      upd_vp (λ v, set_io_q (ST_APPEND_LINK pq (io_q v)) v);;
      when (bool_decide (timeout ≠ ST_UTIME_NO_TIMEOUT)) (_ST_ADD_SLEEPQ fuel me timeout);;
      upd_thread me (set_t_state _ST_ST_IO_WAIT);;
      mret Yield.

(** [st_poll] from the point where the thread [me] runs again.  The
    counting loop stops on [pd != epd]: with a negative [npds] it walks out
    of the array. *)
Definition st_poll_resume (me pq pds npds : Z) : M Z :=
  let n := 0 in
  q ← get_pollq pq;
  n ← (if c_true (pq_on_ioq q) then
         upd_vp (λ v, set_io_q (ST_REMOVE_LINK pq (io_q v)) v);;
         pollset_del _st_eventsys pds npds;;
         mret n
       else if npds <? 0 then fault
       else st_poll_count (Z.to_nat npds) pds 0 n);
  th ← get_thread me;
  if flag_set (t_flags th) _ST_FL_INTERRUPT then
    upd_thread me (set_t_flags (flag_clear (t_flags th) _ST_FL_INTERRUPT));;
    fail_with EINTR
  else
    let _ := (n : Z) in
    mret 0.

(** ** [st_netfd_poll] ([io.c]) *)

(** What [st_netfd_poll] does with the value [n] of
    [st_poll(&pd, 1, timeout)]. *)
Definition st_netfd_poll_finish (pd n : Z) : M Z :=
  if n <? 0 then mret (-1)
  else if n =? 0 then fail_with ETIME
  else
    p ← get_pollfd pd 0;
    if c_true (Z.land (pd_revents p) POLLNVAL) then fail_with EBADF
    else mret 0.

(** [st_netfd_poll(fd, how, timeout)] up to the context switch inside
    [st_poll]; [pd] is the address of the local variable [pd] and [pq] that
    of the local [pq] of [st_poll].  [(short) how] keeps the low 16 bits. *)
Definition st_netfd_poll_enter (fuel : nat) (pd pq : Z) (fd : _st_netfd_t)
    (how timeout : Z) : M call :=
  let events := (how + 2 ^ 15) mod 2 ^ 16 - 2 ^ 15 in
  modify (λ w, set_pollfds (<[pd := [mk_pollfd (osfd fd) events 0]]> (pollfds w)) w);;
  r ← st_poll_enter fuel pq pd 1 timeout;
  match r with
  | Yield => mret Yield
  | Return n => rv ← st_netfd_poll_finish pd n; mret (Return rv)
  end.

(** [st_netfd_poll] from the point where the thread [me] runs again. *)
Definition st_netfd_poll_resume (me pd pq : Z) : M Z :=
  n ← st_poll_resume me pq pd 1;
  st_netfd_poll_finish pd n.

End Poll.

(** ** The stack allocator ([stk.c]) *)

(** What the operating system answers to one [_st_stack_new]: the result of
    [calloc], of [mmap] and of [random]. *)
Record os_alloc := mk_os_alloc {
  calloc_result : option Z;
  mmap_result : option Z;
  random_result : Z
}.

Definition get_stack (ts : Z) : M _st_stack_t := λ w,
  match stacks w !! ts with
  | Some s => Ret s w
  | None => Fault w
  end.

Definition put_stack (ts : Z) (s : _st_stack_t) : M unit :=
  modify (λ w, set_stacks (<[ts := s]> (stacks w)) w).

(** The first-fit walk of [_st_stack_new] over the free list: the first
    stack of the list with [stk_size >= stack_size], if any. *)
Fixpoint first_fit (stack_size : Z) (free : list Z) : M (option Z) :=
  match free with
  | [] => mret None
  | ts :: free' =>
      s ← get_stack ts;
      if stk_size s >=? stack_size then mret (Some ts)
      else first_fit stack_size free'
  end.

(** [_st_stack_new(stack_size)]; [REDZONE] is [_ST_PAGE_SIZE]. *)
Definition _st_stack_new (os : os_alloc) (stack_size : Z) : M (option Z) :=
  free ← get _st_free_stacks;
  found ← first_fit stack_size free;
  match found with
  | Some ts =>
      modify (λ w, set_free_stacks (ST_REMOVE_LINK ts (_st_free_stacks w))
                     (wrap_int (_st_num_free_stacks w - 1)) w);;
      mret (Some ts)
  | None =>
      match calloc_result os with
      | None => mret None
      | Some ts =>
          randomize ← get _st_randomize_stacks;
          page ← get (λ w, pagesize (_st_this_vp w));
          let extra := if c_true randomize then page else 0 in
          let size := wrap_int (stack_size + page * 2 + extra) in
          match mmap_result os with
          | None => mret None
          | Some va =>
              let bottom := va + page in
              let top := bottom + stack_size in
              let offset :=
                if c_true extra
                then Z.land (Z.rem (random_result os) extra) (Z.lnot 0xf)
                else 0 in
              put_stack ts (mk_stack va size stack_size (bottom + offset) (top + offset) 0);;
              mret (Some ts)
          end
      end
  end.

(** ** Threads ([sched.c]) *)

(** [st_thread_interrupt(thread)]. *)
Definition st_thread_interrupt (fuel : nat) (thread : Z) : M unit :=
  th ← get_thread thread;
  if decide (t_state th = _ST_ST_ZOMBIE) then mret tt
  else
    upd_thread thread (set_t_flags (flag_add (t_flags th) _ST_FL_INTERRUPT));;
    th ← get_thread thread;
    if decide (t_state th = _ST_ST_RUNNABLE ∨ t_state th = _ST_ST_RUNNING) then mret tt
    else
      when (flag_set (t_flags th) _ST_FL_ON_SLEEPQ) (_ST_DEL_SLEEPQ fuel thread);;
      upd_thread thread (set_t_state _ST_ST_RUNNABLE);;
      _ST_ADD_RUNQ thread.

Section Create.

(** The sizes of [_st_thread_t] and of a pointer on the target. *)
Variables sizeof_thread sizeof_ptr : Z.

(** [st_thread_create(start, arg, joinable, stk_size)], with [size] for
    the parameter [stk_size]: the new thread, or [None] for [NULL].  The
    thread object lives at the bottom of its stack and [memset] leaves every
    field zero.  The 64-byte alignment only changes the local [sp], which is
    not read again, and [_ST_INIT_CONTEXT] fills the machine context. *)
Definition st_thread_create (os : os_alloc) (start arg joinable size : Z)
  : M (option Z) :=
  let size := if size =? 0 then ST_DEFAULT_STACK_SIZE else size in
  page ← get (λ w, pagesize (_st_this_vp w));
  if page =? 0 then fault
  else
    let size := wrap_int (wrap_int (wrap_int (size + page - 1) ÷ page) * page) in
    stack ← _st_stack_new os size;
    match stack with
    | None => mret None
    | Some stack =>
        s ← get_stack stack;
        let sp := stk_bottom s in
        let thread := sp in
        let sp := sp + sizeof_thread in
        let sp := sp + ST_KEYS_MAX * sizeof_ptr in
        put_stack stack
          (mk_stack (vaddr s) (vaddr_size s) (stk_size s) (stk_bottom s) (stk_top s) sp);;
        let ptds := replicate (Z.to_nat ST_KEYS_MAX) 0 in
        modify (λ w, set_threads
                       (<[thread := mk_thread 0 0 start arg 0 (Some stack) 0 None None 0
                                      ptds None]> (threads w)) w);;
        upd_thread thread (set_t_state _ST_ST_RUNNABLE);;
        modify (λ w, set_active_count (wrap_int (_st_active_count w + 1)) w);;
        _ST_ADD_RUNQ thread;;
        mret (Some thread)
    end.

End Create.

Definition put_cell (p v : Z) : M unit :=
  modify (λ w, set_cells (<[p := v]> (cells w)) w).

(** The end of [st_thread_join], once the target is a zombie. *)
Definition st_thread_join_finish (thread : Z) (retvalp : option Z) : M Z :=
  match retvalp with
  | Some p => th ← get_thread thread; put_cell p (t_retval th)
  | None => mret tt
  end;;
  upd_thread thread (set_t_state _ST_ST_RUNNABLE);;
  _ST_ADD_RUNQ thread;;
  upd_vp (λ v, set_zombie_q (ST_REMOVE_LINK thread (zombie_q v)) v);;
  mret 0.

(** [while (thread->state != _ST_ST_ZOMBIE) if (st_cond_wait(term) != 0) return -1;]
    followed by the end of the function, up to the next context switch.
    [fuel] bounds the number of tests of the loop condition. *)
Fixpoint st_thread_join_wait (fuel : nat) (thread term : Z) (retvalp : option Z)
  : M call :=
  match fuel with
  | O => spin
  | S fuel' =>
      th ← get_thread thread;
      if decide (t_state th ≠ _ST_ST_ZOMBIE) then
        r ← st_cond_wait_enter fuel' term;
        match r with
        | Yield => mret Yield
        | Return rv =>
            if c_true rv then mret (Return (-1))
            else st_thread_join_wait fuel' thread term retvalp
        end
      else
        rv ← st_thread_join_finish thread retvalp;
        mret (Return rv)
  end.

(** [st_thread_join(thread, retvalp)] up to its first context switch. *)
Definition st_thread_join_enter (fuel : nat) (thread : Z) (retvalp : option Z)
  : M call :=
  th ← get_thread thread;
  match t_term th with
  | None => rv ← fail_with EINVAL; mret (Return rv)
  | Some term =>
      me ← _ST_CURRENT_THREAD;
      if decide (me = thread) then
        rv ← fail_with EDEADLK; mret (Return rv)
      else
        c ← get_cond term;
        if negb (ST_CLIST_IS_EMPTY (c_wait_q c)) then
          rv ← fail_with EINVAL; mret (Return rv)
        else st_thread_join_wait fuel thread term retvalp
  end.

(** [st_thread_join] from the point where the joiner [me] runs again inside
    [st_cond_wait(term)]. *)
Definition st_thread_join_resume (fuel : nat) (me thread term : Z)
    (retvalp : option Z) : M call :=
  rv ← st_cond_wait_resume me term;
  if c_true rv then mret (Return (-1))
  else st_thread_join_wait fuel thread term retvalp.

(** ** Thread-specific data ([key.c]) *)

(** [st_key_create(keyp, destructor)]. *)
Definition st_key_create (keyp destructor : Z) : M Z :=
  k ← get key_max;
  if k >=? ST_KEYS_MAX then fail_with EAGAIN
  else
    put_cell keyp k;;
    modify (set_key_max (wrap_int (k + 1)));;
    modify (λ w, set_destructors (<[Z.to_nat k := destructor]> (_st_destructors w)) w);;
    mret 0.

(** [st_key_getlimit()]. *)
Definition st_key_getlimit : M Z := mret ST_KEYS_MAX.

(** [me->private_data[key]] and [_st_destructors[key]], for a [key] already
    checked to be in [0, ST_KEYS_MAX). *)
Definition get_private_data (thread key : Z) : M Z :=
  th ← get_thread thread;
  match t_private_data th !! Z.to_nat key with
  | Some v => mret v
  | None => fault
  end.

Definition get_destructor (key : Z) : M Z := λ w,
  match _st_destructors w !! Z.to_nat key with
  | Some d => Ret d w
  | None => Fault w
  end.

(** A call of the user function [destructor] on [value], recorded. *)
Definition call_destructor (destructor value : Z) : M unit :=
  modify (λ w, set_destructor_calls (destructor_calls w ++ [(destructor, value)]) w).

(** [st_thread_setspecific(key, value)]. *)
Definition st_thread_setspecific (key value : Z) : M Z :=
  me ← _ST_CURRENT_THREAD;
  if (key <? 0) || (key >=? ST_KEYS_MAX) then fail_with EINVAL
  else
    old ← get_private_data me key;
    (if decide (value ≠ old) then
       (if c_true old then
          d ← get_destructor key;
          when (c_true d) (call_destructor d old)
        else mret tt);;
       upd_thread me (λ th,
         set_t_private_data (<[Z.to_nat key := value]> (t_private_data th)) th)
     else mret tt);;
    mret 0.

(** [st_thread_getspecific(key)]; 0 is [NULL]. *)
Definition st_thread_getspecific (key : Z) : M Z :=
  k ← get key_max;
  if (key <? 0) || (key >=? k) then mret 0
  else
    me ← _ST_CURRENT_THREAD;
    get_private_data me key.

(** ** More of [sync.c]: [st_sleep], creation and destruction *)

(** [st_sleep(secs)] up to its context switch: a negative [secs] sleeps
    without a deadline. *)
Definition st_sleep_enter (fuel : nat) (secs : Z) : M call :=
  st_usleep_enter fuel
    (if secs >=? 0 then wrap_utime (secs * 1000000) else ST_UTIME_NO_TIMEOUT).

(** [st_utime_last_clock()]. *)
Definition st_utime_last_clock : M Z := get (λ w, last_clock (_st_this_vp w)).

(** [st_cond_new()]; [mem] is what [calloc] answers. *)
Definition st_cond_new (mem : option Z) : M (option Z) :=
  match mem with
  | Some cvar =>
      modify (λ w, set_conds (<[cvar := mk_cond []]> (conds w)) w);;
      mret (Some cvar)
  | None => mret None
  end.


(** [st_mutex_new()]; [calloc] leaves the owner null. *)
Definition st_mutex_new (mem : option Z) : M (option Z) :=
  match mem with
  | Some lock =>
      modify (λ w, set_mutexes (<[lock := mk_mutex None []]> (mutexes w)) w);;
      mret (Some lock)
  | None => mret None
  end.

(** [st_mutex_destroy(lock)]. *)
Definition st_mutex_destroy (lock : Z) : M Z :=
  m ← get_mutex lock;
  if bool_decide (m_owner m ≠ None) || negb (ST_CLIST_IS_EMPTY (m_wait_q m))
  then fail_with EBUSY
  else
    modify (λ w, set_mutexes (delete lock (mutexes w)) w);;
    mret 0.

(** ** More of [key.c]: [_st_thread_cleanup] *)

(** The loop of [_st_thread_cleanup], at [key] with [n] keys left. *)
Fixpoint _st_thread_cleanup_loop (n : nat) (thread key : Z) : M unit :=
  match n with
  | O => mret tt
  | S n' =>
      v ← get_private_data thread key;
      (if c_true v then
         d ← get_destructor key;
         if c_true d then
           call_destructor d v;;
           upd_thread thread (λ th,
             set_t_private_data (<[Z.to_nat key := 0]> (t_private_data th)) th)
         else mret tt
       else mret tt);;
      _st_thread_cleanup_loop n' thread (key + 1)
  end.

(** [_st_thread_cleanup(thread)]: [for (key = 0; key < key_max; key++)]. *)
Definition _st_thread_cleanup (thread : Z) : M unit :=
  k ← get key_max;
  _st_thread_cleanup_loop (Z.to_nat k) thread 0.

(** ** More of [stk.c]: [_st_stack_free] *)

(** [ST_APPEND_LINK(e, l)] where [l] is the last element of the list (the
    list head itself when the list is empty): [e] goes in front of the last
    element. *)
Definition insert_before_last (e : Z) (l : list Z) : list Z :=
  match reverse l with
  | [] => [e]
  | last :: front => reverse front ++ [e; last]
  end.

(** [_st_stack_free(ts)]. *)
Definition _st_stack_free (ts : option Z) : M unit :=
  match ts with
  | None => mret tt
  | Some ts =>
      modify (λ w, set_free_stacks (insert_before_last ts (_st_free_stacks w))
                     (wrap_int (_st_num_free_stacks w + 1)) w)
  end.

(** ** More of [sched.c]: the clock, [st_thread_self], [st_thread_exit] *)

Definition set_t_retval (v : Z) (t : _st_thread_t) : _st_thread_t :=
  mk_thread (t_state t) (t_flags t) (t_start t) (t_arg t) v (t_stack t)
    (t_due t) (t_left t) (t_right t) (t_heap_index t) (t_private_data t) (t_term t).

(** [assert(b)]: a failed assertion aborts the program. *)
Definition assert (b : bool) : M unit := if b then mret tt else fault.

Definition set_this_thread (v : Z) (w : world) : world :=
  mk_world (threads w) (conds w) (mutexes w) (pollqs w) (pollfds w) (stacks w) (cells w)
    (_st_this_vp w) v (_st_active_count w) (errno w)
    (_st_epoll_data w) (key_max w) (_st_destructors w) (destructor_calls w)
    (_st_free_stacks w) (_st_num_free_stacks w) (_st_randomize_stacks w).

(** [_ST_SET_CURRENT_THREAD(thread)], what the scheduler does before it
    restores the context of [thread]. *)
Definition _ST_SET_CURRENT_THREAD (thread : Z) : M unit :=
  modify (set_this_thread thread).

(** [st_thread_self()]. *)
Definition st_thread_self : M Z := _ST_CURRENT_THREAD.

(** The globals [_st_curr_time] and [_st_last_tset] of [sched.c]. *)
Record time_cache := mk_time_cache { _st_curr_time : Z; _st_last_tset : Z }.

(** The loop of [_st_vp_check_clock] over the due sleepers. *)
Fixpoint _st_vp_check_clock_loop (fuel : nat) (now : Z) : M unit :=
  match fuel with
  | O => spin
  | S fuel' =>
      root ← get (λ w, sleep_q (_st_this_vp w));
      match root with
      | None => mret tt
      | Some thread =>
          th ← get_thread thread;
          assert (flag_set (t_flags th) _ST_FL_ON_SLEEPQ);;
          if t_due th >? now then mret tt
          else
            _ST_DEL_SLEEPQ fuel' thread;;
            th ← get_thread thread;
            when (bool_decide (t_state th = _ST_ST_COND_WAIT))
              (upd_thread thread (set_t_flags (flag_add (t_flags th) _ST_FL_TIMEDOUT)));;
            th ← get_thread thread;
            assert (negb (flag_set (t_flags th) _ST_FL_IDLE_THREAD));;
            upd_thread thread (set_t_state _ST_ST_RUNNABLE);;
            _ST_ADD_RUNQ thread;;
            _st_vp_check_clock_loop fuel' now
      end
  end.

(** [_st_vp_check_clock()]; [now] is what [st_utime()] answers and
    [time_now] what [time(NULL)] answers.  The two time-cache globals are
    passed in and out. *)
Definition _st_vp_check_clock (fuel : nat) (now time_now : Z) (tc : time_cache)
  : M time_cache :=
  upd_vp (λ v, mk_vp (idle_thread v) now (run_q v) (io_q v) (zombie_q v)
                 (pagesize v) (sleep_q v) (sleepq_size v));;
  let tc' :=
    if c_true (_st_curr_time tc) && (wrap_utime (now - _st_last_tset tc) >? 999000)
    then mk_time_cache time_now now else tc in
  _st_vp_check_clock_loop fuel now;;
  mret tc'.

(** [st_thread_exit(retval)] up to its first context switch: for a thread
    with a [term] condition variable the switch after it became a zombie,
    otherwise the final one. *)
Definition st_thread_exit_enter (fuel : nat) (retval : Z) : M unit :=
  me ← _ST_CURRENT_THREAD;
  upd_thread me (set_t_retval retval);;
  _st_thread_cleanup me;;
  modify (λ w, set_active_count (wrap_int (_st_active_count w - 1)) w);;
  th ← get_thread me;
  match t_term th with
  | Some term =>
      upd_thread me (set_t_state _ST_ST_ZOMBIE);;
      upd_vp (λ v, set_zombie_q (ST_APPEND_LINK me (zombie_q v)) v);;
      st_cond_signal fuel term;;
      mret tt
  | None =>
      when (negb (flag_set (t_flags th) _ST_FL_PRIMORDIAL)) (_st_stack_free (t_stack th))
  end.


(** ** More of [event.c]: [_st_epoll_dispatch] *)

Definition EPOLLERR : Z := 0x008.
Definition EPOLLHUP : Z := 0x010.

(** What the operating system answers during one [_st_epoll_dispatch]:
    whether [getpid()] differs from the recorded pid, the result of
    [epoll_create] in that case, and the events [epoll_wait] reports for a
    given timeout, as (descriptor, events) pairs ([nfd] is their number). *)
Record dispatch_os := mk_dispatch_os {
  pid_changed : bool;
  epoll_create_result : Z;
  epoll_wait_result : Z → list (Z * Z)
}.

Definition set_revents (v : Z) (d : _epoll_fd_data_t) : _epoll_fd_data_t :=
  mk_fd_data (rd_ref_cnt d) (wr_ref_cnt d) (ex_ref_cnt d) v.

(** [pds[i].revents = v]. *)
Definition set_pollfd_revents (pds i v : Z) : M unit := λ w,
  match pollfds w !! pds with
  | Some a =>
      if i <? 0 then Fault w
      else match a !! Z.to_nat i with
           | Some pd =>
               Ret tt (set_pollfds
                         (<[pds := <[Z.to_nat i := mk_pollfd (pd_fd pd) (pd_events pd) v]> a]>
                            (pollfds w)) w)
           | None => Fault w
           end
  | None => Fault w
  end.

(** The timeout [_st_epoll_dispatch] hands to [epoll_wait], in
    milliseconds; [(int)] keeps the low 32 bits. *)
Definition _st_epoll_dispatch_timeout : M Z :=
  root ← get (λ w, sleep_q (_st_this_vp w));
  match root with
  | None => mret (-1)
  | Some t =>
      th ← get_thread t;
      clock ← get (λ w, last_clock (_st_this_vp w));
      let min_timeout :=
        if t_due th <=? clock then 0 else wrap_utime (t_due th - clock) in
      mret (wrap_int (min_timeout ÷ 1000))
  end.

(** The first loop of the [nfd > 0] branch: the events are latched. *)
Fixpoint _st_epoll_dispatch_latch (evs : list (Z * Z)) : M unit :=
  match evs with
  | [] => mret tt
  | (osfd, events) :: evs' =>
      upd_fd_data osfd (set_revents events);;
      d ← get_fd_data osfd;
      when (c_true (Z.land (revents d) (Z.lor EPOLLERR EPOLLHUP)))
        (upd_fd_data osfd (λ d, set_revents (Z.lor (revents d) (_ST_EPOLL_EVENTS d)) d));;
      _st_epoll_dispatch_latch evs'
  end.

(** The [revents] computed for one entry from the latched bits [latch]. *)
Definition poll_revents (events latch : Z) : Z :=
  let revents := 0 in
  let revents :=
    if c_true (Z.land events POLLIN) && c_true (Z.land latch EPOLLIN)
    then Z.lor revents POLLIN else revents in
  let revents :=
    if c_true (Z.land events POLLOUT) && c_true (Z.land latch EPOLLOUT)
    then Z.lor revents POLLOUT else revents in
  let revents :=
    if c_true (Z.land events POLLPRI) && c_true (Z.land latch EPOLLPRI)
    then Z.lor revents POLLPRI else revents in
  let revents :=
    if c_true (Z.land latch EPOLLERR) then Z.lor revents POLLERR else revents in
  if c_true (Z.land latch EPOLLHUP) then Z.lor revents POLLHUP else revents.

(** The loop over the entries of one waiter, at entry [i] with [n] entries
    left; the result is [notify]. *)
Fixpoint _st_epoll_dispatch_entries (n : nat) (pds i notify : Z) : M Z :=
  match n with
  | O => mret notify
  | S n' =>
      pd ← get_pollfd pds i;
      d ← get_fd_data (pd_fd pd);
      if revents d =? 0 then
        set_pollfd_revents pds i 0;;
        _st_epoll_dispatch_entries n' pds (i + 1) notify
      else
        let rev := poll_revents (pd_events pd) (revents d) in
        set_pollfd_revents pds i rev;;
        _st_epoll_dispatch_entries n' pds (i + 1) (if c_true rev then 1 else notify)
  end.

(** The walk over the I/O queue, from its head. *)
Fixpoint _st_epoll_dispatch_ioq (fuel : nat) (q : list Z) : M unit :=
  match q with
  | [] => mret tt
  | pq :: q' =>
      p ← get_pollq pq;
      notify ← _st_epoll_dispatch_entries (Z.to_nat (pq_npds p)) (pq_pds p) 0 0;
      (if c_true notify then
         upd_vp (λ v, set_io_q (ST_REMOVE_LINK pq (io_q v)) v);;
         modify (λ w, set_pollqs
                        (<[pq := mk_pollq (pq_thread p) (pq_pds p) (pq_npds p) 0]>
                           (pollqs w)) w);;
         _st_epoll_pollset_del (pq_pds p) (pq_npds p);;
         th ← get_thread (pq_thread p);
         when (flag_set (t_flags th) _ST_FL_ON_SLEEPQ) (_ST_DEL_SLEEPQ fuel (pq_thread p));;
         upd_thread (pq_thread p) (set_t_state _ST_ST_RUNNABLE);;
         _ST_ADD_RUNQ (pq_thread p)
       else mret tt);;
      _st_epoll_dispatch_ioq fuel q'
  end.

(** The last loop: the latches are cleared and the kernel registration of
    each reported descriptor is brought in line with its counts. *)
Fixpoint _st_epoll_dispatch_reconcile (evs : list (Z * Z)) : M unit :=
  match evs with
  | [] => mret tt
  | (osfd, _) :: evs' =>
      upd_fd_data osfd (set_revents 0);;
      d ← get_fd_data osfd;
      let events := _ST_EPOLL_EVENTS d in
      let op := if c_true events then EPOLL_CTL_MOD else EPOLL_CTL_DEL in
      r ← epoll_ctl op osfd events;
      when ((r =? 0) && (op =? EPOLL_CTL_DEL))
        (upd_epoll (λ e, set_evtlist_cnt (wrap_int (evtlist_cnt e - 1)) e));;
      _st_epoll_dispatch_reconcile evs'
  end.

(** The re-registration after a [fork]: every waiter of the I/O queue is
    added again; the results are not looked at. *)
Fixpoint _st_epoll_dispatch_readd (fuel : nat) (q : list Z) : M unit :=
  match q with
  | [] => mret tt
  | pq :: q' =>
      p ← get_pollq pq;
      _st_epoll_pollset_add fuel (pq_pds p) (pq_npds p);;
      _st_epoll_dispatch_readd fuel q'
  end.

(** [_st_epoll_dispatch()]. *)
Definition _st_epoll_dispatch (fuel : nat) (os : dispatch_os) : M unit :=
  timeout ← _st_epoll_dispatch_timeout;
  proceed ←
    (if pid_changed os then
       if epoll_create_result os <? 0 then mret false
       else
         upd_epoll (λ e, set_evtlist_cnt 0
                           (set_fd_data (replicate (length (fd_data e)) zero_fd_data) e));;
         q ← get (λ w, io_q (_st_this_vp w));
         _st_epoll_dispatch_readd fuel q;;
         mret true
     else mret true);
  if (proceed : bool) then
    let evs := epoll_wait_result os timeout in
    match evs with
    | [] => mret tt
    | _ :: _ =>
        _st_epoll_dispatch_latch evs;;
        q ← get (λ w, io_q (_st_this_vp w));
        _st_epoll_dispatch_ioq fuel q;;
        _st_epoll_dispatch_reconcile evs
    end
  else mret tt.

(** ** More of [sched.c]: the scheduler, the idle thread and [st_init] *)

(** One round of the loop of [_st_vp_schedule()], up to
    [_ST_RESTORE_CONTEXT]: [None] when no thread is active, where the
    program exits; otherwise the thread whose context is restored. *)
Definition _st_vp_schedule : M (option Z) :=
  n ← get _st_active_count;
  if c_true n then
    q ← get (λ w, run_q (_st_this_vp w));
    thread ←
      match q with
      | t :: _ =>
          upd_vp (λ v, set_run_q (ST_REMOVE_LINK t (run_q v)) v);;
          mret (Some t)
      | [] => get (λ w, idle_thread (_st_this_vp w))
      end;
    th ← get_thread_opt thread;
    assert (bool_decide (t_state th = _ST_ST_RUNNABLE));;
    upd_thread_opt thread (set_t_state _ST_ST_RUNNING);;
    match thread with
    | Some t => _ST_SET_CURRENT_THREAD t
    | None => fault
    end;;
    mret thread
  else mret None.

(** What the environment answers in one round of the idle thread: the
    operating system during [_st_epoll_dispatch], [st_utime()] and
    [time(NULL)]. *)
Record idle_env := mk_idle_env {
  idle_os : dispatch_os;
  idle_now : Z;
  idle_time_now : Z
}.

(** One round of the [for (;;)] loop of [_st_idle_thread_start];
    [_ST_VP_IDLE()] is the [dispatch] of the event system. *)
Definition _st_idle_thread_round (fuel : nat) (me : Z) (env : idle_env)
    (tc : time_cache) : M time_cache :=
  _st_epoll_dispatch fuel (idle_os env);;
  tc ← _st_vp_check_clock fuel (idle_now env) (idle_time_now env) tc;
  upd_thread me (set_t_state _ST_ST_RUNNABLE);;
  _ST_ADD_RUNQ me;;
  mret tc.

(** The loop of [_st_idle_thread_start], which has no exit: round [i] runs
    in the environment [env i], and [rounds] bounds the number of rounds. *)
Fixpoint _st_idle_thread_loop (rounds fuel : nat) (me : Z) (env : nat → idle_env)
    (i : nat) (tc : time_cache) : M unit :=
  match rounds with
  | O => spin
  | S rounds' =>
      tc ← _st_idle_thread_round fuel me (env i) tc;
      _st_idle_thread_loop rounds' fuel me env (S i) tc
  end.

(** [_st_idle_thread_start(arg)]. *)
Definition _st_idle_thread_start (rounds fuel : nat) (env : nat → idle_env)
    (tc : time_cache) : M unit :=
  me ← _ST_CURRENT_THREAD;
  _st_idle_thread_loop rounds fuel me env 0 tc.

Section Init.

(** The sizes of [_st_thread_t] and of a pointer on the target. *)
Variables sizeof_thread sizeof_ptr : Z.

(** [_st_io_init()] and the [init] of the event system. *)
Variables _st_io_init eventsys_init : M Z.

(** What the operating system answers to [st_init]: [getpagesize()],
    [st_utime()], the allocations for the stack of the idle thread and the
    [calloc] of the primordial thread. *)
Variables (getpagesize utime : Z) (idle_alloc : os_alloc)
  (primordial_calloc : option Z).

(** The address of the function [_st_idle_thread_start]. *)
Variable idle_start : Z.

(** [st_init()]. *)
Definition st_init : M Z :=
  n ← get _st_active_count;
  if c_true n then mret 0
  else
    r ← _st_io_init;
    if r <? 0 then mret (-1)
    else
      modify (set_vp (mk_vp None 0 [] [] [] 0 None 0));;
      r ← eventsys_init;
      if r <? 0 then mret (-1)
      else
        upd_vp (λ v, mk_vp (idle_thread v) (last_clock v) (run_q v) (io_q v)
                       (zombie_q v) getpagesize (sleep_q v) (sleepq_size v));;
        upd_vp (λ v, mk_vp (idle_thread v) utime (run_q v) (io_q v)
                       (zombie_q v) (pagesize v) (sleep_q v) (sleepq_size v));;
        idle ← st_thread_create sizeof_thread sizeof_ptr idle_alloc idle_start 0 0 0;
        upd_vp (λ v, mk_vp idle (last_clock v) (run_q v) (io_q v)
                       (zombie_q v) (pagesize v) (sleep_q v) (sleepq_size v));;
        match idle with
        | None => mret (-1)
        | Some idle =>
            upd_thread idle (set_t_flags _ST_FL_IDLE_THREAD);;
            modify (λ w, set_active_count (wrap_int (_st_active_count w - 1)) w);;
            upd_vp (λ v, set_run_q (ST_REMOVE_LINK idle (run_q v)) v);;
            match primordial_calloc with
            | None =>
                _st_thread_cleanup idle;;
                th ← get_thread idle;
                _st_stack_free (t_stack th);;
                mret (-1)
            | Some thread =>
                modify (λ w, set_threads
                               (<[thread := mk_thread _ST_ST_RUNNING _ST_FL_PRIMORDIAL
                                              0 0 0 None 0 None None 0
                                              (replicate (Z.to_nat ST_KEYS_MAX) 0) None]>
                                  (threads w)) w);;
                _ST_SET_CURRENT_THREAD thread;;
                modify (λ w, set_active_count (wrap_int (_st_active_count w + 1)) w);;
                mret 0
            end
        end.

End Init.

(** * Specification-side notions *)

(** The threads reachable from [root] through [left] and [right], down to
    [depth] levels: the members of the sleep heap. *)
Fixpoint heap_members (depth : nat) (ts : gmap Z _st_thread_t) (root : option Z)
  : list Z :=
  match depth, root with
  | S depth', Some t =>
      match ts !! t with
      | Some th =>
          t :: heap_members depth' ts (t_left th) ++ heap_members depth' ts (t_right th)
      | None => [t]
      end
  | _, _ => []
  end.

(** "The recorded heap size equals the number of fibers in the heap." *)
Definition sleepq_size_ok (depth : nat) (w : world) : Prop :=
  sleepq_size (_st_this_vp w) =
  Z.of_nat (length (heap_members depth (threads w) (sleep_q (_st_this_vp w)))).

(** "A fiber's OnSleepHeap flag is set if and only if the fiber is present in
    the sleep heap." *)
Definition on_sleepq_flag_ok (depth : nat) (w : world) : Prop :=
  ∀ thread th, threads w !! thread = Some th →
    flag_set (t_flags th) _ST_FL_ON_SLEEPQ = true ↔
    thread ∈ heap_members depth (threads w) (sleep_q (_st_this_vp w)).

(** The number of entries of a [pollfd] array with non-zero [revents]. *)
Definition ready_count (a : list pollfd) : Z :=
  Z.of_nat (length (filter (λ pd, pd_revents pd ≠ 0) a)).

(** The reference counts of a descriptor after one interest [events] is
    dropped: each count whose bit is requested goes down by one. *)
Definition drop_interest (events : Z) (d : _epoll_fd_data_t) : _epoll_fd_data_t :=
  mk_fd_data
    (if c_true (Z.land events POLLIN) then wrap_int (rd_ref_cnt d - 1) else rd_ref_cnt d)
    (if c_true (Z.land events POLLOUT) then wrap_int (wr_ref_cnt d - 1) else wr_ref_cnt d)
    (if c_true (Z.land events POLLPRI) then wrap_int (ex_ref_cnt d - 1) else ex_ref_cnt d)
    (revents d).

(** The latched [revents] of descriptor [fd], when [fd] is in the table. *)
Definition latched (w : world) (fd : Z) : option Z :=
  if fd <? 0 then None
  else revents <$> fd_data (_st_epoll_data w) !! Z.to_nat fd.

(** * Example states *)

Definition plain_thread (state flags : Z) : _st_thread_t :=
  mk_thread state flags 0 0 0 None 0 None None 0 (replicate 16 0) None.

Definition no_epoll : _st_epolldata := mk_epoll [] 0 0 (λ _, (0, 0)) [] true.

Definition empty_world (vp : _st_vp_t) (me : Z) : world :=
  mk_world ∅ ∅ ∅ ∅ ∅ ∅ ∅ vp me 1 0 no_epoll 0 (replicate 16 0) [] [] 0 0.

(** A sleep heap that holds one thread, [1], due at time 50, and a running
    thread [2] that is about to sleep. *)
Definition one_sleeper : world :=
  set_threads
    (<[1 := set_t_heap_index 1 (set_t_due 50
              (plain_thread _ST_ST_SLEEPING _ST_FL_ON_SLEEPQ))]>
       (<[2 := plain_thread _ST_ST_RUNNING 0]> ∅))
    (empty_world (mk_vp None 0 [] [] [] 4096 (Some 1) 1) 2).

(** An empty sleep heap; thread [1] waits on the condition variable [100]
    without a timeout (the state [st_cond_wait] leaves), thread [2] runs. *)
Definition untimed_waiter : world :=
  set_conds (<[100 := mk_cond [1]]> ∅)
    (set_threads
       (<[1 := plain_thread _ST_ST_COND_WAIT 0]>
          (<[2 := plain_thread _ST_ST_RUNNING 0]> ∅))
       (empty_world (mk_vp None 0 [] [] [] 4096 None 0) 2)).

(** A sleep heap with two sleepers, [10] (root, due 10) and [11] (its left
    child, due 20), and thread [1] waiting on the condition variable [100]
    without a timeout. *)
Definition two_sleepers : world :=
  set_conds (<[100 := mk_cond [1]]> ∅)
    (set_threads
       (<[10 := set_t_left (Some 11) (set_t_heap_index 1 (set_t_due 10
                  (plain_thread _ST_ST_SLEEPING _ST_FL_ON_SLEEPQ)))]>
          (<[11 := set_t_heap_index 2 (set_t_due 20
                     (plain_thread _ST_ST_SLEEPING _ST_FL_ON_SLEEPQ))]>
             (<[1 := plain_thread _ST_ST_COND_WAIT 0]>
                (<[2 := plain_thread _ST_ST_RUNNING 0]> ∅))))
       (empty_world (mk_vp None 0 [] [] [] 4096 (Some 10) 2) 2)).

(** A thread of the wait list that is alive and not in the
    [_ST_ST_LOCK_WAIT] state. *)
Definition not_lock_waiting (w : world) (x : Z) : Prop :=
  ∃ tx, threads w !! x = Some tx ∧ t_state tx ≠ _ST_ST_LOCK_WAIT.

(** The state after [st_mutex_unlock] hands the mutex [lock] over to the
    waiter [t]: [t] owns the mutex, is runnable and is the last element of the
    run queue. *)
Definition handed_over (lock : Z) (m : _st_mutex_t) (t : Z) (th : _st_thread_t)
    (w : world) : world :=
  set_vp (set_run_q (run_q (_st_this_vp w) ++ [t]) (_st_this_vp w))
    (set_threads (<[t := set_t_state _ST_ST_RUNNABLE th]> (threads w))
       (set_mutexes (<[lock := set_m_owner (Some t) m]> (mutexes w)) w)).

(** Thread [1] runs and owns the mutex [200]; threads [2], [3] and [4] called
    [st_mutex_lock] in that order. *)
Definition mutex_handoff : world :=
  set_mutexes (<[200 := mk_mutex (Some 1) [2; 3; 4]]> ∅)
    (set_threads
       (<[1 := plain_thread _ST_ST_RUNNING 0]>
          (<[2 := plain_thread _ST_ST_LOCK_WAIT 0]>
             (<[3 := plain_thread _ST_ST_LOCK_WAIT 0]>
                (<[4 := plain_thread _ST_ST_LOCK_WAIT 0]> ∅))))
       (empty_world (mk_vp None 0 [] [] [] 4096 None 0) 1)).

(** The invariant of the key table and of the running thread's slots:
    [key_max] stays within [0, ST_KEYS_MAX] and both arrays have
    [ST_KEYS_MAX] entries. *)
Definition keys_ok (w : world) : Prop :=
  0 <= key_max w <= ST_KEYS_MAX ∧
  length (_st_destructors w) = Z.to_nat ST_KEYS_MAX ∧
  ∃ th, threads w !! _st_this_thread w = Some th ∧
        length (t_private_data th) = Z.to_nat ST_KEYS_MAX.

(** Thread [1] runs; three keys (0, 1, 2) have been created. *)
Definition three_keys : world :=
  set_key_max 3
    (set_threads (<[1 := plain_thread _ST_ST_RUNNING 0]> ∅)
       (empty_world (mk_vp None 0 [] [] [] 4096 None 0) 1)).

(** The [epoll_ctl] call that [_st_epoll_pollset_del] issues for an entry
    whose descriptor went from [d] to [d'], if any: a [MOD] or [DEL], only
    when the interest mask changed and no [revents] is latched. *)
Definition del_kernel_call (fd : Z) (d d' : _epoll_fd_data_t) : list epoll_ctl_call :=
  if negb (_ST_EPOLL_EVENTS d' =? _ST_EPOLL_EVENTS d) && (revents d =? 0) then
    [mk_ctl (if c_true (_ST_EPOLL_EVENTS d') then EPOLL_CTL_MOD else EPOLL_CTL_DEL)
       fd (_ST_EPOLL_EVENTS d')]
  else [].

(** Every entry of the array names a descriptor of the table. *)
Definition fds_in_table (w : world) (a : list pollfd) : Prop :=
  Forall (λ pd, 0 <= pd_fd pd < Z.of_nat (length (fd_data (_st_epoll_data w)))) a.

(** Descriptor 3 has one reader and an event latched by the current
    [dispatch] pass; descriptor 4 has one reader and nothing latched.  The
    array at address [500] asks for [POLLIN] on both. *)
Definition latched_fd : world :=
  set_pollfds (<[500 := [mk_pollfd 3 POLLIN POLLIN; mk_pollfd 4 POLLIN 0]]> ∅)
    (set_epoll_data
       (mk_epoll
          [zero_fd_data; zero_fd_data; zero_fd_data;
           mk_fd_data 1 0 0 EPOLLIN; mk_fd_data 1 0 0 0]
          8 2 (λ _, (0, 0)) [] true)
       (set_threads (<[1 := plain_thread _ST_ST_RUNNING 0]> ∅)
          (empty_world (mk_vp None 0 [] [] [] 4096 None 0) 1))).

(** The state [w] with the descriptor table replaced by [l]. *)
Definition with_fd_data (l : list _epoll_fd_data_t) (w : world) : world :=
  set_epoll_data (set_fd_data l (_st_epoll_data w)) w.

(** The descriptor table after the interests of the entries [a] are dropped,
    one entry after the other. *)
Fixpoint del_table (a : list pollfd) (l : list _epoll_fd_data_t)
  : list _epoll_fd_data_t :=
  match a with
  | [] => l
  | pd :: a' =>
      del_table a'
        match l !! Z.to_nat (pd_fd pd) with
        | Some d => <[Z.to_nat (pd_fd pd) := drop_interest (pd_events pd) d]> l
        | None => l
        end
  end.

(** A system call that [_st_epoll_pollset_del] may issue in state [w]: a
    [MOD] to a non-empty mask or a [DEL], on a descriptor with no latched
    [revents]. *)
Definition del_call_ok (w : world) (c : epoll_ctl_call) : Prop :=
  latched w (ctl_fd c) = Some 0 ∧
  (ctl_op c = EPOLL_CTL_MOD ∧ ctl_events c ≠ 0 ∨
   ctl_op c = EPOLL_CTL_DEL ∧ ctl_events c = 0).

(** The system calls issued for the entries [a], starting from the table
    [l]: for each entry, the call [del_kernel_call] describes. *)
Fixpoint del_calls (a : list pollfd) (l : list _epoll_fd_data_t)
  : list epoll_ctl_call :=
  match a with
  | [] => []
  | pd :: a' =>
      match l !! Z.to_nat (pd_fd pd) with
      | Some d =>
          del_kernel_call (pd_fd pd) d (drop_interest (pd_events pd) d) ++
          del_calls a' (<[Z.to_nat (pd_fd pd) := drop_interest (pd_events pd) d]> l)
      | None => []
      end
  end.

(** Thread [1] was waiting in [st_poll] on the one-entry array at [500]
    (read interest on descriptor 3) with its [pq] at address [600];
    [dispatch] found the descriptor readable, stored [POLLIN] in [revents],
    took [pq] off the I/O queue and made the thread runnable; the scheduler
    has just resumed it. *)
Definition fd_ready : world :=
  set_pollqs (<[600 := mk_pollq 1 500 1 0]> ∅)
    (set_pollfds (<[500 := [mk_pollfd 3 POLLIN POLLIN]]> ∅)
       (set_threads (<[1 := plain_thread _ST_ST_RUNNING 0]> ∅)
          (empty_world (mk_vp None 0 [] [] [] 4096 None 0) 1))).

(** Thread [1] runs with a pending interrupt; the mutex [200] is free and
    the condition variable [100] has no waiter. *)
Definition interrupted : world :=
  set_mutexes (<[200 := mk_mutex None []]> ∅)
    (set_conds (<[100 := mk_cond []]> ∅)
       (set_threads (<[1 := plain_thread _ST_ST_RUNNING _ST_FL_INTERRUPT]> ∅)
          (empty_world (mk_vp None 0 [] [] [] 4096 None 0) 1))).

(** Thread [1] is resumed inside [st_cond_timedwait] on the condition
    variable [100] with both [_ST_FL_INTERRUPT] and [_ST_FL_TIMEDOUT] set:
    [_st_vp_check_clock] found its deadline passed (it sets
    [_ST_FL_TIMEDOUT] and makes the thread runnable), and
    [st_thread_interrupt] was called on it before it ran again (for a
    runnable thread it only sets [_ST_FL_INTERRUPT]). *)
Definition both_flags : world :=
  set_conds (<[100 := mk_cond [1]]> ∅)
    (set_threads
       (<[1 := plain_thread _ST_ST_RUNNING (Z.lor _ST_FL_INTERRUPT _ST_FL_TIMEDOUT)]> ∅)
       (empty_world (mk_vp None 0 [] [] [] 4096 None 0) 1)).

(** The state after [st_init]'s queues are set up: the primordial thread [1]
    runs, the page size is 4096 and no stack is free. *)
Definition initialised : world :=
  set_threads (<[1 := plain_thread _ST_ST_RUNNING _ST_FL_PRIMORDIAL]> ∅)
    (empty_world (mk_vp None 0 [] [] [] 4096 None 0) 1).

(** The operating system grants the stack: [calloc] answers 7000 and [mmap]
    65536. *)
Definition os_grants : os_alloc := mk_os_alloc (Some 7000) (Some 65536) 0.

(** * Further scenarios and example states *)

(** Thread [1] runs; the mutex [200] is free and nobody waits for it. *)
Definition initialised_mutex : world :=
  set_mutexes (<[200 := mk_mutex None []]> ∅) initialised.




(** Thread [1] runs with nothing pending; nobody sleeps. *)
Definition quiet : world :=
  set_conds (<[100 := mk_cond []]> ∅)
    (set_threads (<[1 := plain_thread _ST_ST_RUNNING 0]> ∅)
       (empty_world (mk_vp None 0 [] [] [] 4096 None 0) 1)).

(** Thread [2] was waiting for the mutex [200] with thread [3] behind it;
    the owner unlocked, which made [2] the owner, and [st_thread_interrupt]
    was called on [2] before it ran again. *)
Definition granted_interrupted : world :=
  set_mutexes (<[200 := mk_mutex (Some 2) [2; 3]]> ∅)
    (set_threads
       (<[2 := plain_thread _ST_ST_RUNNABLE _ST_FL_INTERRUPT]>
          (<[3 := plain_thread _ST_ST_LOCK_WAIT 0]> ∅))
       (empty_world (mk_vp None 0 [2] [] [] 4096 None 0) 2)).

(** The slots of a thread after [_st_thread_cleanup]: going through the
    destructor table [ds] and the slots side by side, a non-null slot whose
    key has a destructor becomes null; the slots beyond [ds] stay. *)
Fixpoint cleanup_slots (ds pd : list Z) : list Z :=
  match ds, pd with
  | d :: ds', v :: pd' =>
      (if c_true v && c_true d then 0 else v) :: cleanup_slots ds' pd'
  | _, _ => pd
  end.

(** The destructor calls [_st_thread_cleanup] makes, in key order, as
    (destructor, value). *)
Fixpoint cleanup_calls (ds pd : list Z) : list (Z * Z) :=
  match ds, pd with
  | d :: ds', v :: pd' =>
      (if c_true v && c_true d then [(d, v)] else []) ++ cleanup_calls ds' pd'
  | _, _ => []
  end.

(** Thread [1] runs; keys 0, 1 and 2 exist, key 0 and key 2 with the
    destructors [900] and [902]; the thread holds values for key 0 and key 1,
    and a value stored past [key_max] under key 5. *)
Definition with_values : world :=
  set_destructors (<[0%nat := 900]> (<[2%nat := 902]> (replicate 16 0)))
    (set_key_max 3
       (set_threads
          (<[1 := set_t_private_data
                    (<[0%nat := 70]> (<[1%nat := 71]> (<[5%nat := 75]> (replicate 16 0))))
                    (plain_thread _ST_ST_RUNNING 0)]> ∅)
          (empty_world (mk_vp None 0 [] [] [] 4096 None 0) 1))).

(** The reference counts of a descriptor after one interest [events] is
    added: each count whose bit is requested goes up by one. *)
Definition add_interest (events : Z) (d : _epoll_fd_data_t) : _epoll_fd_data_t :=
  mk_fd_data
    (if c_true (Z.land events POLLIN) then wrap_int (rd_ref_cnt d + 1) else rd_ref_cnt d)
    (if c_true (Z.land events POLLOUT) then wrap_int (wr_ref_cnt d + 1) else wr_ref_cnt d)
    (if c_true (Z.land events POLLPRI) then wrap_int (ex_ref_cnt d + 1) else ex_ref_cnt d)
    (revents d).

(** The descriptor table after the interests of the entries [a] are added,
    one entry after the other. *)
Fixpoint add_table (a : list pollfd) (l : list _epoll_fd_data_t)
  : list _epoll_fd_data_t :=
  match a with
  | [] => l
  | pd :: a' =>
      add_table a'
        match l !! Z.to_nat (pd_fd pd) with
        | Some d => <[Z.to_nat (pd_fd pd) := add_interest (pd_events pd) d]> l
        | None => l
        end
  end.

(** An entry [_st_epoll_pollset_add] accepts. *)
Definition valid_pollfd (pd : pollfd) : Prop :=
  0 <= pd_fd pd ∧ pd_events pd ≠ 0 ∧
  Z.land (pd_events pd) (Z.lnot (Z.lor (Z.lor POLLIN POLLOUT) POLLPRI)) = 0.

(** The three counts of a descriptor are [int] values. *)
Definition counts_in_range (d : _epoll_fd_data_t) : Prop :=
  - 2 ^ 31 <= rd_ref_cnt d < 2 ^ 31 ∧
  - 2 ^ 31 <= wr_ref_cnt d < 2 ^ 31 ∧
  - 2 ^ 31 <= ex_ref_cnt d < 2 ^ 31.

(** The event buffer has room for [n] more registered descriptors, so that
    [_st_epoll_evtlist_expand] is not needed. *)
Definition evtlist_room (w : world) (n : Z) : Prop :=
  - 2 ^ 31 <= evtlist_cnt (_st_epoll_data w) ∧
  evtlist_cnt (_st_epoll_data w) + n <= evtlist_size (_st_epoll_data w) ∧
  evtlist_size (_st_epoll_data w) < 2 ^ 31.

(** [w'] differs from [w] at most in the epoll data and in [errno]. *)
Definition epoll_frame (w w' : world) : Prop :=
  ∃ e err, w' = set_errno err (set_epoll_data e w).

(** A computation that, when it returns, has changed at most the epoll data
    and [errno]. *)
Definition frames {A} (m : M A) : Prop :=
  ∀ w a w', m w = Ret a w' → epoll_frame w w'.

(** What the registration loop of [_st_epoll_pollset_add] has done when it
    is started in [w] at index [i] with the [m] entries [entries] to go: it
    returned the index [j] at which it stopped, [i + m] when it came to the
    end; the reference counts of the entries up to and including [j] have
    gone up; and it stopped early only after a system call that failed,
    whose error is in [errno]. *)
Definition add_loop_post (w : world) (i m : nat) (entries : list pollfd)
    (r : res Z) : Prop :=
  ∃ (j : nat) (w' : world) (calls : list epoll_ctl_call),
    r = Ret (Z.of_nat j) w' ∧
    (i ≤ j ≤ i + m)%nat ∧
    pollfds w' = pollfds w ∧
    fd_data (_st_epoll_data w') =
      add_table (take (S j - i) entries) (fd_data (_st_epoll_data w)) ∧
    ctl_result (_st_epoll_data w') = ctl_result (_st_epoll_data w) ∧
    ctl_log (_st_epoll_data w') = ctl_log (_st_epoll_data w) ++ calls ∧
    ((j < i + m)%nat →
       ∃ c, c ∈ calls ∧ (ctl_result (_st_epoll_data w) c).1 < 0 ∧
            errno w' = (ctl_result (_st_epoll_data w) c).2) ∧
    ((∀ c, 0 <= (ctl_result (_st_epoll_data w) c).1) → j = (i + m)%nat).


(** The bits [_st_epoll_dispatch] latches for a descriptor with the counts
    [d] when [epoll_wait] reports [ev] on it: an error or a hang-up also
    raises every event some thread waits for. *)
Definition latched_events (d : _epoll_fd_data_t) (ev : Z) : Z :=
  if c_true (Z.land ev (Z.lor EPOLLERR EPOLLHUP))
  then Z.lor ev (_ST_EPOLL_EVENTS d) else ev.

(** Thread [1] waits in [st_poll] for descriptor 3 to become readable: its
    [pq] at address [600] is the only entry of the I/O queue, the array at
    [500] has the one entry and the descriptor has one reader.  Thread [2]
    runs. *)
Definition one_poller : world :=
  set_pollqs (<[600 := mk_pollq 1 500 1 1]> ∅)
    (set_pollfds (<[500 := [mk_pollfd 3 POLLIN 0]]> ∅)
       (set_epoll_data
          (mk_epoll
             [zero_fd_data; zero_fd_data; zero_fd_data; mk_fd_data 1 0 0 0]
             8 1 (λ _, (0, 0)) [] true)
          (set_threads
             (<[1 := plain_thread _ST_ST_IO_WAIT 0]>
                (<[2 := plain_thread _ST_ST_RUNNING 0]> ∅))
             (empty_world (mk_vp None 0 [] [600] [] 4096 None 0) 2)))).

(** The layout [_st_stack_new] promises for a stack of [size] usable bytes
    on pages of [page] bytes: the usable region has the requested size, a
    red zone of at least one page lies between each end of the mapping and
    the usable region, and the region starts at a multiple of 16 bytes from
    the end of the lower red zone. *)
Definition stack_layout_ok (page size : Z) (s : _st_stack_t) : Prop :=
  stk_size s = size ∧
  stk_top s - stk_bottom s = size ∧
  vaddr s + page <= stk_bottom s ∧
  stk_top s + page <= vaddr s + vaddr_size s ∧
  (stk_bottom s - (vaddr s + page)) mod 16 = 0.

(** Every stack of the list [l] is too small for a request of [size]
    bytes. *)
Definition all_too_small (w : world) (size : Z) (l : list Z) : Prop :=
  Forall (λ ts, ∃ s, stacks w !! ts = Some s ∧ stk_size s < size) l.

(** The thread at address [69632] runs on the stack [7000], a mapping at
    [65536] with two pages of usable space between two red zones; it has no
    [term] condition variable, and no stack is free. *)
Definition worker_running : world :=
  set_stacks (<[7000 := mk_stack 65536 16384 8192 69632 77824 70784]> ∅)
    (set_threads
       (<[69632 := mk_thread _ST_ST_RUNNING 0 0 0 0 (Some 7000) 0 None None 0
                     (replicate 16 0) None]> ∅)
       (empty_world (mk_vp None 0 [] [] [] 4096 None 0) 69632)).

(** The record of a sleeper [th] that [_st_vp_check_clock] has woken: off
    the heap, runnable, and with [_ST_FL_TIMEDOUT] when it was waiting on a
    condition variable. *)
Definition woken (th : _st_thread_t) : _st_thread_t :=
  let flags := flag_clear (t_flags th) _ST_FL_ON_SLEEPQ in
  set_t_state _ST_ST_RUNNABLE
    (set_t_flags
       (if bool_decide (t_state th = _ST_ST_COND_WAIT)
        then flag_add flags _ST_FL_TIMEDOUT else flags)
       (set_t_left None (set_t_right None th))).

(** The state [w] with the clock of the virtual processor set to [now]. *)
Definition at_clock (now : Z) (w : world) : world :=
  set_vp (mk_vp (idle_thread (_st_this_vp w)) now (run_q (_st_this_vp w))
            (io_q (_st_this_vp w)) (zombie_q (_st_this_vp w))
            (pagesize (_st_this_vp w)) (sleep_q (_st_this_vp w))
            (sleepq_size (_st_this_vp w))) w.

(** The state before [st_init]: no thread, no active thread, and a zeroed
    virtual processor. *)
Definition uninitialised : world :=
  set_active_count 0 (empty_world (mk_vp None 0 [] [] [] 0 None 0) 0).



(** The number of interests registered on a descriptor. *)
Definition interests (d : _epoll_fd_data_t) : Z :=
  rd_ref_cnt d + wr_ref_cnt d + ex_ref_cnt d.

(** No count of the descriptor is negative, and each can grow by [n] and
    remain an [int]. *)
Definition counts_below (n : Z) (d : _epoll_fd_data_t) : Prop :=
  (0 <= rd_ref_cnt d ∧ rd_ref_cnt d + n < 2 ^ 31) ∧
  (0 <= wr_ref_cnt d ∧ wr_ref_cnt d + n < 2 ^ 31) ∧
  (0 <= ex_ref_cnt d ∧ ex_ref_cnt d + n < 2 ^ 31).

(** * Verification *)

(** ** Running computations *)

Lemma bind_eq {A B} (m : M A) (k : A → M B) (w : world) :
  (m ≫= k) w =
  match m w with
  | Ret a w' => k a w'
  | Fault w' => Fault w'
  | Spin => Spin
  end.
Proof. reflexivity. Qed.

Lemma get_thread_some (w : world) (thread : Z) (th : _st_thread_t) :
  threads w !! thread = Some th → get_thread thread w = Ret th w.
Proof. intros H. unfold get_thread. by rewrite H. Qed.

Lemma upd_thread_some (w : world) (thread : Z) (th : _st_thread_t) f :
  threads w !! thread = Some th →
  upd_thread thread f w = Ret tt (set_threads (<[thread := f th]> (threads w)) w).
Proof. intros H. unfold upd_thread. by rewrite H. Qed.

(** Symbolic execution of a computation whose memory accesses are decided by
    the hypotheses at hand. *)
Ltac mrun :=
  repeat first
    [ rewrite bind_eq
    | progress unfold get_thread, upd_thread, get_thread_opt, upd_thread_opt,
        get_cond, upd_cond, get_mutex, upd_mutex, get_pollq, upd_vp, upd_epoll,
        fail_with, modify, get, fault, _ST_CURRENT_THREAD, _ST_ADD_RUNQ, mret, M_ret
    | progress simpl
    | rewrite lookup_insert_eq
    | match goal with
      | H : threads _ !! _ = Some _ |- _ => rewrite H
      | H : conds _ !! _ = Some _ |- _ => rewrite H
      | H : mutexes _ !! _ = Some _ |- _ => rewrite H
      | H : pollqs _ !! _ = Some _ |- _ => rewrite H
      | H : flag_set _ _ = _ |- _ => rewrite H
      end ].

Lemma wrap_int_small (x : Z) : - 2 ^ 31 <= x < 2 ^ 31 → wrap_int x = x.
Proof. intros H. unfold wrap_int. rewrite Z.mod_small; lia. Qed.

(** ** The sleep heap *)

(** The first loop of [heap_insert] never leaves a non-zero [s]. *)
Lemma heap_insert_bits_spin (fuel : nat) (s bits : Z) (w : world) :
  s ≠ 0 → heap_insert_bits fuel s bits w = Spin.
Proof.
  intros Hs. revert bits.
  induction fuel as [|fuel IH]; intros bits; simpl; [done|].
  unfold c_true. destruct (Z.eqb_spec s 0) as [->|_]; [done|]. apply IH.
Qed.

Lemma heap_insert_spin (fuel : nat) (thread : Z) (th : _st_thread_t) (w : world) :
  threads w !! thread = Some th → t_heap_index th ≠ 0 →
  heap_insert fuel thread w = Spin.
Proof.
  intros Hth Hidx. unfold heap_insert.
  rewrite bind_eq, (get_thread_some _ _ _ Hth), bind_eq.
  by rewrite heap_insert_bits_spin.
Qed.

(** C1 (code defect).  Inserting a thread with a finite timeout into the sleep
    heap never terminates: whatever the fuel, [_st_add_sleep_q] is still in the
    first loop of [heap_insert], whose statement [s >> 1;] leaves [s]
    unchanged.  This holds from the empty heap and from every non-empty one
    (the new [heap_index] is the new size, which is not zero). *)
Theorem add_sleep_q_never_returns (fuel : nat) (thread timeout : Z)
    (th : _st_thread_t) (w : world) :
  threads w !! thread = Some th →
  0 <= sleepq_size (_st_this_vp w) < 2 ^ 31 - 1 →
  _st_add_sleep_q fuel thread timeout w = Spin.
Proof.
  intros Hth Hsz. unfold _st_add_sleep_q. mrun.
  erewrite heap_insert_spin; [done | simpl; apply lookup_insert_eq |].
  simpl. rewrite wrap_int_small; lia.
Qed.

Lemma add_sleep_q_never_returns_witness :
  sleepq_size (_st_this_vp one_sleeper) = 1 ∧
  ∀ fuel, _st_add_sleep_q fuel 2 1000 one_sleeper = Spin.
Proof.
  split; [reflexivity|]. intros fuel.
  apply (add_sleep_q_never_returns fuel 2 1000 (plain_thread _ST_ST_RUNNING 0) one_sleeper).
  - reflexivity.
  - simpl. lia.
Defined.

(** The sibling loop of [heap_delete] does shift [s], and ends: the defect is
    in [heap_insert] alone. *)
Lemma heap_delete_bits_returns (s bits : Z) (w : world) :
  0 <= s < 2 ^ 31 →
  ∃ bits', heap_delete_bits 33 s bits w = Ret bits' w.
Proof.
  intros Hs.
  assert (Hgen : ∀ (n : nat) s bits, 0 <= s < 2 ^ Z.of_nat n →
            ∃ bits', heap_delete_bits (S n) s bits w = Ret bits' w).
  { clear. induction n as [|n IH]; intros s bits Hs.
    - assert (s = 0) as -> by (simpl in Hs; lia). by eexists.
    - simpl. unfold c_true. destruct (Z.eqb_spec s 0) as [->|Hne]; [by eexists|].
      simpl. apply IH. rewrite Z.shiftr_div_pow2 by lia.
      rewrite Nat2Z.inj_succ, Z.pow_succ_r in Hs by lia.
      split; [apply Z.div_pos; lia|]. apply Z.div_lt_upper_bound; lia. }
  apply (Hgen 32%nat). simpl. lia.
Qed.

(** Removing a thread that is not in an empty sleep heap: the recorded size
    drops to -1 and the null "last element" is written through. *)
Lemma heap_delete_absent_empty (fuel : nat) (thread : Z) (th : _st_thread_t)
    (w : world) :
  threads w !! thread = Some th →
  sleep_q (_st_this_vp w) = None →
  sleepq_size (_st_this_vp w) = 0 →
  heap_delete (S fuel) thread w =
  Fault (set_vp (set_sleepq_size (-1) (set_sleep_q None (_st_this_vp w))) w).
Proof.
  intros Hth Hq Hsz. unfold heap_delete. mrun.
  rewrite Hsz. mrun. rewrite Hq. mrun.
  destruct (decide (None ≠ Some thread)) as [_|Hn]; [|by destruct Hn].
  mrun. by rewrite Hsz.
Qed.

(** ** Signalling a condition variable *)

(** C6 (code defect).  [_st_cond_signal] removes every waiter in the
    [_ST_ST_COND_WAIT] state from the sleep heap without testing
    [_ST_FL_ON_SLEEPQ].  For a waiter that called [st_cond_wait] (no timeout)
    while the heap is empty, [heap_delete] takes the null root as the last
    element, lowers the recorded size to -1 and then writes through the null
    pointer: at that point the size no longer counts the heap's members. *)
Theorem cond_signal_untimed_waiter_breaks_sleepq (fuel : nat) (cvar broadcast : Z)
    (c : _st_cond_t) (thread : Z) (q : list Z) (th : _st_thread_t) (w : world) :
  conds w !! cvar = Some c →
  c_wait_q c = thread :: q →
  threads w !! thread = Some th →
  t_state th = _ST_ST_COND_WAIT →
  flag_set (t_flags th) _ST_FL_ON_SLEEPQ = false →
  sleep_q (_st_this_vp w) = None →
  sleepq_size (_st_this_vp w) = 0 →
  ∃ w', _st_cond_signal (S fuel) cvar broadcast w = Fault w' ∧
        sleep_q (_st_this_vp w') = None ∧
        sleepq_size (_st_this_vp w') = -1 ∧
        ∀ depth, ¬ sleepq_size_ok depth w'.
Proof.
  intros Hc Hq Hth Hst _ Hroot Hsz.
  eexists. split.
  - unfold _st_cond_signal. rewrite bind_eq. unfold get_cond. rewrite Hc, Hq.
    cbn [_st_cond_signal_loop]. rewrite !bind_eq, (get_thread_some _ _ _ Hth).
    rewrite bool_decide_eq_true_2 by done. cbn [when].
    unfold _ST_DEL_SLEEPQ, _st_del_sleep_q. rewrite !bind_eq.
    by rewrite (heap_delete_absent_empty _ _ _ _ Hth Hroot Hsz).
  - simpl. repeat split.
    intros depth. unfold sleepq_size_ok. simpl. by destruct depth.
Qed.

Lemma cond_signal_untimed_waiter_breaks_sleepq_witness :
  ∃ w', st_cond_signal 8 100 untimed_waiter = Fault w' ∧
        sleep_q (_st_this_vp w') = None ∧
        sleepq_size (_st_this_vp w') = -1 ∧
        ∀ depth, ¬ sleepq_size_ok depth w'.
Proof.
  apply (cond_signal_untimed_waiter_breaks_sleepq 7 100 0 (mk_cond [1]) 1 []
           (plain_thread _ST_ST_COND_WAIT 0) untimed_waiter); reflexivity.
Defined.

(** The same call on a heap that holds two sleepers returns, with the root
    sleeper [10] cut off from the heap while its [_ST_FL_ON_SLEEPQ] flag is
    still set. *)
Example cond_signal_drops_a_sleeper :
  ∃ w', st_cond_signal 8 100 two_sleepers = Ret 0 w' ∧
        sleep_q (_st_this_vp w') = Some 11 ∧
        sleepq_size (_st_this_vp w') = 1 ∧
        heap_members 3 (threads w') (sleep_q (_st_this_vp w')) = [11] ∧
        (t_flags <$> threads w' !! 10) = Some _ST_FL_ON_SLEEPQ ∧
        ¬ on_sleepq_flag_ok 3 w'.
Proof.
  eexists. split; [vm_compute; reflexivity|].
  split; [reflexivity|]. split; [reflexivity|].
  split; [by vm_compute|]. split; [by vm_compute|].
  intros Hok.
  pose proof (Hok 10 (set_t_heap_index 1 (set_t_due 10
                        (plain_thread _ST_ST_SLEEPING _ST_FL_ON_SLEEPQ)))) as [Hin _].
  { by vm_compute. }
  specialize (Hin eq_refl). vm_compute in Hin.
  apply list_elem_of_singleton in Hin. done.
Qed.

(** ** Mutexes *)

Lemma st_mutex_unlock_loop_skip (lock : Z) (pre q : list Z) (w : world) :
  Forall (not_lock_waiting w) pre →
  st_mutex_unlock_loop lock (pre ++ q) w = st_mutex_unlock_loop lock q w.
Proof.
  induction 1 as [|x pre (tx & Hx & Hst) _ IH]; [done|].
  simpl. rewrite bind_eq, (get_thread_some _ _ _ Hx).
  by destruct (decide (t_state tx = _ST_ST_LOCK_WAIT)).
Qed.

(** C7.  [st_mutex_unlock]: a caller that is not the owner gets -1 with
    [errno = EPERM] and nothing else changes; the owner hands the mutex
    directly to the first waiter in the [_ST_ST_LOCK_WAIT] state (the owner
    field goes from the caller to that waiter, which becomes runnable and is
    appended to the run queue); with no such waiter the owner is cleared. *)
Theorem st_mutex_unlock_spec (lock : Z) (m : _st_mutex_t) (w : world) :
  mutexes w !! lock = Some m →
  (m_owner m ≠ Some (_st_this_thread w) →
     st_mutex_unlock lock w = Ret (-1) (set_errno EPERM w)) ∧
  (m_owner m = Some (_st_this_thread w) →
     ∀ pre t post th,
       m_wait_q m = pre ++ t :: post →
       Forall (not_lock_waiting w) pre →
       threads w !! t = Some th →
       t_state th = _ST_ST_LOCK_WAIT →
       st_mutex_unlock lock w = Ret 0 (handed_over lock m t th w)) ∧
  (m_owner m = Some (_st_this_thread w) →
     Forall (not_lock_waiting w) (m_wait_q m) →
     st_mutex_unlock lock w =
     Ret 0 (set_mutexes (<[lock := set_m_owner None m]> (mutexes w)) w)).
Proof.
  intros Hm. split; [|split].
  - intros Hown. unfold st_mutex_unlock. mrun.
    by destruct (decide (m_owner m ≠ Some (_st_this_thread w))).
  - intros Hown pre t post th Hq Hpre Hth Hst. unfold st_mutex_unlock. mrun.
    destruct (decide (m_owner m ≠ Some (_st_this_thread w))) as [Hn|_]; [done|].
    rewrite Hq, st_mutex_unlock_loop_skip by done.
    simpl. mrun.
    destruct (decide (t_state th = _ST_ST_LOCK_WAIT)) as [_|Hn]; [|done].
    mrun. reflexivity.
  - intros Hown Hq. unfold st_mutex_unlock. mrun.
    destruct (decide (m_owner m ≠ Some (_st_this_thread w))) as [Hn|_]; [done|].
    rewrite <- (app_nil_r (m_wait_q m)), st_mutex_unlock_loop_skip by done.
    simpl. mrun. reflexivity.
Qed.

Lemma st_mutex_unlock_spec_witness :
  st_mutex_unlock 200 mutex_handoff =
  Ret 0 (handed_over 200 (mk_mutex (Some 1) [2; 3; 4]) 2
           (plain_thread _ST_ST_LOCK_WAIT 0) mutex_handoff).
Proof.
  apply (st_mutex_unlock_spec 200 (mk_mutex (Some 1) [2; 3; 4]) mutex_handoff
           eq_refl) with (pre := []) (post := [3; 4]).
  - reflexivity.
  - reflexivity.
  - constructor.
  - reflexivity.
  - reflexivity.
Defined.

(** ** Thread-specific data *)

(** [st_key_create] keeps [key_max] within bounds, and the key it hands out
    is below the new [key_max]. *)
Lemma st_key_create_keys_ok (keyp destructor : Z) (w : world) :
  keys_ok w →
  ∃ rv w', st_key_create keyp destructor w = Ret rv w' ∧ keys_ok w' ∧
           (rv = 0 → cells w' !! keyp = Some (key_max w) ∧ key_max w' = key_max w + 1).
Proof.
  intros (Hk & Hd & th & Hth & Hp). unfold st_key_create. mrun.
  destruct (Z.geb_spec (key_max w) ST_KEYS_MAX) as [Hge|Hlt].
  - mrun. do 2 eexists. split; [done|]. split; [|done].
    split; [done|]. split; [done|]. by exists th.
  - mrun. do 2 eexists. split; [done|].
    rewrite wrap_int_small by (unfold ST_KEYS_MAX in *; lia).
    split; [|intros _; simpl; by rewrite lookup_insert_eq].
    split; [simpl; lia|]. split; [simpl; by rewrite length_insert|].
    by exists th.
Qed.

Lemma st_thread_setspecific_stores (key value : Z) (w : world) :
  keys_ok w → 0 <= key < ST_KEYS_MAX →
  ∃ w', st_thread_setspecific key value w = Ret 0 w' ∧
        get_private_data (_st_this_thread w) key w' = Ret value w' ∧
        _st_this_thread w' = _st_this_thread w ∧
        key_max w' = key_max w.
Proof.
  intros (Hk & Hd & th & Hth & Hp) Hkey. unfold st_thread_setspecific.
  rewrite bind_eq. unfold _ST_CURRENT_THREAD, get.
  destruct (Z.ltb_spec key 0) as [?|_]; [lia|].
  destruct (Z.geb_spec key ST_KEYS_MAX) as [?|_]; [lia|].
  cbn [orb]. rewrite bind_eq. unfold get_private_data at 1.
  rewrite bind_eq, (get_thread_some _ _ _ Hth).
  destruct (lookup_lt_is_Some_2 (t_private_data th) (Z.to_nat key)) as [old Hold];
    [lia|].
  rewrite Hold. cbn [mret M_ret]. rewrite bind_eq.
  destruct (decide (value ≠ old)) as [Hne|Heq].
  - assert (Hstore : ∀ w0, threads w0 = threads w →
              _st_this_thread w0 = _st_this_thread w → key_max w0 = key_max w →
              ∃ w', (upd_thread (_st_this_thread w)
                       (λ th, set_t_private_data
                                (<[Z.to_nat key := value]> (t_private_data th)) th)
                     ≫= λ _, mret 0) w0 = Ret 0 w' ∧
                    get_private_data (_st_this_thread w) key w' = Ret value w' ∧
                    _st_this_thread w' = _st_this_thread w ∧ key_max w' = key_max w).
    { intros w0 Ht Hme Hkm. eexists. split.
      - rewrite bind_eq. unfold upd_thread. rewrite Ht, Hth. reflexivity.
      - split; [|done]. unfold get_private_data. mrun.
        rewrite list_lookup_insert_eq by lia. done. }
    rewrite bind_eq.
    destruct (c_true old).
    + rewrite bind_eq. unfold get_destructor.
      destruct (lookup_lt_is_Some_2 (_st_destructors w) (Z.to_nat key)) as [d Hdk];
        [lia|].
      rewrite Hdk. destruct (c_true d); cbn [when]; by apply Hstore.
    + by apply Hstore.
  - apply dec_stable in Heq. subst old. eexists. split; [reflexivity|].
    split; [|done]. unfold get_private_data. mrun. by rewrite Hold.
Qed.

(** C10.  [st_thread_setspecific] accepts every key below [ST_KEYS_MAX], while
    [st_thread_getspecific] answers only for keys below [key_max]: for a key
    that was never created the value is stored and then read back as [NULL];
    for a created key the stored value is read back. *)
Theorem tls_set_get_asymmetry (k v : Z) (w : world) :
  keys_ok w →
  0 <= k < ST_KEYS_MAX →
  ∃ w', st_thread_setspecific k v w = Ret 0 w' ∧
        get_private_data (_st_this_thread w') k w' = Ret v w' ∧
        (key_max w <= k → st_thread_getspecific k w' = Ret 0 w') ∧
        (k < key_max w → st_thread_getspecific k w' = Ret v w').
Proof.
  intros Hok Hk.
  destruct (st_thread_setspecific_stores k v w Hok Hk) as (w' & Hset & Hget & Hme & Hkm).
  exists w'. rewrite Hme. split; [done|]. split; [done|].
  unfold st_thread_getspecific. rewrite bind_eq. unfold get. rewrite Hkm.
  destruct (Z.ltb_spec k 0) as [?|_]; [lia|]. cbn [orb].
  split; intros Hcmp.
  - destruct (Z.geb_spec k (key_max w)) as [_|?]; [done|lia].
  - destruct (Z.geb_spec k (key_max w)) as [?|_]; [lia|].
    rewrite bind_eq. unfold _ST_CURRENT_THREAD, get. by rewrite Hme.
Qed.

Lemma three_keys_ok : keys_ok three_keys.
Proof.
  split; [by vm_compute|]. split; [reflexivity|].
  exists (plain_thread _ST_ST_RUNNING 0). split; reflexivity.
Defined.

Lemma tls_set_get_asymmetry_witness :
  (∃ w', st_thread_setspecific 5 77 three_keys = Ret 0 w' ∧
         get_private_data (_st_this_thread w') 5 w' = Ret 77 w' ∧
         st_thread_getspecific 5 w' = Ret 0 w') ∧
  (∃ w', st_thread_setspecific 1 77 three_keys = Ret 0 w' ∧
         st_thread_getspecific 1 w' = Ret 77 w').
Proof.
  split.
  - destruct (tls_set_get_asymmetry 5 77 three_keys three_keys_ok)
      as (w' & Hset & Hraw & Hnull & _); [by vm_compute|].
    exists w'. split; [done|]. split; [done|]. apply Hnull. by vm_compute.
  - destruct (tls_set_get_asymmetry 1 77 three_keys three_keys_ok)
      as (w' & Hset & _ & _ & Hget); [by vm_compute|].
    exists w'. split; [done|]. apply Hget. by vm_compute.
Defined.

(** ** Removing interests from the epoll set *)

Lemma with_fd_data_id (w : world) : with_fd_data (fd_data (_st_epoll_data w)) w = w.
Proof. by destruct w as [? ? ? ? ? ? ? ? ? ? ? [] ? ? ? ? ? ?]. Qed.

Lemma get_fd_data_some (l : list _epoll_fd_data_t) (w : world) (fd : Z)
    (d : _epoll_fd_data_t) :
  0 <= fd → l !! Z.to_nat fd = Some d →
  get_fd_data fd (with_fd_data l w) = Ret d (with_fd_data l w).
Proof.
  intros Hfd Hd. unfold get_fd_data.
  destruct (Z.ltb_spec fd 0); [lia|]. simpl. by rewrite Hd.
Qed.

Lemma when_upd_fd_data (b : bool) (l : list _epoll_fd_data_t) (w : world) (fd : Z)
    (d : _epoll_fd_data_t) f :
  0 <= fd → l !! Z.to_nat fd = Some d →
  when b (upd_fd_data fd f) (with_fd_data l w) =
  Ret tt (with_fd_data (<[Z.to_nat fd := if b then f d else d]> l) w).
Proof.
  intros Hfd Hd. destruct b; simpl.
  - unfold upd_fd_data. destruct (Z.ltb_spec fd 0); [lia|]. simpl. by rewrite Hd.
  - by rewrite list_insert_id.
Qed.

(** The three conditional decrements, taken together. *)
Lemma drop_interest_steps (events : Z) (d : _epoll_fd_data_t) :
  let d1 := if c_true (Z.land events POLLIN)
            then set_rd_ref_cnt (wrap_int (rd_ref_cnt d - 1)) d else d in
  let d2 := if c_true (Z.land events POLLOUT)
            then set_wr_ref_cnt (wrap_int (wr_ref_cnt d1 - 1)) d1 else d1 in
  (if c_true (Z.land events POLLPRI)
   then set_ex_ref_cnt (wrap_int (ex_ref_cnt d2 - 1)) d2 else d2)
  = drop_interest events d.
Proof.
  unfold drop_interest.
  destruct d, (c_true (Z.land events POLLIN)), (c_true (Z.land events POLLOUT)),
    (c_true (Z.land events POLLPRI)); reflexivity.
Qed.

(** One entry of [_st_epoll_pollset_del]: the reference counts of the
    requested interests go down, and the only system call is the one
    [del_kernel_call] describes. *)
Lemma pollset_del_entry_spec (pd : pollfd) (d : _epoll_fd_data_t) (w : world) :
  0 <= pd_fd pd →
  fd_data (_st_epoll_data w) !! Z.to_nat (pd_fd pd) = Some d →
  ∃ w', _st_epoll_pollset_del_entry pd w = Ret tt w' ∧
        fd_data (_st_epoll_data w') =
          <[Z.to_nat (pd_fd pd) := drop_interest (pd_events pd) d]>
            (fd_data (_st_epoll_data w)) ∧
        ctl_log (_st_epoll_data w') =
          ctl_log (_st_epoll_data w) ++
          del_kernel_call (pd_fd pd) d (drop_interest (pd_events pd) d) ∧
        pollfds w' = pollfds w.
Proof.
  intros Hfd Hd.
  assert (Hgen : ∀ l w0, l !! Z.to_nat (pd_fd pd) = Some d →
            ∃ w', _st_epoll_pollset_del_entry pd (with_fd_data l w0) = Ret tt w' ∧
                  fd_data (_st_epoll_data w') =
                    <[Z.to_nat (pd_fd pd) := drop_interest (pd_events pd) d]> l ∧
                  ctl_log (_st_epoll_data w') =
                    ctl_log (_st_epoll_data w0) ++
                    del_kernel_call (pd_fd pd) d (drop_interest (pd_events pd) d) ∧
                  pollfds w' = pollfds w0).
  { clear Hd w. intros l w Hd. unfold _st_epoll_pollset_del_entry.
    rewrite bind_eq, (get_fd_data_some _ _ _ d) by done.
    assert (Hlt : (Z.to_nat (pd_fd pd) < length l)%nat)
      by (eapply lookup_lt_Some; done).
    rewrite bind_eq, (when_upd_fd_data _ _ _ _ d) by done.
    rewrite bind_eq. erewrite when_upd_fd_data; [|done|by apply list_lookup_insert_eq].
    rewrite bind_eq. erewrite when_upd_fd_data;
      [|done|apply list_lookup_insert_eq; by rewrite length_insert].
    rewrite !list_insert_insert_eq.
    rewrite (drop_interest_steps (pd_events pd) d).
    rewrite bind_eq. erewrite get_fd_data_some; [|done|by apply list_lookup_insert_eq].
    unfold del_kernel_call.
    replace (revents (drop_interest (pd_events pd) d)) with (revents d) by done.
    set (d' := drop_interest (pd_events pd) d).
    destruct (negb (_ST_EPOLL_EVENTS d' =? _ST_EPOLL_EVENTS d) && (revents d =? 0)).
    - rewrite bind_eq. unfold epoll_ctl. cbn [with_fd_data].
      destruct (ctl_result _ _) as [rv err] eqn:Hres.
      destruct (rv <? 0), ((rv =? 0) && _); cbn [when mret M_ret];
        eexists; (split; [reflexivity|]); simpl; done.
    - eexists. split; [reflexivity|]. simpl. by rewrite app_nil_r. }
  specialize (Hgen _ w Hd). by rewrite with_fd_data_id in Hgen.
Qed.

Lemma latched_insert (w w' : world) (n : nat) (d d' : _epoll_fd_data_t) :
  fd_data (_st_epoll_data w) !! n = Some d →
  revents d' = revents d →
  fd_data (_st_epoll_data w') = <[n := d']> (fd_data (_st_epoll_data w)) →
  ∀ fd, latched w' fd = latched w fd.
Proof.
  intros Hd Hrev Hw' fd. unfold latched. destruct (fd <? 0); [done|].
  rewrite Hw'. destruct (decide (n = Z.to_nat fd)) as [->|Hne].
  - rewrite list_lookup_insert_eq by (eapply lookup_lt_Some; done).
    rewrite Hd. simpl. by rewrite Hrev.
  - by rewrite list_lookup_insert_ne.
Qed.

Lemma del_kernel_call_ok (w : world) (fd : Z) (d : _epoll_fd_data_t) (events : Z) :
  0 <= fd → fd_data (_st_epoll_data w) !! Z.to_nat fd = Some d →
  Forall (del_call_ok w) (del_kernel_call fd d (drop_interest events d)).
Proof.
  intros Hfd Hd. unfold del_kernel_call.
  destruct (negb _) eqn:Hchg; [|constructor]. simpl.
  destruct (Z.eqb_spec (revents d) 0) as [Hrev|]; [|constructor]. simpl.
  constructor; [|constructor]. split.
  - unfold latched. simpl. destruct (Z.ltb_spec fd 0); [lia|].
    rewrite Hd. simpl. by rewrite Hrev.
  - simpl. unfold c_true.
    destruct (Z.eqb_spec (_ST_EPOLL_EVENTS (drop_interest events d)) 0); simpl; auto.
Qed.

Lemma pollset_del_loop_spec (pds : Z) (a : list pollfd) (n : nat) :
  ∀ (i : nat) (w : world),
    pollfds w !! pds = Some a →
    (i + n ≤ length a)%nat →
    fds_in_table w (take n (drop i a)) →
    ∃ w',
      _st_epoll_pollset_del_loop n pds (Z.of_nat i) w = Ret tt w' ∧
      fd_data (_st_epoll_data w') =
        del_table (take n (drop i a)) (fd_data (_st_epoll_data w)) ∧
      ctl_log (_st_epoll_data w') =
        ctl_log (_st_epoll_data w) ++
        del_calls (take n (drop i a)) (fd_data (_st_epoll_data w)) ∧
      Forall (del_call_ok w) (del_calls (take n (drop i a)) (fd_data (_st_epoll_data w))) ∧
      (∀ fd, latched w' fd = latched w fd).
Proof.
  induction n as [|n IH]; intros i w Ha Hlen Hfds.
  - exists w. simpl. rewrite app_nil_r. by repeat split.
  - destruct (lookup_lt_is_Some_2 a i) as [pd Hpd]; [lia|].
    rewrite (drop_S _ _ _ Hpd) in Hfds |- *. cbn [take] in Hfds |- *.
    apply Forall_cons in Hfds as [[Hfd0 Hfd1] Hfds].
    destruct (lookup_lt_is_Some_2 (fd_data (_st_epoll_data w)) (Z.to_nat (pd_fd pd)))
      as [d Hd]; [lia|].
    destruct (pollset_del_entry_spec pd d w Hfd0 Hd) as (w1 & Hrun & Htab & Hlog & Hpf).
    assert (Hlat : ∀ fd, latched w1 fd = latched w fd)
      by (eapply latched_insert; [exact Hd| |exact Htab]; done).
    destruct (IH (S i) w1) as (w' & Hrun' & Htab' & Hlog' & Hok' & Hlat').
    { by rewrite Hpf. }
    { lia. }
    { unfold fds_in_table in *. rewrite Htab, length_insert. done. }
    exists w'. cbn [del_table del_calls]. rewrite Hd, <- Htab.
    split; [|split; [|split; [|split]]].
    + cbn [_st_epoll_pollset_del_loop]. rewrite bind_eq.
      unfold get_pollfd at 1. rewrite Ha.
      destruct (Z.ltb_spec (Z.of_nat i) 0); [lia|].
      rewrite Nat2Z.id, Hpd, bind_eq, Hrun.
      replace (Z.of_nat i + 1) with (Z.of_nat (S i)) by lia. done.
    + done.
    + by rewrite Hlog', Hlog, app_assoc.
    + apply Forall_app. split; [by apply del_kernel_call_ok|].
      eapply Forall_impl; [exact Hok'|]. intros c [Hc ?]. split; [|done].
      by rewrite <- Hlat.
    + intros fd. by rewrite Hlat', Hlat.
Qed.

(** C9.  [_st_epoll_pollset_del] drops the requested interests of every
    entry from the reference counts, whether or not the descriptor has a
    latched [revents]; for each entry it issues the call of
    [del_kernel_call] and no other: none unless the interest mask changed and
    the latched [revents] is zero.  So every [epoll_ctl] call it issues is a
    [MOD] or a [DEL] on a descriptor whose latched [revents] is zero, and a
    descriptor with a latched event gets no kernel call.  The latched values
    stay as they were. *)
Theorem pollset_del_skips_latched (pds npds : Z) (a : list pollfd) (w : world) :
  pollfds w !! pds = Some a →
  (Z.to_nat npds ≤ length a)%nat →
  fds_in_table w (take (Z.to_nat npds) a) →
  ∃ w',
    _st_epoll_pollset_del pds npds w = Ret tt w' ∧
    fd_data (_st_epoll_data w') =
      del_table (take (Z.to_nat npds) a) (fd_data (_st_epoll_data w)) ∧
    ctl_log (_st_epoll_data w') =
      ctl_log (_st_epoll_data w) ++
      del_calls (take (Z.to_nat npds) a) (fd_data (_st_epoll_data w)) ∧
    Forall (del_call_ok w)
      (del_calls (take (Z.to_nat npds) a) (fd_data (_st_epoll_data w))) ∧
    (∀ fd, latched w' fd = latched w fd).
Proof.
  intros Ha Hlen Hfds. unfold _st_epoll_pollset_del.
  pose proof (pollset_del_loop_spec pds a (Z.to_nat npds) 0 w Ha) as Hloop.
  rewrite drop_0 in Hloop. apply Hloop; [lia|done].
Qed.

Lemma pollset_del_skips_latched_witness :
  ∃ w',
    _st_epoll_pollset_del 500 2 latched_fd = Ret tt w' ∧
    fd_data (_st_epoll_data w') =
      [zero_fd_data; zero_fd_data; zero_fd_data;
       mk_fd_data 0 0 0 EPOLLIN; mk_fd_data 0 0 0 0] ∧
    ctl_log (_st_epoll_data w') = [mk_ctl EPOLL_CTL_DEL 4 0].
Proof.
  destruct (pollset_del_skips_latched 500 2
              [mk_pollfd 3 POLLIN POLLIN; mk_pollfd 4 POLLIN 0] latched_fd)
    as (w' & Hrun & Htab & Hlog & _).
  - reflexivity.
  - simpl. lia.
  - repeat constructor; simpl; lia.
  - exists w'. split; [exact Hrun|]. split; [by rewrite Htab|by rewrite Hlog].
Defined.

(** ** [st_poll] and [st_netfd_poll] after the context switch *)

Lemma st_poll_count_returns (k : nat) (pds : Z) (a : list pollfd) :
  ∀ (i : nat) (n : Z) (w : world),
    pollfds w !! pds = Some a → (i + k ≤ length a)%nat →
    ∃ n', st_poll_count k pds (Z.of_nat i) n w = Ret n' w.
Proof.
  induction k as [|k IH]; intros i n w Ha Hlen; [by eexists|].
  destruct (lookup_lt_is_Some_2 a i) as [pd Hpd]; [lia|].
  cbn [st_poll_count]. rewrite bind_eq. unfold get_pollfd at 1. rewrite Ha.
  destruct (Z.ltb_spec (Z.of_nat i) 0); [lia|]. rewrite Nat2Z.id, Hpd.
  replace (Z.of_nat i + 1) with (Z.of_nat (S i)) by lia.
  apply IH; [done|lia].
Qed.

Section PollResume.

Variable es : _st_eventsys_t.

(** Resumed after [dispatch] took its [pq] off the I/O queue, with no
    interrupt pending, [st_poll] returns 0 and changes nothing. *)
Lemma st_poll_resume_event_path (me pq pds npds : Z) (q : _st_pollq_t)
    (th : _st_thread_t) (a : list pollfd) (w : world) :
  pollqs w !! pq = Some q →
  pq_on_ioq q = 0 →
  threads w !! me = Some th →
  flag_set (t_flags th) _ST_FL_INTERRUPT = false →
  pollfds w !! pds = Some a →
  0 <= npds <= Z.of_nat (length a) →
  st_poll_resume es me pq pds npds w = Ret 0 w.
Proof.
  intros Hq Hon Hth Hint Ha Hn. unfold st_poll_resume.
  rewrite bind_eq. unfold get_pollq. rewrite Hq, Hon. cbn [c_true Z.eqb negb].
  destruct (Z.ltb_spec npds 0); [lia|].
  destruct (st_poll_count_returns (Z.to_nat npds) pds a 0 0 w Ha) as [n' Hcount]; [lia|].
  change (Z.of_nat 0) with 0 in Hcount. rewrite bind_eq, Hcount.
  rewrite bind_eq, (get_thread_some _ _ _ Hth), Hint. done.
Qed.

(** C2 (code defect).  When [st_poll] is resumed after [dispatch] took its
    [pq] off the I/O queue because some entry of the array is ready, and no
    interrupt is pending, it returns 0 although the number of entries with
    non-zero [revents] is positive: the loop counts entries with non-zero
    [events] into [n], and the function ends in [return 0], not [return n]. *)
Theorem st_poll_resume_returns_zero (me pq pds npds : Z) (q : _st_pollq_t)
    (th : _st_thread_t) (a : list pollfd) (w : world) :
  pollqs w !! pq = Some q →
  pq_on_ioq q = 0 →
  threads w !! me = Some th →
  flag_set (t_flags th) _ST_FL_INTERRUPT = false →
  pollfds w !! pds = Some a →
  0 <= npds <= Z.of_nat (length a) →
  Exists (λ pd, pd_revents pd ≠ 0) (take (Z.to_nat npds) a) →
  st_poll_resume es me pq pds npds w = Ret 0 w ∧
  0 < ready_count (take (Z.to_nat npds) a).
Proof.
  intros Hq Hon Hth Hint Ha Hn Hready.
  split; [by eapply st_poll_resume_event_path|].
  unfold ready_count. apply Exists_exists in Hready as (pd & Hin & Hpd).
  assert (pd ∈ filter (λ pd, pd_revents pd ≠ 0) (take (Z.to_nat npds) a)) as Hmem
    by (by apply list_elem_of_filter).
  destruct (filter _ _); [by apply not_elem_of_nil in Hmem|]. simpl. lia.
Qed.

Lemma st_poll_resume_values (me pq pds npds rv : Z) (w w' : world) :
  st_poll_resume es me pq pds npds w = Ret rv w' → rv = 0 ∨ rv = -1.
Proof.
  unfold st_poll_resume. rewrite bind_eq.
  destruct (get_pollq pq w) as [q w1| |]; [|done..].
  rewrite bind_eq.
  match goal with |- context [match ?m w1 with _ => _ end] => destruct (m w1) as [n w2| |] end;
    [|done..].
  rewrite bind_eq. destruct (get_thread me w2) as [th w3| |]; [|done..].
  destruct (flag_set (t_flags th) _ST_FL_INTERRUPT).
  - rewrite bind_eq. destruct (upd_thread _ _ w3) as [[] w4| |]; [|done..].
    unfold fail_with. mrun. intros [= <- _]. by right.
  - intros [= <- _]. by left.
Qed.

(** Since [st_poll] only returns 0 or -1, [st_netfd_poll] never reports
    success once it has waited. *)
Lemma st_netfd_poll_resume_never_succeeds (me pd pq rv : Z) (w w' : world) :
  st_netfd_poll_resume es me pd pq w = Ret rv w' → rv = -1.
Proof.
  unfold st_netfd_poll_resume. rewrite bind_eq.
  destruct (st_poll_resume es me pq pd 1 w) as [n w1| |] eqn:Hpoll; [|done..].
  apply st_poll_resume_values in Hpoll as [-> | ->]; unfold st_netfd_poll_finish; simpl.
  - unfold fail_with. mrun. by intros [= <- _].
  - by intros [= <- _].
Qed.

(** C8 (code defect).  When [st_netfd_poll] is resumed after the awaited
    event fired (its [pq] is off the I/O queue, no interrupt is pending), it
    fails with -1 and [errno = ETIME], because [st_poll] returned 0. *)
Theorem st_netfd_poll_reports_timeout_on_event (me pd pq : Z) (q : _st_pollq_t)
    (th : _st_thread_t) (a : list pollfd) (w : world) :
  pollqs w !! pq = Some q →
  pq_on_ioq q = 0 →
  threads w !! me = Some th →
  flag_set (t_flags th) _ST_FL_INTERRUPT = false →
  pollfds w !! pd = Some a →
  1 <= Z.of_nat (length a) →
  st_netfd_poll_resume es me pd pq w = Ret (-1) (set_errno ETIME w).
Proof.
  intros Hq Hon Hth Hint Ha Hlen. unfold st_netfd_poll_resume.
  rewrite bind_eq.
  rewrite (st_poll_resume_event_path me pq pd 1 q th a w) by (done || lia).
  reflexivity.
Qed.

End PollResume.

Lemma st_poll_resume_returns_zero_witness :
  st_poll_resume (_st_epoll_eventsys 8) 1 600 500 1 fd_ready = Ret 0 fd_ready ∧
  0 < ready_count (take 1 [mk_pollfd 3 POLLIN POLLIN]).
Proof.
  apply (st_poll_resume_returns_zero (_st_epoll_eventsys 8) 1 600 500 1
           (mk_pollq 1 500 1 0) (plain_thread _ST_ST_RUNNING 0)
           [mk_pollfd 3 POLLIN POLLIN] fd_ready);
    first [reflexivity | simpl; lia | by apply Exists_cons_hd].
Defined.

Lemma st_netfd_poll_reports_timeout_on_event_witness :
  st_netfd_poll_resume (_st_epoll_eventsys 8) 1 500 600 fd_ready =
  Ret (-1) (set_errno ETIME fd_ready).
Proof.
  apply (st_netfd_poll_reports_timeout_on_event (_st_epoll_eventsys 8) 1 500 600
           (mk_pollq 1 500 1 0) (plain_thread _ST_ST_RUNNING 0)
           [mk_pollfd 3 POLLIN POLLIN] fd_ready); first [reflexivity | simpl; lia].
Defined.

(** ** Interrupts and timeouts *)

(** Clearing the interrupt bit leaves the timed-out bit as it is. *)
Lemma flag_clear_interrupt_timedout (flags : Z) :
  flag_set (flag_clear flags _ST_FL_INTERRUPT) _ST_FL_TIMEDOUT =
  flag_set flags _ST_FL_TIMEDOUT.
Proof.
  unfold flag_set, flag_clear. f_equal. rewrite <- Z.land_assoc. by f_equal.
Qed.

Lemma flag_clear_interrupt (flags : Z) :
  flag_set (flag_clear flags _ST_FL_INTERRUPT) _ST_FL_INTERRUPT = false.
Proof.
  unfold flag_set, flag_clear. rewrite <- Z.land_assoc.
  change (Z.land (Z.lnot _ST_FL_INTERRUPT) _ST_FL_INTERRUPT) with 0.
  by rewrite Z.land_0_r.
Qed.

(** C5 (code defect).  Entered with [_ST_FL_INTERRUPT] set, the four blocking
    calls return -1 with [errno = EINTR] at once, but only [st_poll] clears
    the flag: [st_usleep], [st_cond_timedwait] and [st_mutex_lock] leave the
    state as it was apart from [errno], so the flag is still set. *)
Theorem interrupted_entry_keeps_flag (es : _st_eventsys_t) (fuel : nat)
    (usecs cvar timeout lock pq pds npds : Z) (th : _st_thread_t) (w : world) :
  threads w !! _st_this_thread w = Some th →
  flag_set (t_flags th) _ST_FL_INTERRUPT = true →
  st_usleep_enter fuel usecs w = Ret (Return (-1)) (set_errno EINTR w) ∧
  st_cond_timedwait_enter fuel cvar timeout w = Ret (Return (-1)) (set_errno EINTR w) ∧
  st_mutex_lock_enter lock w = Ret (Return (-1)) (set_errno EINTR w) ∧
  threads (set_errno EINTR w) !! _st_this_thread w = Some th ∧
  st_poll_enter es fuel pq pds npds timeout w =
    Ret (Return (-1))
      (set_errno EINTR
         (set_threads
            (<[_st_this_thread w :=
                 set_t_flags (flag_clear (t_flags th) _ST_FL_INTERRUPT) th]> (threads w))
            w)).
Proof.
  intros Hth Hint. repeat split.
  - unfold st_usleep_enter. by mrun.
  - unfold st_cond_timedwait_enter. by mrun.
  - unfold st_mutex_lock_enter. by mrun.
  - done.
  - unfold st_poll_enter. by mrun.
Qed.

Lemma interrupted_entry_keeps_flag_witness :
  st_usleep_enter 8 1000 interrupted = Ret (Return (-1)) (set_errno EINTR interrupted) ∧
  st_cond_timedwait_enter 8 100 1000 interrupted =
    Ret (Return (-1)) (set_errno EINTR interrupted) ∧
  st_mutex_lock_enter 200 interrupted = Ret (Return (-1)) (set_errno EINTR interrupted) ∧
  (t_flags <$> threads (set_errno EINTR interrupted) !! 1) = Some _ST_FL_INTERRUPT.
Proof.
  destruct (interrupted_entry_keeps_flag (_st_epoll_eventsys 8) 8 1000 100 1000 200
              600 500 1 (plain_thread _ST_ST_RUNNING _ST_FL_INTERRUPT) interrupted
              eq_refl eq_refl) as (Hsleep & Hcond & Hlock & Hflag & _).
  split; [exact Hsleep|]. split; [exact Hcond|]. split; [exact Hlock|].
  change (_st_this_thread interrupted) with 1 in Hflag. by rewrite Hflag.
Defined.

(** Resumed with both flags set, [st_cond_timedwait] reports [ETIME], not
    [EINTR]. *)
Example cond_timedwait_both_flags_reports_etime :
  flag_set (Z.lor _ST_FL_INTERRUPT _ST_FL_TIMEDOUT) _ST_FL_INTERRUPT = true ∧
  flag_set (Z.lor _ST_FL_INTERRUPT _ST_FL_TIMEDOUT) _ST_FL_TIMEDOUT = true ∧
  ∃ w', st_cond_timedwait_resume 1 100 both_flags = Ret (-1) w' ∧
        errno w' = ETIME ∧ errno w' ≠ EINTR.
Proof.
  split; [reflexivity|]. split; [reflexivity|].
  eexists. split; [vm_compute; reflexivity|]. split; [reflexivity|]. by vm_compute.
Qed.

(** C4 (code defect).  Resumed in [st_cond_timedwait], the thread leaves the
    wait queue and the two flags are tested one after the other, interrupt
    first: a set [_ST_FL_INTERRUPT] is cleared and [errno = EINTR] is stored,
    then a set [_ST_FL_TIMEDOUT] stores [errno = ETIME] over it.  So the call
    fails with [ETIME] whenever [_ST_FL_TIMEDOUT] is set, also when the
    interrupt was consumed in the same call; it fails with [EINTR] only when
    [_ST_FL_INTERRUPT] alone is set, and succeeds when neither is. *)
Theorem st_cond_timedwait_resume_precedence (me cvar : Z) (c : _st_cond_t)
    (th : _st_thread_t) (w : world) :
  conds w !! cvar = Some c →
  threads w !! me = Some th →
  ∃ w' th',
    st_cond_timedwait_resume me cvar w =
      Ret (if flag_set (t_flags th) _ST_FL_TIMEDOUT then -1
           else if flag_set (t_flags th) _ST_FL_INTERRUPT then -1 else 0) w' ∧
    errno w' =
      (if flag_set (t_flags th) _ST_FL_TIMEDOUT then ETIME
       else if flag_set (t_flags th) _ST_FL_INTERRUPT then EINTR else errno w) ∧
    threads w' !! me = Some th' ∧
    flag_set (t_flags th') _ST_FL_INTERRUPT = false ∧
    (c_wait_q <$> conds w' !! cvar) = Some (ST_REMOVE_LINK me (c_wait_q c)).
Proof.
  intros Hc Hth. unfold st_cond_timedwait_resume.
  rewrite bind_eq. unfold upd_cond. rewrite Hc.
  rewrite bind_eq. unfold get_thread at 1. cbn [threads set_conds]. rewrite Hth.
  destruct (flag_set (t_flags th) _ST_FL_INTERRUPT) eqn:Hint.
  - mrun. rewrite flag_clear_interrupt_timedout.
    destruct (flag_set (t_flags th) _ST_FL_TIMEDOUT); mrun;
      eexists _, _; (split; [reflexivity|]); simpl; rewrite !lookup_insert_eq;
      (split; [done|]); (split; [done|]); simpl;
      by rewrite flag_clear_interrupt.
  - mrun. destruct (flag_set (t_flags th) _ST_FL_TIMEDOUT); mrun;
      eexists _, _; (split; [reflexivity|]); simpl; rewrite lookup_insert_eq;
      (split; [done|]); (split; [exact Hth|]); by rewrite Hint.
Qed.

Lemma st_cond_timedwait_resume_precedence_witness :
  ∃ w', st_cond_timedwait_resume 1 100 both_flags = Ret (-1) w' ∧
        errno w' = ETIME ∧
        (c_wait_q <$> conds w' !! 100) = Some [].
Proof.
  destruct (st_cond_timedwait_resume_precedence 1 100 (mk_cond [1])
              (plain_thread _ST_ST_RUNNING (Z.lor _ST_FL_INTERRUPT _ST_FL_TIMEDOUT))
              both_flags eq_refl eq_refl) as (w' & th' & Hrun & Herr & _ & _ & Hq).
  exists w'. split; [exact Hrun|]. split; [exact Herr|exact Hq].
Defined.

(** ** Creating and joining threads *)

Section CreateJoin.

Variables sizeof_thread sizeof_ptr : Z.

(** C3 (code defect).  [st_thread_create] never reads [joinable]: the thread
    it returns has a null [term], whatever the value of [joinable], so
    [st_thread_join] on it fails at once with -1 and [errno = EINVAL], the
    error of a detached thread. *)
Theorem created_thread_cannot_be_joined (os : os_alloc) (start arg joinable size : Z)
    (thread : Z) (w w' : world) :
  st_thread_create sizeof_thread sizeof_ptr os start arg joinable size w
    = Ret (Some thread) w' →
  (∃ th, threads w' !! thread = Some th ∧ t_term th = None) ∧
  ∀ fuel retvalp,
    st_thread_join_enter fuel thread retvalp w' =
    Ret (Return (-1)) (set_errno EINVAL w').
Proof.
  unfold st_thread_create. rewrite bind_eq. unfold get at 1.
  destruct (pagesize (_st_this_vp w) =? 0); [done|].
  rewrite bind_eq. destruct (_st_stack_new _ _ w) as [[stack|] w1| |]; [|done..].
  rewrite bind_eq. destruct (get_stack stack w1) as [s w2| |]; [|done..].
  mrun. intros [= <- <-].
  split.
  - eexists. split; [simpl; apply lookup_insert_eq|done].
  - intros fuel retvalp. unfold st_thread_join_enter. by mrun.
Qed.

End CreateJoin.

Lemma created_thread_cannot_be_joined_witness :
  ∃ thread w',
    st_thread_create 1024 8 os_grants 0 0 1 0 initialised = Ret (Some thread) w' ∧
    (∃ th, threads w' !! thread = Some th ∧ t_term th = None) ∧
    ∀ fuel retvalp,
      st_thread_join_enter fuel thread retvalp w' =
      Ret (Return (-1)) (set_errno EINVAL w').
Proof.
  eexists _, _. split; [vm_compute; reflexivity|].
  apply (created_thread_cannot_be_joined 1024 8 os_grants 0 0 1 0 _ initialised).
  vm_compute. reflexivity.
Defined.

(** * Further properties *)

(** ** Mutexes: locking, deadlock, hand-over *)

Lemma set_mutexes_id (w : world) : set_mutexes (mutexes w) w = w.
Proof. by destruct w. Qed.

Lemma set_threads_id (w : world) : set_threads (threads w) w = w.
Proof. by destruct w. Qed.

Lemma set_vp_id (w : world) : set_vp (_st_this_vp w) w = w.
Proof. by destruct w. Qed.

(** X1.  Locking a free mutex and unlocking it again is a round trip: both
    calls return 0 without a context switch, the caller owns the mutex in
    between, and the final state is the initial one. *)
Theorem mutex_lock_unlock_roundtrip (lock : Z) (m : _st_mutex_t) (th : _st_thread_t)
    (w : world) :
  mutexes w !! lock = Some m →
  m_owner m = None →
  Forall (not_lock_waiting w) (m_wait_q m) →
  threads w !! _st_this_thread w = Some th →
  flag_set (t_flags th) _ST_FL_INTERRUPT = false →
  ∃ w1, st_mutex_lock_enter lock w = Ret (Return 0) w1 ∧
        (m_owner <$> mutexes w1 !! lock) = Some (Some (_st_this_thread w)) ∧
        st_mutex_unlock lock w1 = Ret 0 w.
Proof.
  intros Hm Hfree Hq Hth Hint. eexists. split; [|split].
  - unfold st_mutex_lock_enter. mrun. rewrite Hfree. mrun. reflexivity.
  - simpl. by rewrite lookup_insert_eq.
  - unfold st_mutex_unlock. mrun.
    destruct (decide _) as [Hn|_]; [done|].
    rewrite <- (app_nil_r (m_wait_q m)), st_mutex_unlock_loop_skip by done.
    simpl. mrun. rewrite insert_insert_eq.
    destruct m as [o q]. simpl in *. subst o. unfold set_m_owner. simpl.
    rewrite insert_id by done. by destruct w.
Qed.

Lemma mutex_lock_unlock_roundtrip_witness :
  ∃ w1, st_mutex_lock_enter 200 initialised_mutex = Ret (Return 0) w1 ∧
        (m_owner <$> mutexes w1 !! 200) = Some (Some 1) ∧
        st_mutex_unlock 200 w1 = Ret 0 initialised_mutex.
Proof.
  apply (mutex_lock_unlock_roundtrip 200 (mk_mutex None [])
           (plain_thread _ST_ST_RUNNING _ST_FL_PRIMORDIAL) initialised_mutex);
    first [reflexivity | simpl; apply Forall_nil_2].
Defined.

(** X2.  A held mutex: the owner that locks again gets -1 with
    [errno = EDEADLK] and nothing else changes; any other thread is put in the
    [_ST_ST_LOCK_WAIT] state at the tail of the wait queue and switches to the
    scheduler, the owner staying as it is. *)
Theorem mutex_lock_held (lock owner : Z) (m : _st_mutex_t) (th : _st_thread_t)
    (w : world) :
  mutexes w !! lock = Some m →
  m_owner m = Some owner →
  threads w !! _st_this_thread w = Some th →
  flag_set (t_flags th) _ST_FL_INTERRUPT = false →
  (owner = _st_this_thread w →
     st_mutex_lock_enter lock w = Ret (Return (-1)) (set_errno EDEADLK w)) ∧
  (owner ≠ _st_this_thread w →
     st_mutex_lock_enter lock w =
     Ret Yield
       (set_mutexes
          (<[lock := mk_mutex (Some owner) (m_wait_q m ++ [_st_this_thread w])]>
             (mutexes w))
          (set_threads
             (<[_st_this_thread w := set_t_state _ST_ST_LOCK_WAIT th]> (threads w)) w))).
Proof.
  intros Hm Hown Hth Hint. split; intros Hme.
  - unfold st_mutex_lock_enter. mrun. rewrite Hown.
    destruct (decide _) as [_|Hn]; [|done]. by mrun.
  - unfold st_mutex_lock_enter. mrun. rewrite Hown.
    destruct (decide _) as [He|_]; [done|]. mrun.
    unfold set_m_wait_q, ST_APPEND_LINK. by rewrite Hown.
Qed.

Lemma mutex_lock_held_witness :
  st_mutex_lock_enter 200 mutex_handoff = Ret (Return (-1)) (set_errno EDEADLK mutex_handoff).
Proof.
  apply (mutex_lock_held 200 1 (mk_mutex (Some 1) [2; 3; 4])
           (plain_thread _ST_ST_RUNNING 0) mutex_handoff); reflexivity.
Defined.





(** ** Interrupts and sleeping *)

Lemma flag_add_interrupt_on_sleepq (flags : Z) :
  flag_set (flag_add flags _ST_FL_INTERRUPT) _ST_FL_ON_SLEEPQ =
  flag_set flags _ST_FL_ON_SLEEPQ.
Proof.
  unfold flag_set, flag_add. rewrite Z.land_lor_distr_l.
  change (Z.land _ST_FL_INTERRUPT _ST_FL_ON_SLEEPQ) with 0. by rewrite Z.lor_0_r.
Qed.


(** X4.  [st_mutex_lock] after its context switch: the thread leaves the wait
    queue; if the unlocker made it the owner the call returns 0 even when an
    interrupt is pending, and the interrupt stays pending; if it is not the
    owner and an interrupt is pending the call fails with [EINTR] and clears
    the flag. *)
Theorem mutex_lock_resume_granted_or_interrupted (me lock : Z) (m : _st_mutex_t)
    (th : _st_thread_t) (w : world) :
  mutexes w !! lock = Some m →
  threads w !! me = Some th →
  let w1 :=
    set_mutexes (<[lock := mk_mutex (m_owner m) (ST_REMOVE_LINK me (m_wait_q m))]>
                   (mutexes w)) w in
  (m_owner m = Some me → st_mutex_lock_resume me lock w = Ret 0 w1) ∧
  (m_owner m ≠ Some me → flag_set (t_flags th) _ST_FL_INTERRUPT = true →
     st_mutex_lock_resume me lock w =
     Ret (-1)
       (set_errno EINTR
          (set_threads
             (<[me := set_t_flags (flag_clear (t_flags th) _ST_FL_INTERRUPT) th]>
                (threads w)) w1))).
Proof.
  intros Hm Hth w1. subst w1. split.
  - intros Hown. unfold st_mutex_lock_resume. mrun.
    rewrite bool_decide_eq_false_2 by (by intros ?).
    rewrite andb_false_r. done.
  - intros Hown Hint. unfold st_mutex_lock_resume. mrun.
    rewrite bool_decide_eq_true_2 by done. mrun. done.
Qed.

Lemma mutex_lock_resume_granted_or_interrupted_witness :
  st_mutex_lock_resume 2 200 granted_interrupted =
  Ret 0 (set_mutexes (<[200 := mk_mutex (Some 2) [3]]> (mutexes granted_interrupted))
           granted_interrupted) ∧
  (t_flags <$> threads granted_interrupted !! 2) = Some _ST_FL_INTERRUPT.
Proof.
  split; [|reflexivity].
  apply (mutex_lock_resume_granted_or_interrupted 2 200 (mk_mutex (Some 2) [2; 3])
           (plain_thread _ST_ST_RUNNABLE _ST_FL_INTERRUPT) granted_interrupted
           eq_refl eq_refl).
  reflexivity.
Defined.

(** X5.  [st_thread_interrupt]: a zombie is left alone; a runnable or
    running thread only gets [_ST_FL_INTERRUPT]; a blocked thread that is not
    on the sleep heap gets the flag, becomes runnable and goes to the tail of
    the run queue. *)
Theorem thread_interrupt_cases (fuel : nat) (thread : Z) (th : _st_thread_t)
    (w : world) :
  threads w !! thread = Some th →
  let flagged := set_t_flags (flag_add (t_flags th) _ST_FL_INTERRUPT) th in
  (t_state th = _ST_ST_ZOMBIE → st_thread_interrupt fuel thread w = Ret tt w) ∧
  (t_state th = _ST_ST_RUNNABLE ∨ t_state th = _ST_ST_RUNNING →
     st_thread_interrupt fuel thread w =
     Ret tt (set_threads (<[thread := flagged]> (threads w)) w)) ∧
  (t_state th ≠ _ST_ST_ZOMBIE → t_state th ≠ _ST_ST_RUNNABLE →
   t_state th ≠ _ST_ST_RUNNING →
   flag_set (t_flags th) _ST_FL_ON_SLEEPQ = false →
     st_thread_interrupt fuel thread w =
     Ret tt
       (set_vp (set_run_q (run_q (_st_this_vp w) ++ [thread]) (_st_this_vp w))
          (set_threads (<[thread := set_t_state _ST_ST_RUNNABLE flagged]> (threads w)) w))).
Proof.
  intros Hth flagged. subst flagged. split; [|split].
  - intros Hz. unfold st_thread_interrupt. mrun.
    by destruct (decide (t_state th = _ST_ST_ZOMBIE)).
  - intros Hr. unfold st_thread_interrupt. mrun.
    destruct (decide (t_state th = _ST_ST_ZOMBIE)) as [Hz|_].
    { rewrite Hz in Hr. by destruct Hr. }
    mrun. by destruct (decide _).
  - intros Hz Hr1 Hr2 Hsq. unfold st_thread_interrupt. mrun.
    destruct (decide (t_state th = _ST_ST_ZOMBIE)) as [|_]; [done|].
    mrun. destruct (decide _) as [[|]|_]; [done..|].
    rewrite flag_add_interrupt_on_sleepq, Hsq. mrun.
    by rewrite insert_insert_eq.
Qed.

Lemma thread_interrupt_cases_witness :
  st_thread_interrupt 8 1 untimed_waiter =
  Ret tt
    (set_vp (set_run_q [1] (_st_this_vp untimed_waiter))
       (set_threads
          (<[1 := plain_thread _ST_ST_RUNNABLE _ST_FL_INTERRUPT]> (threads untimed_waiter))
          untimed_waiter)).
Proof.
  destruct (thread_interrupt_cases 8 1 (plain_thread _ST_ST_COND_WAIT 0) untimed_waiter
              eq_refl) as (_ & _ & Hblocked).
  apply Hblocked; done.
Defined.



(** The sleep heap cannot grow: [_st_add_sleep_q] stays in the first loop
    of [heap_insert] whenever the new size is not zero. *)
Lemma _st_add_sleep_q_spin (fuel : nat) (thread timeout : Z) (th : _st_thread_t)
    (w : world) :
  threads w !! thread = Some th →
  0 <= sleepq_size (_st_this_vp w) < 2 ^ 31 - 1 →
  _ST_ADD_SLEEPQ fuel thread timeout w = Spin.
Proof.
  intros Hth Hsz. unfold _ST_ADD_SLEEPQ, _st_add_sleep_q. mrun.
  erewrite heap_insert_spin; [done | simpl; apply lookup_insert_eq |].
  simpl. rewrite wrap_int_small; lia.
Qed.

(** X7.  A blocking call with a finite timeout never reaches its context
    switch: [st_usleep], [st_sleep] with a non-negative argument and
    [st_cond_timedwait] all hang in [_st_add_sleep_q], whatever the fuel. *)
Theorem finite_timeout_never_yields (usecs : Z) (th : _st_thread_t) (w : world) :
  threads w !! _st_this_thread w = Some th →
  flag_set (t_flags th) _ST_FL_INTERRUPT = false →
  0 <= sleepq_size (_st_this_vp w) < 2 ^ 31 - 1 →
  usecs ≠ ST_UTIME_NO_TIMEOUT →
  (∀ fuel, st_usleep_enter fuel usecs w = Spin) ∧
  (∀ fuel secs, 0 <= secs < 2 ^ 31 → st_sleep_enter fuel secs w = Spin) ∧
  (∀ fuel cvar c, conds w !! cvar = Some c →
     st_cond_timedwait_enter fuel cvar usecs w = Spin).
Proof.
  intros Hth Hint Hsz Hfin.
  assert (Husleep : ∀ fuel u, u ≠ ST_UTIME_NO_TIMEOUT → st_usleep_enter fuel u w = Spin).
  { intros fuel u Hu. unfold st_usleep_enter. mrun.
    destruct (decide (u ≠ ST_UTIME_NO_TIMEOUT)); [|done]. mrun.
    erewrite _st_add_sleep_q_spin; [done|simpl; apply lookup_insert_eq|done]. }
  split; [|split].
  - intros fuel. by apply Husleep.
  - intros fuel secs Hsecs. unfold st_sleep_enter.
    destruct (Z.geb_spec secs 0); [|lia]. apply Husleep.
    unfold wrap_utime, ST_UTIME_NO_TIMEOUT. rewrite Z.mod_small; lia.
  - intros fuel cvar c Hc. unfold st_cond_timedwait_enter. mrun.
    rewrite bool_decide_eq_true_2 by done. cbn [when].
    erewrite _st_add_sleep_q_spin; [done|simpl; apply lookup_insert_eq|done].
Qed.

Lemma finite_timeout_never_yields_witness :
  (∀ fuel, st_usleep_enter fuel 1000 quiet = Spin) ∧
  (∀ fuel, st_sleep_enter fuel 1 quiet = Spin) ∧
  (∀ fuel, st_cond_timedwait_enter fuel 100 1000 quiet = Spin).
Proof.
  destruct (finite_timeout_never_yields 1000 (plain_thread _ST_ST_RUNNING 0) quiet)
    as (Hu & Hs & Hc); [reflexivity|reflexivity|simpl; lia|done|].
  split; [exact Hu|]. split.
  - intros fuel. apply Hs. lia.
  - intros fuel. by apply (Hc fuel 100 (mk_cond [])).
Defined.

(** ** Thread-specific data: keys, destructors, cleanup *)

(** X8.  [st_key_create] hands out the keys 0, 1, 2, ... in order: with
    fewer than [ST_KEYS_MAX] keys it returns 0, stores the old [key_max] in
    [*keyp], registers the destructor under that key, and a value set under
    the new key is read back; with [ST_KEYS_MAX] keys it fails with
    [errno = EAGAIN] and changes nothing else. *)
Theorem key_create_then_use (keyp destructor v : Z) (w : world) :
  keys_ok w →
  (key_max w < ST_KEYS_MAX →
     ∃ w1 w2,
       st_key_create keyp destructor w = Ret 0 w1 ∧
       cells w1 !! keyp = Some (key_max w) ∧
       key_max w1 = key_max w + 1 ∧
       _st_destructors w1 !! Z.to_nat (key_max w) = Some destructor ∧
       st_thread_setspecific (key_max w) v w1 = Ret 0 w2 ∧
       st_thread_getspecific (key_max w) w2 = Ret v w2) ∧
  (key_max w = ST_KEYS_MAX →
     st_key_create keyp destructor w = Ret (-1) (set_errno EAGAIN w)).
Proof.
  intros Hok. pose proof Hok as (Hk & Hd & th & Hth & Hp). split.
  - intros Hlt.
    assert (Hrun : st_key_create keyp destructor w =
              Ret 0 (set_destructors (<[Z.to_nat (key_max w) := destructor]> (_st_destructors w))
                       (set_key_max (key_max w + 1)
                          (set_cells (<[keyp := key_max w]> (cells w)) w)))).
    { unfold st_key_create. mrun.
      destruct (Z.geb_spec (key_max w) ST_KEYS_MAX); [lia|]. mrun.
      rewrite wrap_int_small by (unfold ST_KEYS_MAX in *; lia). done. }
    set (w1 := set_destructors _ _) in Hrun.
    assert (Hok1 : keys_ok w1).
    { split; [simpl; lia|]. split; [simpl; by rewrite length_insert|]. by exists th. }
    destruct (st_thread_setspecific_stores (key_max w) v w1 Hok1)
      as (w2 & Hset & Hget & Hme & Hkm); [lia|].
    exists w1, w2. split; [done|]. split; [simpl; apply lookup_insert_eq|].
    split; [done|]. split; [simpl; apply list_lookup_insert_eq; lia|].
    split; [done|].
    unfold st_thread_getspecific. rewrite bind_eq. unfold get. rewrite Hkm.
    destruct (Z.ltb_spec (key_max w) 0); [lia|].
    destruct (Z.geb_spec (key_max w) (key_max w1)); [simpl in *; lia|].
    cbn [orb]. rewrite bind_eq. unfold _ST_CURRENT_THREAD, get. by rewrite Hme.
  - intros Hfull. unfold st_key_create. mrun.
    destruct (Z.geb_spec (key_max w) ST_KEYS_MAX); [|lia]. by mrun.
Qed.

Lemma key_create_then_use_witness :
  ∃ w1 w2,
    st_key_create 800 900 three_keys = Ret 0 w1 ∧
    cells w1 !! 800 = Some 3 ∧
    st_thread_setspecific 3 77 w1 = Ret 0 w2 ∧
    st_thread_getspecific 3 w2 = Ret 77 w2.
Proof.
  destruct (key_create_then_use 800 900 77 three_keys three_keys_ok) as [Hnew _].
  destruct Hnew as (w1 & w2 & Hc & Hcell & _ & _ & Hset & Hget); [by vm_compute|].
  exists w1, w2. done.
Defined.

(** X9.  [st_thread_setspecific] with a valid key stores the value in that
    slot only, and calls the key's destructor on the old value exactly when
    the value changes, the old value is not null and a destructor is
    registered; with a key outside [0, ST_KEYS_MAX) it fails with
    [errno = EINVAL] and changes nothing else. *)
Theorem setspecific_destructor_rule (key value old d : Z) (th : _st_thread_t)
    (w : world) :
  threads w !! _st_this_thread w = Some th →
  (0 <= key < ST_KEYS_MAX →
   t_private_data th !! Z.to_nat key = Some old →
   _st_destructors w !! Z.to_nat key = Some d →
   ∃ w', st_thread_setspecific key value w = Ret 0 w' ∧
         destructor_calls w' =
           destructor_calls w ++
           (if bool_decide (value ≠ old) && c_true old && c_true d
            then [(d, old)] else []) ∧
         (t_private_data <$> threads w' !! _st_this_thread w) =
           Some (<[Z.to_nat key := value]> (t_private_data th))) ∧
  (key < 0 ∨ ST_KEYS_MAX <= key →
   st_thread_setspecific key value w = Ret (-1) (set_errno EINVAL w)).
Proof.
  intros Hth. split.
  - intros Hkey Hold Hd. unfold st_thread_setspecific.
    rewrite bind_eq. unfold _ST_CURRENT_THREAD, get.
    destruct (Z.ltb_spec key 0); [lia|].
    destruct (Z.geb_spec key ST_KEYS_MAX); [lia|]. cbn [orb].
    rewrite bind_eq. unfold get_private_data.
    rewrite bind_eq, (get_thread_some _ _ _ Hth), Hold. cbn [mret M_ret].
    destruct (decide (value ≠ old)) as [Hne|Heq].
    + rewrite bool_decide_eq_true_2 by done. cbn [andb].
      unfold get_destructor.
      destruct (c_true old); [rewrite !bind_eq, Hd; destruct (c_true d)|];
        mrun; eexists; (split; [reflexivity|]); simpl;
        rewrite ?app_nil_r, lookup_insert_eq; done.
    + rewrite bool_decide_eq_false_2 by done. cbn [andb].
      apply dec_stable in Heq. subst old. mrun.
      eexists. split; [reflexivity|]. rewrite app_nil_r, Hth. simpl.
      by rewrite list_insert_id.
  - intros Hbad. unfold st_thread_setspecific.
    rewrite bind_eq. unfold _ST_CURRENT_THREAD, get.
    assert ((key <? 0) || (key >=? ST_KEYS_MAX) = true) as ->.
    { destruct (Z.ltb_spec key 0); [done|].
      destruct (Z.geb_spec key ST_KEYS_MAX); [done|lia]. }
    by mrun.
Qed.

Lemma setspecific_destructor_rule_witness :
  ∃ w', st_thread_setspecific 0 99 with_values = Ret 0 w' ∧
        destructor_calls w' = [(900, 70)].
Proof.
  destruct (setspecific_destructor_rule 0 99 70 900
              (set_t_private_data
                 (<[0%nat := 70]> (<[1%nat := 71]> (<[5%nat := 75]> (replicate 16 0))))
                 (plain_thread _ST_ST_RUNNING 0))
              with_values eq_refl) as [Hvalid _].
  destruct Hvalid as (w' & Hrun & Hcalls & _); [by vm_compute|reflexivity..|].
  exists w'. split; [exact Hrun|exact Hcalls].
Defined.

Lemma cleanup_loop_spec (thread : Z) (n : nat) :
  ∀ (i : nat) (th : _st_thread_t) (w : world),
    threads w !! thread = Some th →
    (i + n ≤ length (t_private_data th))%nat →
    (i + n ≤ length (_st_destructors w))%nat →
    ∃ w',
      _st_thread_cleanup_loop n thread (Z.of_nat i) w = Ret tt w' ∧
      threads w' =
        <[thread := set_t_private_data
                      (take i (t_private_data th) ++
                       cleanup_slots (take n (drop i (_st_destructors w)))
                         (drop i (t_private_data th))) th]> (threads w) ∧
      destructor_calls w' =
        destructor_calls w ++
        cleanup_calls (take n (drop i (_st_destructors w)))
          (drop i (t_private_data th)) ∧
      _st_destructors w' = _st_destructors w ∧
      key_max w' = key_max w ∧
      _st_this_vp w' = _st_this_vp w.
Proof.
  induction n as [|n IH]; intros i th w Hth Hp Hd.
  - exists w. split; [done|]. simpl. rewrite app_nil_r, take_drop.
    split; [|done]. destruct th. simpl. by rewrite insert_id.
  - destruct (lookup_lt_is_Some_2 (t_private_data th) i) as [v Hv]; [lia|].
    destruct (lookup_lt_is_Some_2 (_st_destructors w) i) as [d Hdi]; [lia|].
    rewrite (drop_S _ _ _ Hv), (drop_S _ _ _ Hdi).
    cbn [take cleanup_slots cleanup_calls _st_thread_cleanup_loop].
    rewrite bind_eq. unfold get_private_data at 1.
    rewrite bind_eq, (get_thread_some _ _ _ Hth), Nat2Z.id, Hv. cbn [mret M_ret].
    replace (Z.of_nat i + 1) with (Z.of_nat (S i)) by lia.
    rewrite bind_eq.
    destruct (c_true v) eqn:Hcv; cbn [andb].
    + unfold get_destructor at 1. rewrite bind_eq, Nat2Z.id, Hdi.
      destruct (c_true d) eqn:Hcd.
      * rewrite bind_eq. unfold call_destructor, modify.
        rewrite (upd_thread_some _ _ th) by done. cbn [set_threads threads].
        match goal with
        | |- context [_st_thread_cleanup_loop n thread _ ?w1] =>
            destruct (IH (S i) (set_t_private_data (<[i := 0]> (t_private_data th)) th) w1)
              as (w' & Hrun & Hts & Hcalls & Hds & Hkm & Hvp)
        end.
        { simpl. apply lookup_insert_eq. }
        { simpl. rewrite length_insert. lia. }
        { simpl. lia. }
        exists w'. split; [exact Hrun|]. simpl in *.
        rewrite Hts, Hcalls, insert_insert_eq.
        rewrite drop_insert_lt by lia.
        rewrite (take_S_r _ _ 0) by (apply list_lookup_insert_eq; lia).
        rewrite take_insert_ge by lia. rewrite <- !app_assoc. done.
      * cbn [mret M_ret].
        destruct (IH (S i) th w) as (w' & Hrun & Hts & Hcalls & Hds & Hkm & Hvp);
          [done|lia|lia|].
        exists w'. split; [exact Hrun|].
        rewrite Hts, Hcalls, (take_S_r _ _ v) by done.
        rewrite <- !app_assoc. done.
    + cbn [mret M_ret].
      destruct (IH (S i) th w) as (w' & Hrun & Hts & Hcalls & Hds & Hkm & Hvp);
        [done|lia|lia|].
      exists w'. split; [exact Hrun|].
      rewrite Hts, Hcalls, (take_S_r _ _ v) by done.
      rewrite <- !app_assoc. done.
Qed.

(** X10.  [_st_thread_cleanup] goes through the keys below [key_max] in
    order: every non-null slot whose key has a destructor is passed to that
    destructor and set to null; slots without a destructor, null slots and
    slots at or above [key_max] are left as they are. *)
Theorem thread_cleanup_spec (thread : Z) (th : _st_thread_t) (w : world) :
  threads w !! thread = Some th →
  0 <= key_max w <= ST_KEYS_MAX →
  length (t_private_data th) = Z.to_nat ST_KEYS_MAX →
  length (_st_destructors w) = Z.to_nat ST_KEYS_MAX →
  let ds := take (Z.to_nat (key_max w)) (_st_destructors w) in
  ∃ w',
    _st_thread_cleanup thread w = Ret tt w' ∧
    threads w' =
      <[thread := set_t_private_data (cleanup_slots ds (t_private_data th)) th]>
        (threads w) ∧
    destructor_calls w' = destructor_calls w ++ cleanup_calls ds (t_private_data th).
Proof.
  intros Hth Hk Hp Hd ds. subst ds. unfold _st_thread_cleanup. mrun.
  destruct (cleanup_loop_spec thread (Z.to_nat (key_max w)) 0 th w Hth)
    as (w' & Hrun & Hts & Hcalls & _); [lia..|].
  rewrite !drop_0 in *. exists w'. done.
Qed.

Lemma thread_cleanup_spec_witness :
  ∃ w', _st_thread_cleanup 1 with_values = Ret tt w' ∧
        (t_private_data <$> threads w' !! 1) =
          Some (<[1%nat := 71]> (<[5%nat := 75]> (replicate 16 0))) ∧
        destructor_calls w' = [(900, 70)].
Proof.
  destruct (thread_cleanup_spec 1
              (set_t_private_data
                 (<[0%nat := 70]> (<[1%nat := 71]> (<[5%nat := 75]> (replicate 16 0))))
                 (plain_thread _ST_ST_RUNNING 0))
              with_values eq_refl) as (w' & Hrun & Hts & Hcalls);
    [by vm_compute|reflexivity..|].
  exists w'. split; [exact Hrun|]. split; [by rewrite Hts|by rewrite Hcalls].
Defined.

(** ** The epoll set: reference counts *)

Lemma wrap_int_add_l (x y : Z) : wrap_int (wrap_int x + y) = wrap_int (x + y).
Proof.
  unfold wrap_int. f_equal.
  replace ((x + 2 ^ 31) mod 2 ^ 32 - 2 ^ 31 + y + 2 ^ 31)
    with ((x + 2 ^ 31) mod 2 ^ 32 + y) by lia.
  rewrite Zplus_mod_idemp_l. f_equal. lia.
Qed.

Lemma wrap_int_inc_dec (x : Z) :
  - 2 ^ 31 <= x < 2 ^ 31 → wrap_int (wrap_int (x + 1) - 1) = x.
Proof.
  intros Hx. replace (wrap_int (x + 1) - 1) with (wrap_int (x + 1) + -1) by lia.
  rewrite wrap_int_add_l. replace (x + 1 + -1) with x by lia.
  apply wrap_int_small. lia.
Qed.

Lemma wrap_int_inc_dec_comm (x : Z) :
  wrap_int (wrap_int (x + 1) - 1) = wrap_int (wrap_int (x - 1) + 1).
Proof.
  replace (wrap_int (x + 1) - 1) with (wrap_int (x + 1) + -1) by lia.
  replace (x - 1) with (x + -1) by lia.
  rewrite !wrap_int_add_l. f_equal. lia.
Qed.

Lemma drop_add_cancel (events : Z) (d : _epoll_fd_data_t) :
  counts_in_range d → drop_interest events (add_interest events d) = d.
Proof.
  intros (Hr & Hw & He). destruct d as [r wr e rv]. simpl in *.
  unfold drop_interest, add_interest. simpl.
  destruct (c_true (Z.land events POLLIN)), (c_true (Z.land events POLLOUT)),
    (c_true (Z.land events POLLPRI)); rewrite ?wrap_int_inc_dec by done; done.
Qed.

Lemma drop_add_commute (e e' : Z) (d : _epoll_fd_data_t) :
  drop_interest e (add_interest e' d) = add_interest e' (drop_interest e d).
Proof.
  destruct d as [r wr ex rv]. unfold drop_interest, add_interest. simpl.
  destruct (c_true (Z.land e POLLIN)), (c_true (Z.land e POLLOUT)),
    (c_true (Z.land e POLLPRI)), (c_true (Z.land e' POLLIN)),
    (c_true (Z.land e' POLLOUT)), (c_true (Z.land e' POLLPRI));
    rewrite ?wrap_int_inc_dec_comm; done.
Qed.

Lemma alter_as_match {A} (f : A → A) (n : nat) (l : list A) :
  match l !! n with
  | Some d => <[n := f d]> l
  | None => l
  end = alter f n l.
Proof.
  revert n. induction l as [|x l IH]; intros [|n]; try done.
  change (alter f (S n) (x :: l)) with (x :: alter f n l).
  rewrite <- IH. change ((x :: l) !! S n) with (l !! n).
  by destruct (l !! n).
Qed.

Lemma add_table_alter (pd : pollfd) (a : list pollfd) (l : list _epoll_fd_data_t) :
  add_table (pd :: a) l =
  add_table a (alter (add_interest (pd_events pd)) (Z.to_nat (pd_fd pd)) l).
Proof. simpl. by rewrite alter_as_match. Qed.

Lemma del_table_alter (pd : pollfd) (a : list pollfd) (l : list _epoll_fd_data_t) :
  del_table (pd :: a) l =
  del_table a (alter (drop_interest (pd_events pd)) (Z.to_nat (pd_fd pd)) l).
Proof. simpl. by rewrite alter_as_match. Qed.

Lemma drop_add_table_commute (pd : pollfd) (a : list pollfd) :
  ∀ l, alter (drop_interest (pd_events pd)) (Z.to_nat (pd_fd pd)) (add_table a l) =
       add_table a (alter (drop_interest (pd_events pd)) (Z.to_nat (pd_fd pd)) l).
Proof.
  induction a as [|pd' a IH]; intros l; [done|].
  rewrite !add_table_alter, IH. f_equal.
  rewrite list_alter_alter. case_decide as Heq; [|done].
  rewrite Heq, list_alter_alter_eq. apply list_alter_ext; [|done].
  intros d _. simpl. apply drop_add_commute.
Qed.

(** Dropping the interests of the entries that were added gives the table
    back. *)
Lemma del_add_table (a : list pollfd) (l : list _epoll_fd_data_t) :
  Forall counts_in_range l → del_table a (add_table a l) = l.
Proof.
  intros Hl. induction a as [|pd a IH]; [done|].
  rewrite add_table_alter, del_table_alter, drop_add_table_commute.
  rewrite list_alter_alter_eq.
  rewrite (list_alter_ext _ id _ l); [|intros d Hd; simpl|done].
  - by rewrite list_alter_id.
  - apply drop_add_cancel. by eapply Forall_lookup_1 in Hd.
Qed.

Lemma length_add_table (a : list pollfd) :
  ∀ l, length (add_table a l) = length l.
Proof.
  induction a as [|pd a IH]; intros l; [done|].
  by rewrite add_table_alter, IH, length_alter.
Qed.

(** ** The epoll set: what the functions leave alone *)

Lemma epoll_frame_refl (w : world) : epoll_frame w w.
Proof. exists (_st_epoll_data w), (errno w). by destruct w. Qed.

Lemma epoll_frame_trans (w1 w2 w3 : world) :
  epoll_frame w1 w2 → epoll_frame w2 w3 → epoll_frame w1 w3.
Proof. intros (e & err & ->) (e' & err' & ->). by exists e', err'. Qed.

Lemma epoll_frame_errno (v : Z) (w : world) : epoll_frame w (set_errno v w).
Proof. exists (_st_epoll_data w), v. by destruct w. Qed.

Lemma epoll_frame_data (e : _st_epolldata) (w : world) :
  epoll_frame w (set_epoll_data e w).
Proof. exists e, (errno w). by destruct w. Qed.

Lemma frames_ret {A} (a : A) : frames (mret a).
Proof. intros w a' w' [= _ <-]. apply epoll_frame_refl. Qed.

Lemma frames_bind {A B} (m : M A) (k : A → M B) :
  frames m → (∀ a, frames (k a)) → frames (m ≫= k).
Proof.
  intros Hm Hk w b w'. rewrite bind_eq. destruct (m w) as [a w1| |] eqn:Hrun; [|done..].
  intros Hk'. eapply epoll_frame_trans; [by eapply Hm|by eapply Hk].
Qed.

Lemma frames_get {A} (f : world → A) : frames (get f).
Proof. intros w a w' [= _ <-]. apply epoll_frame_refl. Qed.

Lemma frames_when (b : bool) (m : M unit) : frames m → frames (when b m).
Proof. destruct b; [done|]. intros _. apply frames_ret. Qed.

Lemma frames_get_fd_data (fd : Z) : frames (get_fd_data fd).
Proof.
  intros w a w'. unfold get_fd_data.
  destruct (fd <? 0); [done|]. destruct (_ !! _); [|done].
  intros [= _ <-]. apply epoll_frame_refl.
Qed.

Lemma frames_upd_fd_data (fd : Z) f : frames (upd_fd_data fd f).
Proof.
  intros w [] w'. unfold upd_fd_data.
  destruct (fd <? 0); [done|]. destruct (_ !! _); [|done].
  intros [= <-]. apply epoll_frame_data.
Qed.

Lemma frames_upd_epoll f : frames (upd_epoll f).
Proof. intros w [] w' [= <-]. apply epoll_frame_data. Qed.

Lemma frames_set_errno (v : Z) : frames (modify (set_errno v)).
Proof. intros w [] w' [= <-]. apply epoll_frame_errno. Qed.

Lemma frames_get_pollfd (pds i : Z) : frames (get_pollfd pds i).
Proof.
  intros w a w'. unfold get_pollfd.
  destruct (pollfds w !! pds); [|done]. destruct (i <? 0); [done|].
  destruct (_ !! _); [|done]. intros [= _ <-]. apply epoll_frame_refl.
Qed.

Lemma frames_epoll_ctl (op fd events : Z) : frames (epoll_ctl op fd events).
Proof.
  intros w a w'. unfold epoll_ctl. destruct (ctl_result _ _) as [rv err].
  intros [= _ <-]. destruct (rv <? 0).
  - eapply epoll_frame_trans; [apply epoll_frame_data|apply epoll_frame_errno].
  - apply epoll_frame_data.
Qed.

Lemma frames_expand_size (fuel : nat) (limit : Z) :
  ∀ n, frames (expand_size fuel limit n).
Proof.
  induction fuel as [|fuel IH]; intros n; [done|]. simpl.
  destruct (limit >=? n); [apply IH|apply frames_ret].
Qed.

Create HintDb frames.
#[local] Hint Resolve frames_ret frames_get frames_when frames_get_fd_data
  frames_upd_fd_data frames_upd_epoll frames_set_errno frames_get_pollfd
  frames_epoll_ctl frames_expand_size : frames.

Ltac frames_step :=
  first
    [ apply frames_bind; [|intros ?]
    | match goal with
      | |- frames (if ?b then _ else _) => destruct b
      | |- frames (let _ := _ in _) => cbv zeta
      end
    | solve [auto with frames] ].

Lemma frames_fd_data_expand (fuel : nat) (maxfd : Z) :
  frames (_st_epoll_fd_data_expand fuel maxfd).
Proof. unfold _st_epoll_fd_data_expand. repeat frames_step. Qed.

Lemma frames_evtlist_expand (fuel : nat) : frames (_st_epoll_evtlist_expand fuel).
Proof. unfold _st_epoll_evtlist_expand. repeat frames_step. Qed.

#[local] Hint Resolve frames_fd_data_expand frames_evtlist_expand : frames.

Lemma frames_pollset_del_entry (pd : pollfd) : frames (_st_epoll_pollset_del_entry pd).
Proof. unfold _st_epoll_pollset_del_entry. repeat frames_step. Qed.

#[local] Hint Resolve frames_pollset_del_entry : frames.

Lemma frames_pollset_del_loop (n : nat) (pds : Z) :
  ∀ i, frames (_st_epoll_pollset_del_loop n pds i).
Proof.
  induction n as [|n IH]; intros i; simpl; [apply frames_ret|].
  repeat frames_step; try apply IH.
Qed.

Lemma frames_pollset_add_check (fuel n : nat) (pds : Z) :
  ∀ i, frames (_st_epoll_pollset_add_check fuel n pds i).
Proof.
  induction n as [|n IH]; intros i; simpl; [apply frames_ret|].
  unfold fail_with. repeat frames_step; try apply IH.
Qed.

Lemma frames_pollset_add_loop (fuel n : nat) (pds : Z) :
  ∀ i, frames (_st_epoll_pollset_add_loop fuel n pds i).
Proof.
  induction n as [|n IH]; intros i; simpl; [apply frames_ret|].
  repeat frames_step; try apply IH.
Qed.

#[local] Hint Resolve frames_pollset_del_loop frames_pollset_add_check
  frames_pollset_add_loop : frames.

(** ** The epoll set: growing the descriptor table *)

(** The doubling loop ends, given 31 iterations, when it starts from a
    positive size and the limit is below [2 ^ 30]; the size it returns is
    the first doubling of [n] above the limit. *)
Lemma expand_size_returns (limit : Z) (fuel : nat) :
  ∀ n, 1 <= n → limit < 2 ^ 30 → limit < n * 2 ^ Z.of_nat fuel →
    ∃ k : nat,
      (∀ w, expand_size (S fuel) limit n w = Ret (n * 2 ^ Z.of_nat k) w)
      ∧ limit < n * 2 ^ Z.of_nat k
      ∧ (k = O ∨ n * 2 ^ Z.of_nat k <= 2 * limit).
Proof.
  induction fuel as [|fuel IH]; intros n Hn Hlim Hfuel.
  - exists O. simpl in *. destruct (Z.geb_spec limit n); [lia|].
    split; [|lia]. intros w. unfold mret, M_ret. f_equal. lia.
  - cbn [expand_size]. destruct (Z.geb_spec limit n) as [Hge|Hlt].
    + assert (Hdbl : wrap_int (Z.shiftl n 1) = 2 * n).
      { rewrite Z.shiftl_mul_pow2 by lia. rewrite wrap_int_small; lia. }
      rewrite Hdbl. destruct (IH (2 * n)) as (k & Hrun & Hk & Hmin); [lia|done| |].
      { rewrite Nat2Z.inj_succ, Z.pow_succ_r in Hfuel; lia. }
      exists (S k). rewrite Nat2Z.inj_succ, Z.pow_succ_r by lia.
      replace (n * (2 * 2 ^ Z.of_nat k)) with (2 * n * 2 ^ Z.of_nat k) by lia.
      split; [exact Hrun|]. split; [done|]. right.
      destruct Hmin as [->|Hmin]; [simpl; lia|lia].
    + exists O. split; [|simpl; lia]. intros w. unfold mret, M_ret.
      f_equal. simpl. lia.
Qed.

(** [_st_epoll_fd_new(osfd)] makes room for [osfd] in the descriptor table:
    the table is left alone when [osfd] already indexes it, and is otherwise
    extended with zeroed entries to the first doubling of its size that
    [osfd] indexes. *)
Lemma fd_data_expand_spec (fuel : nat) (maxfd : Z) (w : world) :
  let l := fd_data (_st_epoll_data w) in
  let size := Z.of_nat (length l) in
  1 <= size <= maxfd → maxfd < 2 ^ 30 → (31 ≤ fuel)%nat →
  if realloc_ok (_st_epoll_data w) then
    ∃ k : nat,
      _st_epoll_fd_data_expand fuel maxfd w =
        Ret 0 (with_fd_data
                 (l ++ replicate (Z.to_nat (size * 2 ^ Z.of_nat k - size)) zero_fd_data) w)
      ∧ maxfd < size * 2 ^ Z.of_nat k <= 2 * maxfd
  else _st_epoll_fd_data_expand fuel maxfd w = Ret (-1) (set_errno ENOMEM w).
Proof.
  intros l size Hsize Hmax Hfuel.
  destruct fuel as [|fuel]; [lia|].
  destruct (expand_size_returns maxfd fuel size) as (k & Hrun & Hk & Hmin); [lia|done| |].
  { assert (2 ^ 30 <= 2 ^ Z.of_nat fuel) by (apply Z.pow_le_mono_r; lia). nia. }
  unfold _st_epoll_fd_data_expand.
  destruct (realloc_ok (_st_epoll_data w)) eqn:Hok.
  - exists k. split.
    + rewrite bind_eq. unfold get at 1. fold l. fold size.
      rewrite bind_eq, Hrun, bind_eq. unfold get at 1. rewrite Hok.
      rewrite bind_eq. unfold upd_epoll, modify. done.
    + split; [done|]. destruct Hmin as [->|Hmin]; [simpl in Hk; lia|done].
  - rewrite bind_eq. unfold get at 1. fold l. fold size.
    rewrite bind_eq, Hrun, bind_eq. unfold get at 1. by rewrite Hok.
Qed.

(** X11.  [_st_epoll_fd_new(osfd)] makes room for [osfd] in the descriptor
    table.  When [osfd] already indexes the table nothing changes.
    Otherwise, when [realloc] succeeds, the table is extended with zeroed
    entries to the first doubling of its size that [osfd] indexes and the
    old entries stay; when [realloc] fails the call returns -1 and the table
    is as before. *)
Theorem fd_new_makes_room (fuel : nat) (osfd : Z) (w : world) :
  let l := fd_data (_st_epoll_data w) in
  let size := Z.of_nat (length l) in
  1 <= size → osfd < 2 ^ 30 → (31 ≤ fuel)%nat →
  (osfd < size → _st_epoll_fd_new fuel osfd w = Ret 0 w) ∧
  (size <= osfd → realloc_ok (_st_epoll_data w) = true →
   ∃ k : nat,
     _st_epoll_fd_new fuel osfd w =
       Ret 0 (with_fd_data
                (l ++ replicate (Z.to_nat (size * 2 ^ Z.of_nat k - size)) zero_fd_data) w)
     ∧ osfd < size * 2 ^ Z.of_nat k <= 2 * osfd) ∧
  (size <= osfd → realloc_ok (_st_epoll_data w) = false →
   _st_epoll_fd_new fuel osfd w = Ret (-1) (set_errno ENOMEM w)).
Proof.
  intros l size Hsize Hmax Hfuel. unfold _st_epoll_fd_new.
  split; [|split].
  - intros Hlt. rewrite bind_eq. unfold get at 1. fold l. fold size.
    destruct (Z.geb_spec osfd size); [lia|]. by rewrite bind_eq.
  - intros Hge Hok.
    pose proof (fd_data_expand_spec fuel osfd w ltac:(fold l; fold size; lia) Hmax Hfuel)
      as Hexp.
    rewrite Hok in Hexp. destruct Hexp as (k & Hrun & Hk). exists k. split; [|done].
    rewrite bind_eq. unfold get at 1. fold l. fold size.
    destruct (Z.geb_spec osfd size); [|lia]. by rewrite bind_eq, Hrun.
  - intros Hge Hok.
    pose proof (fd_data_expand_spec fuel osfd w ltac:(fold l; fold size; lia) Hmax Hfuel)
      as Hexp.
    rewrite Hok in Hexp.
    rewrite bind_eq. unfold get at 1. fold l. fold size.
    destruct (Z.geb_spec osfd size); [|lia]. by rewrite bind_eq, Hexp.
Qed.

Lemma fd_new_makes_room_witness :
  _st_epoll_fd_new 31 4 latched_fd = Ret 0 latched_fd ∧
  ∃ k : nat,
    _st_epoll_fd_new 31 9 latched_fd =
      Ret 0 (with_fd_data
               (fd_data (_st_epoll_data latched_fd) ++
                replicate (Z.to_nat (5 * 2 ^ Z.of_nat k - 5)) zero_fd_data) latched_fd)
    ∧ 9 < 5 * 2 ^ Z.of_nat k <= 2 * 9.
Proof.
  split.
  - apply (fd_new_makes_room 31 4 latched_fd); simpl; lia.
  - apply (fd_new_makes_room 31 9 latched_fd); simpl; first [lia | reflexivity].
Defined.

(** ** The epoll set: adding interests *)

Lemma valid_pollfd_check (pd : pollfd) :
  (pd_fd pd <? 0) || negb (c_true (pd_events pd))
  || c_true (Z.land (pd_events pd) (Z.lnot (Z.lor (Z.lor POLLIN POLLOUT) POLLPRI)))
  = false ↔ valid_pollfd pd.
Proof.
  unfold valid_pollfd, c_true.
  destruct (Z.ltb_spec (pd_fd pd) 0), (Z.eqb_spec (pd_events pd) 0),
    (Z.eqb_spec (Z.land (pd_events pd)
                   (Z.lnot (Z.lor (Z.lor POLLIN POLLOUT) POLLPRI))) 0);
    simpl; split; try done; try lia; intros (? & ? & ?); try done; lia.
Qed.

Lemma get_pollfd_some (pds : Z) (a : list pollfd) (i : nat) (pd : pollfd) (w : world) :
  pollfds w !! pds = Some a → a !! i = Some pd →
  get_pollfd pds (Z.of_nat i) w = Ret pd w.
Proof.
  intros Ha Hpd. unfold get_pollfd. rewrite Ha.
  destruct (Z.ltb_spec (Z.of_nat i) 0); [lia|]. by rewrite Nat2Z.id, Hpd.
Qed.

(** The validation loop accepts entries that are valid and whose
    descriptors index the table, and changes nothing. *)
Lemma pollset_add_check_ok (fuel : nat) (pds : Z) (a : list pollfd) (w : world)
    (n : nat) :
  pollfds w !! pds = Some a →
  ∀ i : nat,
    (i + n ≤ length a)%nat →
    Forall valid_pollfd (take n (drop i a)) →
    fds_in_table w (take n (drop i a)) →
    _st_epoll_pollset_add_check fuel n pds (Z.of_nat i) w = Ret 0 w.
Proof.
  intros Ha. induction n as [|n IH]; intros i Hlen Hval Hfds; [done|].
  destruct (lookup_lt_is_Some_2 a i) as [pd Hpd]; [lia|].
  rewrite (drop_S _ _ _ Hpd) in Hval, Hfds. cbn [take] in Hval, Hfds.
  apply Forall_cons in Hval as [Hv Hval]. apply Forall_cons in Hfds as [Hfd Hfds].
  cbn [_st_epoll_pollset_add_check]. rewrite bind_eq, (get_pollfd_some _ a _ pd) by done.
  apply valid_pollfd_check in Hv. rewrite Hv.
  rewrite bind_eq. unfold get at 1.
  destruct (Z.geb_spec (pd_fd pd) (Z.of_nat (length (fd_data (_st_epoll_data w)))));
    [lia|].
  rewrite bind_eq. unfold mret at 1, M_ret at 1. cbn [Z.ltb Z.compare].
  replace (Z.of_nat i + 1) with (Z.of_nat (S i)) by lia. apply IH; [lia|done..].
Qed.

(** The validation loop stops at the first entry it rejects. *)
Lemma pollset_add_check_einval (fuel : nat) (pds : Z) (a : list pollfd) (w : world)
    (k : nat) (pd : pollfd) :
  pollfds w !! pds = Some a →
  a !! k = Some pd → ¬ valid_pollfd pd →
  Forall valid_pollfd (take k a) → fds_in_table w (take k a) →
  ∀ n i : nat,
    (i ≤ k < i + n)%nat →
    _st_epoll_pollset_add_check fuel n pds (Z.of_nat i) w =
      Ret (-1) (set_errno EINVAL w).
Proof.
  intros Ha Hk Hbad Hval Hfds. induction n as [|n IH]; intros i Hi; [lia|].
  cbn [_st_epoll_pollset_add_check].
  destruct (decide (i = k)) as [->|Hne].
  - rewrite bind_eq, (get_pollfd_some _ a _ pd) by done.
    destruct (_ || _) eqn:Hchk; [done|]. by apply valid_pollfd_check in Hchk.
  - assert (Hik : (i < k)%nat) by lia.
    destruct (lookup_lt_is_Some_2 a i) as [pd' Hpd'].
    { apply lookup_lt_Some in Hk. lia. }
    assert (Hin : take k a !! i = Some pd') by (by rewrite lookup_take_lt).
    pose proof (Forall_lookup_1 _ _ _ _ Hval Hin) as Hv.
    pose proof (Forall_lookup_1 _ _ _ _ Hfds Hin) as Hfd. simpl in Hfd.
    rewrite bind_eq, (get_pollfd_some _ a _ pd') by done.
    apply valid_pollfd_check in Hv. rewrite Hv.
    rewrite bind_eq. unfold get at 1.
    destruct (Z.geb_spec (pd_fd pd') (Z.of_nat (length (fd_data (_st_epoll_data w)))));
      [lia|].
    rewrite bind_eq. unfold mret at 1, M_ret at 1. cbn [Z.ltb Z.compare].
    replace (Z.of_nat i + 1) with (Z.of_nat (S i)) by lia. apply IH. lia.
Qed.

(** X12.  [_st_epoll_pollset_add] validates the whole array before it
    registers anything: when the entries before index [k] are valid and entry
    [k] has a negative descriptor, no requested event or an event other than
    [POLLIN], [POLLOUT] and [POLLPRI], the call returns -1 with [errno] set
    to [EINVAL]; no reference count is touched and no system call is made,
    also for the valid entries before [k]. *)
Theorem pollset_add_rejects_invalid_entry (fuel : nat) (pds npds : Z)
    (a : list pollfd) (k : nat) (pd : pollfd) (w : world) :
  pollfds w !! pds = Some a →
  a !! k = Some pd → ¬ valid_pollfd pd → Z.of_nat k < npds →
  Forall valid_pollfd (take k a) → fds_in_table w (take k a) →
  _st_epoll_pollset_add fuel pds npds w = Ret (-1) (set_errno EINVAL w).
Proof.
  intros Ha Hk Hbad Hlt Hval Hfds. unfold _st_epoll_pollset_add.
  pose proof (pollset_add_check_einval fuel pds a w k pd Ha Hk Hbad Hval Hfds
                (Z.to_nat npds) 0%nat ltac:(lia)) as Hchk.
  change (Z.of_nat 0) with 0 in Hchk. by rewrite bind_eq, Hchk.
Qed.

Lemma pollset_add_rejects_invalid_entry_witness :
  _st_epoll_pollset_add 31 500 2
    (set_pollfds (<[500 := [mk_pollfd 3 POLLIN 0; mk_pollfd 4 0 0]]> ∅) latched_fd)
  = Ret (-1)
      (set_errno EINVAL
         (set_pollfds (<[500 := [mk_pollfd 3 POLLIN 0; mk_pollfd 4 0 0]]> ∅) latched_fd)).
Proof.
  apply (pollset_add_rejects_invalid_entry 31 500 2
           [mk_pollfd 3 POLLIN 0; mk_pollfd 4 0 0] 1 (mk_pollfd 4 0 0)).
  - reflexivity.
  - reflexivity.
  - intros (_ & Hev & _). by apply Hev.
  - lia.
  - repeat constructor; simpl; try lia; done.
  - repeat constructor; simpl; lia.
Defined.

(** The three conditional increments, taken together. *)
Lemma add_interest_steps (events : Z) (d : _epoll_fd_data_t) :
  let d1 := if c_true (Z.land events POLLIN)
            then set_rd_ref_cnt (wrap_int (rd_ref_cnt d + 1)) d else d in
  let d2 := if c_true (Z.land events POLLOUT)
            then set_wr_ref_cnt (wrap_int (wr_ref_cnt d1 + 1)) d1 else d1 in
  (if c_true (Z.land events POLLPRI)
   then set_ex_ref_cnt (wrap_int (ex_ref_cnt d2 + 1)) d2 else d2)
  = add_interest events d.
Proof.
  unfold add_interest.
  destruct d, (c_true (Z.land events POLLIN)), (c_true (Z.land events POLLOUT)),
    (c_true (Z.land events POLLPRI)); reflexivity.
Qed.

(** The reference-count part of one round of the registration loop. *)
Lemma pollset_add_counts {B} (fd events : Z) (d : _epoll_fd_data_t) (w : world)
    (k : _epoll_fd_data_t → M B) :
  0 <= fd →
  fd_data (_st_epoll_data w) !! Z.to_nat fd = Some d →
  (when (c_true (Z.land events POLLIN))
     (upd_fd_data fd (λ d, set_rd_ref_cnt (wrap_int (rd_ref_cnt d + 1)) d));;
   when (c_true (Z.land events POLLOUT))
     (upd_fd_data fd (λ d, set_wr_ref_cnt (wrap_int (wr_ref_cnt d + 1)) d));;
   when (c_true (Z.land events POLLPRI))
     (upd_fd_data fd (λ d, set_ex_ref_cnt (wrap_int (ex_ref_cnt d + 1)) d));;
   d' ← get_fd_data fd; k d') w
  = k (add_interest events d)
      (with_fd_data (<[Z.to_nat fd := add_interest events d]>
                       (fd_data (_st_epoll_data w))) w).
Proof.
  intros Hfd Hd.
  assert (Hgen : ∀ l w0, l !! Z.to_nat fd = Some d →
    (when (c_true (Z.land events POLLIN))
       (upd_fd_data fd (λ d, set_rd_ref_cnt (wrap_int (rd_ref_cnt d + 1)) d));;
     when (c_true (Z.land events POLLOUT))
       (upd_fd_data fd (λ d, set_wr_ref_cnt (wrap_int (wr_ref_cnt d + 1)) d));;
     when (c_true (Z.land events POLLPRI))
       (upd_fd_data fd (λ d, set_ex_ref_cnt (wrap_int (ex_ref_cnt d + 1)) d));;
     d' ← get_fd_data fd; k d') (with_fd_data l w0)
    = k (add_interest events d)
        (with_fd_data (<[Z.to_nat fd := add_interest events d]> l) w0)).
  { clear Hd w. intros l w Hd.
    assert (Hlt : (Z.to_nat fd < length l)%nat) by (eapply lookup_lt_Some; done).
    rewrite bind_eq, (when_upd_fd_data _ _ _ _ d) by done.
    rewrite bind_eq. erewrite when_upd_fd_data; [|done|by apply list_lookup_insert_eq].
    rewrite bind_eq. erewrite when_upd_fd_data;
      [|done|apply list_lookup_insert_eq; by rewrite length_insert].
    rewrite !list_insert_insert_eq.
    rewrite (add_interest_steps events d).
    rewrite bind_eq. erewrite get_fd_data_some; [|done|by apply list_lookup_insert_eq].
    done. }
  specialize (Hgen _ w Hd). by rewrite with_fd_data_id in Hgen.
Qed.

(** The registration loop of [_st_epoll_pollset_add], when the descriptors
    index the table and the event buffer has room. *)
Lemma pollset_add_loop_spec (fuel : nat) (pds : Z) (a : list pollfd) (n : nat) :
  ∀ (i : nat) (w : world),
    pollfds w !! pds = Some a →
    (i + n ≤ length a)%nat →
    fds_in_table w (take n (drop i a)) →
    evtlist_room w (Z.of_nat n) →
    add_loop_post w i n (take n (drop i a))
      (_st_epoll_pollset_add_loop fuel n pds (Z.of_nat i) w).
Proof.
  induction n as [|n IH]; intros i w Ha Hlen Hfds Hroom.
  - exists i, w, []. simpl. rewrite app_nil_r.
    repeat split; try done; try lia. by rewrite take_0, take_nil.
  - destruct (lookup_lt_is_Some_2 a i) as [pd Hpd]; [lia|].
    rewrite (drop_S _ _ _ Hpd) in Hfds |- *. cbn [take] in Hfds |- *.
    apply Forall_cons in Hfds as [[Hfd0 Hfd1] Hfds].
    destruct (lookup_lt_is_Some_2 (fd_data (_st_epoll_data w)) (Z.to_nat (pd_fd pd)))
      as [d Hd]; [lia|].
    destruct Hroom as (Hr0 & Hr1 & Hr2). rewrite Nat2Z.inj_succ in Hr1.
    set (l := fd_data (_st_epoll_data w)) in *.
    set (d' := add_interest (pd_events pd) d).
    set (entries := pd :: take n (drop (S i) a)).
    assert (Hcont : ∀ w1 cs,
      pollfds w1 = pollfds w →
      fd_data (_st_epoll_data w1) = <[Z.to_nat (pd_fd pd) := d']> l →
      ctl_result (_st_epoll_data w1) = ctl_result (_st_epoll_data w) →
      ctl_log (_st_epoll_data w1) = ctl_log (_st_epoll_data w) ++ cs →
      evtlist_room w1 (Z.of_nat n) →
      add_loop_post w i (S n) entries
        (_st_epoll_pollset_add_loop fuel n pds (Z.of_nat i + 1) w1)).
    { intros w1 cs Hpf Htab Hres Hlog Hroom1.
      destruct (IH (S i) w1)
        as (j & w' & calls & Hrun & Hj & Hpf' & Htab' & Hres' & Hlog' & Herr & Hall).
      { by rewrite Hpf. }
      { lia. }
      { unfold fds_in_table in *. rewrite Htab, length_insert. done. }
      { done. }
      exists j, w', (cs ++ calls).
      replace (Z.of_nat i + 1) with (Z.of_nat (S i)) by lia.
      split; [done|]. split; [lia|]. split; [by rewrite Hpf'|].
      split; [|split; [|split; [|split]]].
      - replace (S j - i)%nat with (S (S j - S i)) by lia.
        unfold entries. cbn [take add_table]. fold l. rewrite Hd.
        by rewrite Htab', Htab.
      - by rewrite Hres'.
      - by rewrite Hlog', Hlog, app_assoc.
      - intros Hlt. destruct Herr as (c & Hc & Hrv & Herrno); [lia|].
        exists c. rewrite <- Hres. split; [|done]. apply elem_of_app. by right.
      - intros Hok. rewrite Hall; [lia|]. intros c. rewrite Hres. apply Hok. }
    assert (Hbreak : ∀ w1 c rv err,
      pollfds w1 = pollfds w →
      fd_data (_st_epoll_data w1) = <[Z.to_nat (pd_fd pd) := d']> l →
      ctl_result (_st_epoll_data w1) = ctl_result (_st_epoll_data w) →
      ctl_log (_st_epoll_data w1) = ctl_log (_st_epoll_data w) ++ [c] →
      ctl_result (_st_epoll_data w) c = (rv, err) → rv < 0 → errno w1 = err →
      add_loop_post w i (S n) entries (Ret (Z.of_nat i) w1)).
    { intros w1 c rv err Hpf Htab Hres Hlog Hc Hrv Herrno.
      exists i, w1, [c]. split; [done|]. split; [lia|]. split; [done|].
      split; [|split; [|split; [|split]]]; try done.
      - replace (S i - i)%nat with 1%nat by lia.
        unfold entries. cbn [take add_table]. fold l. by rewrite Hd.
      - intros _. exists c. rewrite Hc. split; [by apply list_elem_of_singleton|done].
      - intros Hok. specialize (Hok c). rewrite Hc in Hok. simpl in Hok. lia. }
    assert (Hadd : ∀ w1 cs,
      pollfds w1 = pollfds w →
      fd_data (_st_epoll_data w1) = <[Z.to_nat (pd_fd pd) := d']> l →
      ctl_result (_st_epoll_data w1) = ctl_result (_st_epoll_data w) →
      ctl_log (_st_epoll_data w1) = ctl_log (_st_epoll_data w) ++ cs →
      evtlist_cnt (_st_epoll_data w1) = evtlist_cnt (_st_epoll_data w) →
      evtlist_size (_st_epoll_data w1) = evtlist_size (_st_epoll_data w) →
      add_loop_post w i (S n) entries
        (((upd_epoll (λ e, set_evtlist_cnt (wrap_int (evtlist_cnt e + 1)) e);;
           e ← get _st_epoll_data;
           when (evtlist_cnt e >? evtlist_size e) (_st_epoll_evtlist_expand fuel));;
          _st_epoll_pollset_add_loop fuel n pds (Z.of_nat i + 1)) w1)).
    { intros w1 cs Hpf Htab Hres Hlog Hcnt Hsize.
      rewrite bind_eq, bind_eq. unfold upd_epoll at 1, modify at 1.
      rewrite bind_eq. unfold get at 1. cbn [_st_epoll_data set_epoll_data
        evtlist_cnt evtlist_size set_evtlist_cnt].
      rewrite Hcnt, Hsize, wrap_int_small by lia.
      destruct (Z.gtb_spec (evtlist_cnt (_st_epoll_data w) + 1)
                  (evtlist_size (_st_epoll_data w))); [lia|].
      cbn [when]. unfold mret at 1, M_ret at 1.
      apply (Hcont _ cs); try done.
      unfold evtlist_room. simpl. rewrite ?Hsize. lia. }
    cbn [_st_epoll_pollset_add_loop].
    rewrite bind_eq, (get_pollfd_some _ a _ pd) by done.
    rewrite bind_eq. unfold get_fd_data at 1.
    destruct (Z.ltb_spec (pd_fd pd) 0); [lia|]. fold l. rewrite Hd.
    cbv zeta. rewrite (pollset_add_counts _ _ d) by done. fold l. fold d'.
    destruct (negb (_ST_EPOLL_EVENTS d' =? _ST_EPOLL_EVENTS d)) eqn:Hchg.
    + rewrite bind_eq. unfold epoll_ctl at 1.
      set (op := if c_true (_ST_EPOLL_EVENTS d) then EPOLL_CTL_MOD else EPOLL_CTL_ADD).
      set (c := mk_ctl op (pd_fd pd) (_ST_EPOLL_EVENTS d')).
      change (ctl_result (_st_epoll_data (with_fd_data (<[Z.to_nat (pd_fd pd):=d']> l) w)))
        with (ctl_result (_st_epoll_data w)).
      destruct (ctl_result (_st_epoll_data w) c) as [rv err] eqn:Hres.
      cbv zeta. rewrite bind_eq. unfold get at 1.
      destruct (Z.ltb_spec rv 0) as [Hneg|Hpos]; cbn [errno set_errno andb].
      * subst op. destruct (c_true (_ST_EPOLL_EVENTS d)).
        -- apply (Hbreak _ c rv err); done.
        -- cbn [Z.eqb EPOLL_CTL_ADD negb orb Pos.eqb].
           destruct (err =? EEXIST).
           ++ apply (Hadd _ [c]); done.
           ++ apply (Hbreak _ c rv err); done.
      * subst op. destruct (c_true (_ST_EPOLL_EVENTS d)).
        -- rewrite bind_eq. cbn [Z.eqb EPOLL_CTL_ADD EPOLL_CTL_MOD Pos.eqb].
           unfold mret at 1, M_ret at 1.
           apply (Hcont _ [c]); try done. unfold evtlist_room. simpl. lia.
        -- apply (Hadd _ [c]); done.
    + apply (Hcont _ []); simpl; try done.
      * by rewrite app_nil_r.
      * unfold evtlist_room. simpl. lia.
Qed.

Lemma frames_pollset_add (fuel : nat) (pds npds : Z) :
  frames (_st_epoll_pollset_add fuel pds npds).
Proof.
  unfold _st_epoll_pollset_add, _st_epoll_pollset_del. repeat frames_step.
Qed.


(** [_st_epoll_pollset_add] on an array of valid entries whose descriptors
    index the table: either every entry is registered, or the loop stopped at
    an index [j] after a failed system call and the entries up to [j] were
    taken out again. *)
Lemma pollset_add_outcome (fuel : nat) (pds npds : Z) (a : list pollfd) (w : world) :
  let l := fd_data (_st_epoll_data w) in
  let entries := take (Z.to_nat npds) a in
  pollfds w !! pds = Some a →
  0 <= npds → (Z.to_nat npds ≤ length a)%nat →
  Forall valid_pollfd entries → fds_in_table w entries →
  Forall counts_in_range l → evtlist_room w npds →
  ∃ (rv : Z) (w' : world) (calls : list epoll_ctl_call),
    _st_epoll_pollset_add fuel pds npds w = Ret rv w' ∧
    ctl_log (_st_epoll_data w') = ctl_log (_st_epoll_data w) ++ calls ∧
    (rv = 0 ∧ fd_data (_st_epoll_data w') = add_table entries l
     ∨ rv = -1 ∧ fd_data (_st_epoll_data w') = l ∧
       ∃ c, c ∈ calls ∧ (ctl_result (_st_epoll_data w) c).1 < 0 ∧
            errno w' = (ctl_result (_st_epoll_data w) c).2) ∧
    ((∀ c, 0 <= (ctl_result (_st_epoll_data w) c).1) → rv = 0).
Proof.
  intros l entries Ha Hn Hlen Hval Hfds Hrange Hroom.
  pose proof (pollset_add_check_ok fuel pds a w (Z.to_nat npds) Ha 0%nat) as Hchk.
  rewrite drop_0 in Hchk. specialize (Hchk ltac:(lia) Hval Hfds).
  change (Z.of_nat 0) with 0 in Hchk.
  pose proof (pollset_add_loop_spec fuel pds a (Z.to_nat npds) 0%nat w Ha) as Hloop.
  rewrite drop_0, Z2Nat.id in Hloop by done.
  destruct (Hloop ltac:(lia) Hfds Hroom)
    as (j & w1 & calls & Hrun & Hj & Hpf & Htab & Hres & Hlog & Herr & Hall).
  change (Z.of_nat 0) with 0 in Hrun. fold entries l in Htab.
  unfold _st_epoll_pollset_add. rewrite bind_eq, Hchk. cbn [Z.ltb Z.compare].
  rewrite bind_eq, Hrun.
  destruct (Z.ltb_spec (Z.of_nat j) npds) as [Hlt|Hge].
  - rewrite bind_eq. unfold get at 1. rewrite bind_eq.
    unfold _st_epoll_pollset_del.
    replace (Z.to_nat (Z.of_nat j + 1)) with (S j) by lia.
    assert (Htake : take (S j - 0) entries = take (S j) a).
    { unfold entries. rewrite take_take. f_equal. lia. }
    rewrite Htake in Htab.
    destruct (pollset_del_loop_spec pds a (S j) 0%nat w1)
      as (w2 & Hdel & Htab2 & Hlog2 & _).
    { by rewrite Hpf. }
    { lia. }
    { rewrite drop_0. unfold fds_in_table. rewrite Htab, length_add_table.
      unfold fds_in_table, entries in Hfds.
      apply (Forall_take _ (S j)) in Hfds. rewrite take_take in Hfds.
      by replace (S j `min` Z.to_nat npds)%nat with (S j) in Hfds by lia. }
    change (Z.of_nat 0) with 0 in Hdel. rewrite drop_0 in Htab2, Hlog2.
    rewrite Hdel, bind_eq. unfold modify at 1. unfold mret, M_ret.
    eexists _, _, (calls ++ _). split; [reflexivity|].
    split; [|split].
    + cbn [set_errno _st_epoll_data]. by rewrite Hlog2, Hlog, app_assoc.
    + right. split; [done|]. split.
      * cbn [set_errno _st_epoll_data]. rewrite Htab2, Htab.
        by apply del_add_table.
      * destruct Herr as (c & Hc & Hrv & Herrno); [lia|].
        exists c. split; [|done]. apply elem_of_app. by left.
    + intros Hok. specialize (Hall Hok). lia.
  - assert (Hjn : j = Z.to_nat npds) by lia. subst j.
    replace (S (Z.to_nat npds) - 0)%nat with (S (Z.to_nat npds)) in Htab by lia.
    rewrite take_ge in Htab by (unfold entries; rewrite length_take; lia).
    exists 0, w1, calls. split; [done|]. split; [done|]. split; [by left|done].
Qed.

(** X13.  [_st_epoll_pollset_add] registers all the entries or none.  On an
    array of valid entries whose descriptors index the table, whatever the
    kernel answers to the [epoll_ctl] calls, the call returns 0 with every
    requested interest added to the reference counts, or it returns -1 with
    the reference counts exactly as before the call and [errno] holding the
    error of a system call it made that failed.  Nothing but the epoll data
    and [errno] changes, and the call returns 0 when no system call fails. *)
Theorem pollset_add_all_or_nothing (fuel : nat) (pds npds : Z) (a : list pollfd)
    (w : world) :
  pollfds w !! pds = Some a →
  0 <= npds → (Z.to_nat npds ≤ length a)%nat →
  Forall valid_pollfd (take (Z.to_nat npds) a) →
  fds_in_table w (take (Z.to_nat npds) a) →
  Forall counts_in_range (fd_data (_st_epoll_data w)) →
  evtlist_room w npds →
  ∃ (rv : Z) (w' : world),
    _st_epoll_pollset_add fuel pds npds w = Ret rv w' ∧
    epoll_frame w w' ∧
    (rv = 0 ∧
     fd_data (_st_epoll_data w') =
       add_table (take (Z.to_nat npds) a) (fd_data (_st_epoll_data w))
     ∨ rv = -1 ∧
       fd_data (_st_epoll_data w') = fd_data (_st_epoll_data w) ∧
       ∃ calls c,
         ctl_log (_st_epoll_data w') = ctl_log (_st_epoll_data w) ++ calls ∧
         c ∈ calls ∧ (ctl_result (_st_epoll_data w) c).1 < 0 ∧
         errno w' = (ctl_result (_st_epoll_data w) c).2) ∧
    ((∀ c, 0 <= (ctl_result (_st_epoll_data w) c).1) → rv = 0).
Proof.
  intros Ha Hn Hlen Hval Hfds Hrange Hroom.
  destruct (pollset_add_outcome fuel pds npds a w Ha Hn Hlen Hval Hfds Hrange Hroom)
    as (rv & w' & calls & Hrun & Hlog & Hcases & Hok).
  exists rv, w'. split; [done|]. split; [by eapply frames_pollset_add|].
  split; [|done]. destruct Hcases as [[-> Htab]|(-> & Htab & c & Hc)]; [by left|].
  right. split; [done|]. split; [done|]. by exists calls, c.
Qed.

Lemma pollset_add_all_or_nothing_witness :
  ∃ (rv : Z) (w' : world),
    _st_epoll_pollset_add 31 500 2 latched_fd = Ret rv w' ∧
    rv = 0 ∧
    fd_data (_st_epoll_data w') =
      [zero_fd_data; zero_fd_data; zero_fd_data;
       mk_fd_data 2 0 0 EPOLLIN; mk_fd_data 2 0 0 0].
Proof.
  destruct (pollset_add_all_or_nothing 31 500 2
              [mk_pollfd 3 POLLIN POLLIN; mk_pollfd 4 POLLIN 0] latched_fd)
    as (rv & w' & Hrun & _ & Hcases & Hok).
  - reflexivity.
  - lia.
  - simpl. lia.
  - repeat constructor; simpl; try lia; done.
  - repeat constructor; simpl; lia.
  - repeat constructor; simpl; lia.
  - repeat split; simpl; lia.
  - assert (Hrv : rv = 0) by (apply Hok; intros c; simpl; lia).
    exists rv, w'. split; [exact Hrun|]. split; [exact Hrv|].
    destruct Hcases as [[_ Htab]|[Hne _]]; [exact Htab|lia].
Defined.



(** ** [st_poll] on the epoll event system *)


Lemma remove_link_absent (e : Z) (l : list Z) : e ∉ l → ST_REMOVE_LINK e l = l.
Proof.
  intros He. unfold ST_REMOVE_LINK. induction l as [|x l IH]; [done|].
  apply not_elem_of_cons in He as [Hne He].
  rewrite filter_cons_True by done. by rewrite IH.
Qed.




(** ** [_st_epoll_dispatch] *)

Lemma poll_revents_nothing_latched (events : Z) : poll_revents events 0 = 0.
Proof. unfold poll_revents. by rewrite !andb_false_r. Qed.

(** The latch loop, for one reported descriptor. *)
Lemma dispatch_latch_one (fd ev : Z) (d : _epoll_fd_data_t) (w : world) :
  0 <= fd →
  fd_data (_st_epoll_data w) !! Z.to_nat fd = Some d →
  _st_epoll_dispatch_latch [(fd, ev)] w =
    Ret tt (with_fd_data
              (<[Z.to_nat fd := set_revents (latched_events d ev) d]>
                 (fd_data (_st_epoll_data w))) w).
Proof.
  intros Hfd Hd.
  assert (Hgen : ∀ l w0, l !! Z.to_nat fd = Some d →
    _st_epoll_dispatch_latch [(fd, ev)] (with_fd_data l w0) =
      Ret tt (with_fd_data (<[Z.to_nat fd := set_revents (latched_events d ev) d]> l) w0)).
  { clear Hd w. intros l w Hd.
    assert (Hlt : (Z.to_nat fd < length l)%nat) by (eapply lookup_lt_Some; done).
    cbn [_st_epoll_dispatch_latch].
    rewrite bind_eq. pose proof (when_upd_fd_data true l w fd d (set_revents ev) Hfd Hd) as H1.
    cbn [when] in H1. rewrite H1.
    rewrite bind_eq. erewrite get_fd_data_some; [|done|by apply list_lookup_insert_eq].
    rewrite bind_eq. erewrite when_upd_fd_data; [|done|by apply list_lookup_insert_eq].
    rewrite list_insert_insert_eq. unfold mret, M_ret. do 3 f_equal.
    unfold latched_events. cbn [revents set_revents].
    by destruct (c_true (Z.land ev (Z.lor EPOLLERR EPOLLHUP))). }
  specialize (Hgen _ w Hd). by rewrite with_fd_data_id in Hgen.
Qed.

(** The loop over the entries of a waiter with one entry whose descriptor
    has the latched bits [latch]. *)
Lemma dispatch_entries_one (pds fd events rev0 : Z) (dl : _epoll_fd_data_t) (w : world) :
  pollfds w !! pds = Some [mk_pollfd fd events rev0] →
  0 <= fd →
  fd_data (_st_epoll_data w) !! Z.to_nat fd = Some dl →
  poll_revents events (revents dl) ≠ 0 →
  _st_epoll_dispatch_entries 1 pds 0 0 w =
    Ret 1 (set_pollfds
             (<[pds := [mk_pollfd fd events (poll_revents events (revents dl))]]>
                (pollfds w)) w).
Proof.
  intros Hpds Hfd Hd Hrev.
  assert (Hlatch : revents dl ≠ 0).
  { intros H0. apply Hrev. rewrite H0. apply poll_revents_nothing_latched. }
  cbn [_st_epoll_dispatch_entries].
  rewrite bind_eq. unfold get_pollfd at 1. rewrite Hpds. cbn [Z.ltb Z.compare].
  change ([mk_pollfd fd events rev0] !! Z.to_nat 0) with (Some (mk_pollfd fd events rev0)).
  cbn [pd_fd pd_events]. rewrite bind_eq. unfold get_fd_data at 1.
  destruct (Z.ltb_spec fd 0); [lia|]. rewrite Hd.
  destruct (Z.eqb_spec (revents dl) 0); [done|].
  cbv zeta. rewrite bind_eq. unfold set_pollfd_revents at 1. rewrite Hpds.
  cbn [Z.ltb Z.compare].
  change ([mk_pollfd fd events rev0] !! Z.to_nat 0) with (Some (mk_pollfd fd events rev0)).
  cbn [pd_fd pd_events]. unfold mret, M_ret. f_equal.
  unfold c_true. destruct (Z.eqb_spec (poll_revents events (revents dl)) 0); done.
Qed.

(** The reconcile loop, for one reported descriptor. *)
Lemma dispatch_reconcile_one (fd ev : Z) (d : _epoll_fd_data_t) (w : world) :
  0 <= fd →
  fd_data (_st_epoll_data w) !! Z.to_nat fd = Some d →
  ∃ w',
    _st_epoll_dispatch_reconcile [(fd, ev)] w = Ret tt w' ∧
    epoll_frame w w' ∧
    fd_data (_st_epoll_data w') =
      <[Z.to_nat fd := set_revents 0 d]> (fd_data (_st_epoll_data w)) ∧
    ctl_log (_st_epoll_data w') =
      ctl_log (_st_epoll_data w) ++
      [mk_ctl (if c_true (_ST_EPOLL_EVENTS d) then EPOLL_CTL_MOD else EPOLL_CTL_DEL)
         fd (_ST_EPOLL_EVENTS d)].
Proof.
  intros Hfd Hd.
  assert (Hframe : frames (_st_epoll_dispatch_reconcile [(fd, ev)])).
  { cbn [_st_epoll_dispatch_reconcile]. repeat frames_step. }
  assert (Hgen : ∀ l w0, l !! Z.to_nat fd = Some d →
    ∃ w', _st_epoll_dispatch_reconcile [(fd, ev)] (with_fd_data l w0) = Ret tt w' ∧
          fd_data (_st_epoll_data w') = <[Z.to_nat fd := set_revents 0 d]> l ∧
          ctl_log (_st_epoll_data w') =
            ctl_log (_st_epoll_data w0) ++
            [mk_ctl (if c_true (_ST_EPOLL_EVENTS d) then EPOLL_CTL_MOD else EPOLL_CTL_DEL)
               fd (_ST_EPOLL_EVENTS d)]).
  { clear Hd w. intros l w Hd.
    assert (Hlt : (Z.to_nat fd < length l)%nat) by (eapply lookup_lt_Some; done).
    cbn [_st_epoll_dispatch_reconcile].
    rewrite bind_eq.
    pose proof (when_upd_fd_data true l w fd d (set_revents 0) Hfd Hd) as H1.
    cbn [when] in H1. rewrite H1.
    rewrite bind_eq. erewrite get_fd_data_some; [|done|by apply list_lookup_insert_eq].
    cbv zeta. change (_ST_EPOLL_EVENTS (set_revents 0 d)) with (_ST_EPOLL_EVENTS d).
    rewrite bind_eq. unfold epoll_ctl at 1. cbn [with_fd_data].
    destruct (ctl_result _ _) as [rv err].
    destruct (rv <? 0), ((rv =? 0) && _); cbn [when mret M_ret];
      rewrite ?bind_eq; unfold upd_epoll, modify, mret, M_ret;
      eexists; (split; [reflexivity|]); simpl; done. }
  destruct (Hgen _ w Hd) as (w' & Hrun & Htab & Hlog).
  rewrite with_fd_data_id in Hrun. exists w'. split; [done|].
  split; [by eapply Hframe|done].
Qed.

(** X16.  [_st_epoll_dispatch] wakes the waiter of a reported descriptor.
    One thread waits in [st_poll] on one entry, nobody sleeps, and
    [epoll_wait] reports the events [ev] on the descriptor, which give the
    entry a non-zero [revents].  Then [dispatch] stores that [revents] in the
    array, takes the [pq] off the I/O queue with [on_ioq = 0], drops the
    entry's interest from the reference counts, clears the latch, makes the
    thread runnable at the tail of the run queue, and issues exactly one
    system call: the [MOD] or [DEL] that brings the kernel in line with the
    remaining interests.  The resumed [st_poll] then returns 0. *)
Theorem dispatch_wakes_waiter (fuel : nat) (os : dispatch_os) (es : _st_eventsys_t)
    (pq pds t fd events rev0 ev : Z) (d : _epoll_fd_data_t) (th : _st_thread_t)
    (w : world) :
  let latch := latched_events d ev in
  let d' := set_revents 0 (drop_interest events d) in
  sleep_q (_st_this_vp w) = None →
  io_q (_st_this_vp w) = [pq] →
  pollqs w !! pq = Some (mk_pollq t pds 1 1) →
  pollfds w !! pds = Some [mk_pollfd fd events rev0] →
  0 <= fd →
  fd_data (_st_epoll_data w) !! Z.to_nat fd = Some d →
  threads w !! t = Some th →
  flag_set (t_flags th) _ST_FL_ON_SLEEPQ = false →
  flag_set (t_flags th) _ST_FL_INTERRUPT = false →
  pid_changed os = false →
  epoll_wait_result os (-1) = [(fd, ev)] →
  poll_revents events latch ≠ 0 →
  ∃ w',
    _st_epoll_dispatch fuel os w = Ret tt w' ∧
    pollfds w' !! pds = Some [mk_pollfd fd events (poll_revents events latch)] ∧
    pollqs w' !! pq = Some (mk_pollq t pds 1 0) ∧
    io_q (_st_this_vp w') = [] ∧
    run_q (_st_this_vp w') = run_q (_st_this_vp w) ++ [t] ∧
    threads w' = <[t := set_t_state _ST_ST_RUNNABLE th]> (threads w) ∧
    fd_data (_st_epoll_data w') = <[Z.to_nat fd := d']> (fd_data (_st_epoll_data w)) ∧
    ctl_log (_st_epoll_data w') =
      ctl_log (_st_epoll_data w) ++
      [mk_ctl (if c_true (_ST_EPOLL_EVENTS d') then EPOLL_CTL_MOD else EPOLL_CTL_DEL)
         fd (_ST_EPOLL_EVENTS d')] ∧
    st_poll_resume es t pq pds 1 w' = Ret 0 w'.
Proof.
  intros latch d' Hsq Hioq Hpq Hpds Hfd Hd Hth Hon Hint Hpid Hwait Hrev.
  assert (Hlatch : latch ≠ 0).
  { intros H0. apply Hrev. rewrite H0. apply poll_revents_nothing_latched. }
  unfold _st_epoll_dispatch.
  rewrite bind_eq. unfold _st_epoll_dispatch_timeout.
  rewrite bind_eq. unfold get at 1. rewrite Hsq. unfold mret at 1, M_ret at 1.
  rewrite Hpid, bind_eq. unfold mret at 1, M_ret at 1. cbv zeta. rewrite Hwait.
  rewrite bind_eq, (dispatch_latch_one fd ev d w Hfd Hd).
  set (l := fd_data (_st_epoll_data w)).
  assert (Hlt : (Z.to_nat fd < length l)%nat) by (eapply lookup_lt_Some; done).
  set (dl := set_revents (latched_events d ev) d).
  set (w1 := with_fd_data (<[Z.to_nat fd := dl]> l) w).
  rewrite bind_eq. unfold get at 1.
  replace (io_q (_st_this_vp w1)) with [pq] by done.
  rewrite bind_eq. cbn [_st_epoll_dispatch_ioq].
  rewrite bind_eq. unfold get_pollq at 1.
  replace (pollqs w1) with (pollqs w) by done. rewrite Hpq.
  cbn [pq_npds pq_pds pq_thread]. change (Z.to_nat 1) with 1%nat.
  rewrite bind_eq.
  rewrite (dispatch_entries_one pds fd events rev0 dl w1); [|done|done| |done].
  2: { subst w1. simpl. by apply list_lookup_insert_eq. }
  change (revents dl) with latch.
  set (w2 := set_pollfds _ w1).
  cbn [c_true Z.eqb negb].
  rewrite bind_eq, bind_eq. unfold upd_vp at 1, modify at 1.
  rewrite bind_eq. unfold modify at 1.
  set (w3 := set_pollqs _ _).
  destruct (pollset_del_loop_spec pds [mk_pollfd fd events (poll_revents events latch)]
              1 0%nat w3) as (w4 & Hdel & Htab4 & Hlog4 & _).
  { subst w3 w2 w1. simpl. apply lookup_insert_eq. }
  { simpl. lia. }
  { subst w3 w2 w1. repeat constructor; simpl; [lia|]. rewrite length_insert. lia. }
  destruct (frames_pollset_del_loop _ _ _ _ _ _ Hdel) as (e4 & err4 & ->).
  cbn [_st_epoll_data set_errno set_epoll_data] in Htab4, Hlog4.
  unfold _st_epoll_pollset_del. change (Z.to_nat 1) with 1%nat.
  change (Z.of_nat 0) with 0 in Hdel. rewrite bind_eq, Hdel.
  rewrite bind_eq. unfold get_thread at 1.
  replace (threads (set_errno err4 (set_epoll_data e4 w3))) with (threads w) by done.
  rewrite Hth, Hon. cbn [when]. rewrite bind_eq. unfold mret at 1, M_ret at 1.
  rewrite bind_eq. unfold upd_thread at 1.
  replace (threads (set_errno err4 (set_epoll_data e4 w3))) with (threads w) by done.
  rewrite Hth. unfold _ST_ADD_RUNQ, upd_vp, modify. unfold mret at 1, M_ret at 1.
  set (w5 := set_vp _ _).
  assert (Htab5 : fd_data (_st_epoll_data w5) =
                  <[Z.to_nat fd := drop_interest events dl]> l).
  { subst w5. cbn [_st_epoll_data set_vp set_threads set_errno set_epoll_data].
    rewrite Htab4. subst w3 w2 w1. simpl.
    rewrite list_lookup_insert_eq by done. by rewrite list_insert_insert_eq. }
  assert (Hlog5 : ctl_log (_st_epoll_data w5) = ctl_log (_st_epoll_data w)).
  { subst w5. cbn [_st_epoll_data set_vp set_threads set_errno set_epoll_data].
    rewrite Hlog4. subst w3 w2 w1. simpl.
    rewrite list_lookup_insert_eq by done. unfold del_kernel_call.
    change (revents dl) with latch.
    destruct (Z.eqb_spec latch 0); [done|]. by rewrite andb_false_r, !app_nil_r. }
  destruct (dispatch_reconcile_one fd ev (drop_interest events dl) w5 Hfd)
    as (w6 & Hrec & (e6 & err6 & ->) & Htab6 & Hlog6).
  { rewrite Htab5. by apply list_lookup_insert_eq. }
  cbn [_st_epoll_data set_errno set_epoll_data] in Htab6, Hlog6.
  exists (set_errno err6 (set_epoll_data e6 w5)).
  assert (Hd' : set_revents 0 (drop_interest events dl) = d') by done.
  assert (Hpf6 : pollfds (set_errno err6 (set_epoll_data e6 w5)) !! pds =
                 Some [mk_pollfd fd events (poll_revents events latch)]).
  { subst w5 w3 w2 w1. simpl. apply lookup_insert_eq. }
  assert (Hpq6 : pollqs (set_errno err6 (set_epoll_data e6 w5)) !! pq =
                 Some (mk_pollq t pds 1 0)).
  { subst w5 w3 w2 w1. simpl. apply lookup_insert_eq. }
  assert (Hth6 : threads (set_errno err6 (set_epoll_data e6 w5)) =
                 <[t := set_t_state _ST_ST_RUNNABLE th]> (threads w)) by done.
  split; [done|]. split; [done|]. split; [done|].
  split. { subst w5 w3 w2 w1. simpl. rewrite Hioq. unfold ST_REMOVE_LINK.
           rewrite filter_cons, filter_nil. by destruct (decide (pq ≠ pq)). }
  split; [done|]. split; [done|].
  split. { cbn [_st_epoll_data set_errno set_epoll_data].
           by rewrite Htab6, Htab5, list_insert_insert_eq, Hd'. }
  split. { cbn [_st_epoll_data set_errno set_epoll_data].
           rewrite Hlog6, Hlog5. done. }
  eapply st_poll_resume_event_path; [exact Hpq6|done| | |exact Hpf6|simpl; lia].
  - rewrite Hth6. apply lookup_insert_eq.
  - done.
Qed.

Lemma dispatch_wakes_waiter_witness :
  ∃ w',
    _st_epoll_dispatch 31 (mk_dispatch_os false 0 (λ _, [(3, EPOLLIN)])) one_poller
      = Ret tt w' ∧
    pollfds w' !! 500 = Some [mk_pollfd 3 POLLIN POLLIN] ∧
    io_q (_st_this_vp w') = [] ∧
    run_q (_st_this_vp w') = [1] ∧
    fd_data (_st_epoll_data w') =
      [zero_fd_data; zero_fd_data; zero_fd_data; zero_fd_data] ∧
    ctl_log (_st_epoll_data w') = [mk_ctl EPOLL_CTL_DEL 3 0] ∧
    st_poll_resume (_st_epoll_eventsys 31) 1 600 500 1 w' = Ret 0 w'.
Proof.
  destruct (dispatch_wakes_waiter 31 (mk_dispatch_os false 0 (λ _, [(3, EPOLLIN)]))
              (_st_epoll_eventsys 31) 600 500 1 3 POLLIN 0 EPOLLIN
              (mk_fd_data 1 0 0 0) (plain_thread _ST_ST_IO_WAIT 0) one_poller)
    as (w' & Hrun & Hpf & _ & Hio & Hrq & _ & Htab & Hlog & Hres);
    try reflexivity.
  - lia.
  - discriminate.
  - exists w'. split; [exact Hrun|]. split; [exact Hpf|]. split; [exact Hio|].
    split; [exact Hrq|]. split; [exact Htab|]. split; [exact Hlog|exact Hres].
Defined.

(** ** Stacks ([stk.c]) *)

Lemma land_lnot_15 (x : Z) :
  0 <= x → 0 <= Z.land x (Z.lnot 0xf) <= x ∧ Z.land x (Z.lnot 0xf) mod 16 = 0.
Proof.
  intros Hx. rewrite <- Z.ldiff_land. change 0xf with (Z.ones 4).
  rewrite Z.ldiff_ones_r by lia.
  rewrite Z.shiftl_mul_pow2, Z.shiftr_div_pow2 by lia. change (2 ^ 4) with 16.
  split; [|by rewrite Z.mod_mul].
  pose proof (Z.div_mod x 16 ltac:(lia)). pose proof (Z.mod_pos_bound x 16 ltac:(lia)).
  pose proof (Z.div_pos x 16 Hx ltac:(lia)). lia.
Qed.

Lemma first_fit_none (w : world) (size : Z) (l : list Z) :
  all_too_small w size l → first_fit size l w = Ret None w.
Proof.
  induction 1 as [|ts l (s & Hs & Hsmall) _ IH]; [done|].
  cbn [first_fit]. rewrite bind_eq. unfold get_stack at 1. rewrite Hs.
  destruct (Z.geb_spec (stk_size s) size); [lia|done].
Qed.

Lemma first_fit_some (w : world) (size ts : Z) (s : _st_stack_t) (l1 l2 : list Z) :
  all_too_small w size l1 →
  stacks w !! ts = Some s → size <= stk_size s →
  first_fit size (l1 ++ ts :: l2) w = Ret (Some ts) w.
Proof.
  intros Hsmall Hs Hfit.
  induction Hsmall as [|ts' l (s' & Hs' & Hlt) _ IH]; cbn [first_fit app].
  - rewrite bind_eq. unfold get_stack at 1. rewrite Hs.
    destruct (Z.geb_spec (stk_size s) size); [done|lia].
  - rewrite bind_eq. unfold get_stack at 1. rewrite Hs'.
    destruct (Z.geb_spec (stk_size s') size); [lia|done].
Qed.

(** [_st_stack_new] when no free stack is large enough. *)
Lemma stack_new_fresh_eq (os : os_alloc) (size : Z) (w : world) :
  let page := pagesize (_st_this_vp w) in
  all_too_small w size (_st_free_stacks w) →
  _st_stack_new os size w =
    match calloc_result os with
    | None => Ret None w
    | Some ts =>
        let extra := if c_true (_st_randomize_stacks w) then page else 0 in
        match mmap_result os with
        | None => Ret None w
        | Some va =>
            let offset :=
              if c_true extra
              then Z.land (Z.rem (random_result os) extra) (Z.lnot 0xf) else 0 in
            Ret (Some ts)
              (set_stacks
                 (<[ts := mk_stack va (wrap_int (size + page * 2 + extra)) size
                            (va + page + offset) (va + page + size + offset) 0]>
                    (stacks w)) w)
        end
    end.
Proof.
  intros page Hsmall.
  unfold _st_stack_new. rewrite bind_eq. unfold get at 1.
  rewrite bind_eq, (first_fit_none _ _ _ Hsmall).
  destruct (calloc_result os) as [ts|]; [|done].
  rewrite bind_eq. unfold get at 1. rewrite bind_eq. unfold get at 1. fold page.
  cbv zeta. by destruct (mmap_result os) as [va|].
Qed.

(** X17.  A stack that [_st_stack_new] allocates afresh, when no free stack
    is large enough: the usable region has the requested size, and a red
    zone of at least one page stays between it and each end of the mapping,
    also when stack randomisation moves the region up by a random multiple
    of 16 bytes.  When [calloc] or [mmap] fails the result is [NULL] and the
    state is unchanged. *)
Theorem stack_new_fresh_layout (os : os_alloc) (size : Z) (w : world) :
  let page := pagesize (_st_this_vp w) in
  all_too_small w size (_st_free_stacks w) →
  0 < page → 0 <= size → size + 3 * page < 2 ^ 31 → 0 <= random_result os →
  match calloc_result os, mmap_result os with
  | Some ts, Some va =>
      ∃ s, _st_stack_new os size w =
             Ret (Some ts) (set_stacks (<[ts := s]> (stacks w)) w) ∧
           vaddr s = va ∧ stack_layout_ok page size s
  | _, _ => _st_stack_new os size w = Ret None w
  end.
Proof.
  intros page Hsmall Hpage Hsize Hfit Hrand.
  rewrite (stack_new_fresh_eq os size w Hsmall). fold page.
  destruct (calloc_result os) as [ts|]; [|done].
  cbv zeta. destruct (mmap_result os) as [va|]; [|done].
  eexists. split; [reflexivity|]. split; [done|].
  unfold stack_layout_ok. cbn [stk_size stk_top stk_bottom vaddr vaddr_size].
  set (extra := if c_true (_st_randomize_stacks w) then page else 0).
  assert (Hextra : 0 <= extra <= page) by (subst extra; destruct (c_true _); lia).
  rewrite wrap_int_small by lia.
  set (offset := if c_true extra
                 then Z.land (Z.rem (random_result os) extra) (Z.lnot 0xf) else 0).
  assert (Hoff : 0 <= offset <= extra ∧ offset mod 16 = 0).
  { subst offset. unfold c_true. destruct (Z.eqb_spec extra 0) as [->|Hne]; simpl.
    - split; [lia|done].
    - pose proof (Z.rem_bound_pos (random_result os) extra Hrand ltac:(lia)) as Hrem.
      destruct (land_lnot_15 (Z.rem (random_result os) extra)) as [Hb Hm]; [lia|].
      split; [lia|done]. }
  destruct Hoff as [Hoff Hmod]. split; [done|]. split; [lia|]. split; [lia|].
  split; [lia|]. by replace (va + page + offset - (va + page)) with offset by lia.
Qed.

Lemma stack_new_fresh_layout_witness :
  ∃ s, _st_stack_new os_grants 8192 initialised =
         Ret (Some 7000) (set_stacks (<[7000 := s]> (stacks initialised)) initialised) ∧
       vaddr s = 65536 ∧ stack_layout_ok 4096 8192 s.
Proof.
  apply (stack_new_fresh_layout os_grants 8192 initialised).
  - apply Forall_nil_2.
  - reflexivity.
  - lia.
  - reflexivity.
  - simpl. lia.
Defined.

(** X18.  [_st_stack_new] reuses the first free stack that is large enough:
    the stacks before it in the free list are skipped because they are too
    small, the stack is taken off the list, the counter of free stacks goes
    down by one, and neither [calloc] nor [mmap] is consulted. *)
Theorem stack_new_first_fit (os : os_alloc) (size ts : Z) (s : _st_stack_t)
    (l1 l2 : list Z) (w : world) :
  _st_free_stacks w = l1 ++ ts :: l2 →
  all_too_small w size l1 →
  stacks w !! ts = Some s → size <= stk_size s →
  ts ∉ l2 →
  _st_stack_new os size w =
    Ret (Some ts) (set_free_stacks (l1 ++ l2) (wrap_int (_st_num_free_stacks w - 1)) w).
Proof.
  intros Hfree Hsmall Hs Hfit Hl2.
  unfold _st_stack_new. rewrite bind_eq. unfold get at 1. rewrite Hfree.
  rewrite bind_eq, (first_fit_some _ _ _ s) by done.
  rewrite bind_eq. unfold modify at 1. unfold mret, M_ret. do 2 f_equal.
  rewrite Hfree.
  assert (Hl1 : ts ∉ l1).
  { intros Hin. eapply Forall_forall in Hsmall as (s' & Hs' & Hlt); [|exact Hin].
    rewrite Hs in Hs'. injection Hs' as <-. lia. }
  rewrite <- (remove_link_absent ts l1 Hl1) at 2.
  rewrite <- (remove_link_absent ts l2 Hl2) at 2.
  unfold ST_REMOVE_LINK.
  by rewrite filter_app, filter_cons_False by (intros H; by apply H).
Qed.

Lemma stack_new_first_fit_witness :
  _st_stack_new (mk_os_alloc None None 0) 8000
    (set_free_stacks [10; 20; 30] 3
       (set_stacks
          (<[10 := mk_stack 0 0 4096 0 0 0]>
             (<[20 := mk_stack 0 0 8192 0 0 0]>
                (<[30 := mk_stack 0 0 16384 0 0 0]> ∅))) initialised))
  = Ret (Some 20)
      (set_free_stacks [10; 30] 2
         (set_free_stacks [10; 20; 30] 3
            (set_stacks
               (<[10 := mk_stack 0 0 4096 0 0 0]>
                  (<[20 := mk_stack 0 0 8192 0 0 0]>
                     (<[30 := mk_stack 0 0 16384 0 0 0]> ∅))) initialised))).
Proof.
  apply (stack_new_first_fit (mk_os_alloc None None 0) 8000 20
           (mk_stack 0 0 8192 0 0 0) [10] [30]).
  - reflexivity.
  - repeat constructor. exists (mk_stack 0 0 4096 0 0 0). split; [reflexivity|simpl; lia].
  - reflexivity.
  - simpl. lia.
  - intros Hin. apply list_elem_of_singleton in Hin. discriminate.
Defined.

(** ** Creating threads ([sched.c]) *)

Lemma round_up_to_page (size page : Z) :
  0 <= size → 0 < page → size + page < 2 ^ 31 →
  let rounded := wrap_int (wrap_int (wrap_int (size + page - 1) ÷ page) * page) in
  size <= rounded < size + page ∧ rounded mod page = 0.
Proof.
  intros Hsize Hpage Hfit. cbv zeta.
  rewrite (wrap_int_small (size + page - 1)) by lia.
  rewrite Z.quot_div_nonneg by lia.
  pose proof (Z.div_mod (size + page - 1) page ltac:(lia)) as Hdm.
  pose proof (Z.mod_pos_bound (size + page - 1) page Hpage) as Hmod.
  assert (0 <= (size + page - 1) / page) by (apply Z.div_pos; lia).
  assert ((size + page - 1) / page <= size + page - 1) by nia.
  rewrite (wrap_int_small ((size + page - 1) / page)) by lia.
  rewrite wrap_int_small by nia.
  split; [nia|]. by rewrite Z.mod_mul by lia.
Qed.

Section CreateFresh.

Variables sizeof_thread sizeof_ptr : Z.

(** [st_thread_create] when the free list is empty and the operating system
    grants the memory: the stack, the thread object and the new state. *)
Lemma thread_create_fresh_run (os : os_alloc) (start arg joinable size ts va : Z)
    (w : world) :
  let page := pagesize (_st_this_vp w) in
  let req := if size =? 0 then ST_DEFAULT_STACK_SIZE else size in
  let rounded := wrap_int (wrap_int (wrap_int (req + page - 1) ÷ page) * page) in
  let extra := if c_true (_st_randomize_stacks w) then page else 0 in
  let offset :=
    if c_true extra
    then Z.land (Z.rem (random_result os) extra) (Z.lnot 0xf) else 0 in
  let thread := va + page + offset in
  _st_free_stacks w = [] → page ≠ 0 →
  calloc_result os = Some ts → mmap_result os = Some va →
  st_thread_create sizeof_thread sizeof_ptr os start arg joinable size w =
    Ret (Some thread)
      (set_vp (set_run_q (run_q (_st_this_vp w) ++ [thread]) (_st_this_vp w))
         (set_active_count (wrap_int (_st_active_count w + 1))
            (set_threads
               (<[thread := mk_thread _ST_ST_RUNNABLE 0 start arg 0 (Some ts) 0
                              None None 0 (replicate 16 0) None]> (threads w))
               (set_stacks
                  (<[ts := mk_stack va (wrap_int (rounded + page * 2 + extra)) rounded
                             thread (va + page + rounded + offset)
                             (thread + sizeof_thread + ST_KEYS_MAX * sizeof_ptr)]>
                     (stacks w)) w)))).
Proof.
  intros page req rounded extra offset thread Hfree Hpage Hcalloc Hmmap.
  unfold st_thread_create. rewrite bind_eq. unfold get at 1. fold page.
  destruct (Z.eqb_spec page 0); [done|]. fold req. fold rounded.
  rewrite bind_eq, stack_new_fresh_eq by (rewrite Hfree; apply Forall_nil_2).
  fold page. rewrite Hcalloc, Hmmap. cbv zeta. fold extra. fold offset. fold thread.
  cbv beta iota.
  rewrite bind_eq. unfold get_stack at 1. cbn [stacks set_stacks].
  rewrite lookup_insert_eq. cbv zeta. cbn [stk_bottom vaddr vaddr_size stk_size stk_top].
  rewrite bind_eq. unfold put_stack at 1, modify at 1.
  rewrite bind_eq. unfold modify at 1.
  rewrite bind_eq. unfold upd_thread at 1. cbn [threads set_threads set_stacks].
  rewrite lookup_insert_eq.
  rewrite bind_eq. unfold modify at 1.
  rewrite bind_eq. unfold _ST_ADD_RUNQ, upd_vp, modify. unfold mret, M_ret.
  f_equal. cbn [stacks set_stacks threads set_threads].
  rewrite !insert_insert_eq. done.
Qed.

(** X19.  [st_thread_create] with a freshly allocated stack.  The stack size
    is the request (128 KiB when the request is 0) rounded up to a whole
    number of pages; the thread object sits at the bottom of the usable
    region, with the 16 slots of thread-specific data, all null, above it;
    the new thread is runnable at the tail of the run queue, holds [start]
    and [arg], and the count of active threads goes up by one.  When the
    operating system refuses the memory the result is [NULL] and nothing has
    changed. *)
Theorem thread_create_fresh (os : os_alloc) (start arg joinable size : Z) (w : world) :
  let page := pagesize (_st_this_vp w) in
  let req := if size =? 0 then ST_DEFAULT_STACK_SIZE else size in
  _st_free_stacks w = [] →
  0 < page → 0 <= size → req + page < 2 ^ 31 →
  match calloc_result os, mmap_result os with
  | Some ts, Some va =>
      ∃ (thread : Z) (s : _st_stack_t) (w' : world),
        st_thread_create sizeof_thread sizeof_ptr os start arg joinable size w
          = Ret (Some thread) w' ∧
        stacks w' = <[ts := s]> (stacks w) ∧
        thread = stk_bottom s ∧
        sp s = thread + sizeof_thread + ST_KEYS_MAX * sizeof_ptr ∧
        req <= stk_size s < req + page ∧ stk_size s mod page = 0 ∧
        threads w' =
          <[thread := mk_thread _ST_ST_RUNNABLE 0 start arg 0 (Some ts) 0 None None 0
                        (replicate 16 0) None]> (threads w) ∧
        run_q (_st_this_vp w') = run_q (_st_this_vp w) ++ [thread] ∧
        _st_active_count w' = wrap_int (_st_active_count w + 1)
  | _, _ =>
      st_thread_create sizeof_thread sizeof_ptr os start arg joinable size w
        = Ret None w
  end.
Proof.
  intros page req Hfree Hpage Hsize Hfit.
  assert (Hreq : 0 <= req)
    by (subst req; unfold ST_DEFAULT_STACK_SIZE; destruct (size =? 0); lia).
  destruct (round_up_to_page req page Hreq Hpage ltac:(lia)) as [Hround Hmod].
  destruct (calloc_result os) as [ts|] eqn:Hcalloc.
  - destruct (mmap_result os) as [va|] eqn:Hmmap.
    + eexists _, _, _.
      split; [by apply thread_create_fresh_run; [|lia|..]|].
      cbn [stacks threads _st_this_vp _st_active_count set_vp set_active_count
           set_threads set_stacks run_q set_run_q stk_bottom sp stk_size].
      done.
    + unfold st_thread_create. rewrite bind_eq. unfold get at 1. fold page.
      destruct (Z.eqb_spec page 0); [lia|].
      rewrite bind_eq, stack_new_fresh_eq by (rewrite Hfree; apply Forall_nil_2).
      by rewrite Hcalloc, Hmmap.
  - unfold st_thread_create. rewrite bind_eq. unfold get at 1. fold page.
    destruct (Z.eqb_spec page 0); [lia|].
    rewrite bind_eq, stack_new_fresh_eq by (rewrite Hfree; apply Forall_nil_2).
    rewrite Hcalloc. by destruct (mmap_result os).
Qed.

End CreateFresh.

Lemma thread_create_fresh_witness :
  ∃ (thread : Z) (s : _st_stack_t) (w' : world),
    st_thread_create 1024 8 os_grants 0 0 0 5000 initialised = Ret (Some thread) w' ∧
    stacks w' = <[7000 := s]> (stacks initialised) ∧
    thread = stk_bottom s ∧
    stk_size s = 8192 ∧
    run_q (_st_this_vp w') = [thread] ∧
    _st_active_count w' = 2.
Proof.
  destruct (thread_create_fresh 1024 8 os_grants 0 0 0 5000 initialised)
    as (thread & s & w' & Hrun & Hst & Hthr & _ & Hsize & Hmod & _ & Hrq & Hcnt).
  - reflexivity.
  - reflexivity.
  - lia.
  - simpl. lia.
  - exists thread, s, w'. split; [exact Hrun|]. split; [exact Hst|].
    split; [exact Hthr|]. split; [|split; [exact Hrq|exact Hcnt]].
    simpl in Hsize, Hmod.
    assert (Hk : ∃ k, stk_size s = 4096 * k).
    { exists (stk_size s / 4096). apply Z.div_exact in Hmod; lia. }
    destruct Hk as [k Hk]. lia.
Defined.

(** ** Leaving a thread ([sched.c]) *)

(** [_st_thread_cleanup] changes nothing but thread records and the record
    of destructor calls. *)
Lemma cleanup_loop_frame (thread : Z) (n : nat) :
  ∀ (key : Z) (w w' : world),
    _st_thread_cleanup_loop n thread key w = Ret tt w' →
    ∃ ts calls, w' = set_destructor_calls calls (set_threads ts w).
Proof.
  induction n as [|n IH]; intros key w w'.
  - intros [= <-]. exists (threads w), (destructor_calls w). by destruct w.
  - cbn [_st_thread_cleanup_loop]. rewrite bind_eq. unfold get_private_data at 1.
    rewrite bind_eq. unfold get_thread at 1.
    destruct (threads w !! thread) as [th|] eqn:Hth; [|done].
    destruct (t_private_data th !! Z.to_nat key) as [v|]; [|done].
    cbn [mret M_ret]. rewrite bind_eq. destruct (c_true v).
    + rewrite bind_eq. unfold get_destructor at 1.
      destruct (_st_destructors w !! Z.to_nat key) as [d|]; [|done].
      destruct (c_true d).
      * rewrite bind_eq. unfold call_destructor, modify. unfold upd_thread.
        cbn [threads set_destructor_calls]. rewrite Hth.
        intros Hrun. apply IH in Hrun as (ts & calls & ->). by exists ts, calls.
      * cbn [mret M_ret]. apply IH.
    + cbn [mret M_ret]. apply IH.
Qed.

Section ExitCreate.

Variables sizeof_thread sizeof_ptr : Z.

(** X20.  The stack of a thread that exits is handed to the next thread.  A
    running thread without a [term] condition variable that is not the
    primordial thread calls [st_thread_exit]: its return value is stored, the
    count of active threads goes down, and its stack is put on the free list.
    With no other free stack, the next [st_thread_create] whose request fits
    takes that stack without asking the operating system for memory, so the
    new thread object lies at the address of the old one, at the bottom of
    the stack, and the free list is empty again. *)
Theorem exit_then_create_reuses_stack (fuel : nat) (os : os_alloc)
    (retval start arg joinable size ts : Z) (s : _st_stack_t) (th : _st_thread_t)
    (w : world) :
  let me := _st_this_thread w in
  let page := pagesize (_st_this_vp w) in
  let req := if size =? 0 then ST_DEFAULT_STACK_SIZE else size in
  threads w !! me = Some th →
  t_term th = None →
  flag_set (t_flags th) _ST_FL_PRIMORDIAL = false →
  t_stack th = Some ts →
  stacks w !! ts = Some s →
  _st_free_stacks w = [] →
  0 <= key_max w <= ST_KEYS_MAX →
  length (t_private_data th) = Z.to_nat ST_KEYS_MAX →
  length (_st_destructors w) = Z.to_nat ST_KEYS_MAX →
  0 < page → 0 <= size → req + page < 2 ^ 31 →
  req <= stk_size s → stk_size s mod page = 0 →
  ∃ w1 w2,
    st_thread_exit_enter fuel retval w = Ret tt w1 ∧
    (t_retval <$> threads w1 !! me) = Some retval ∧
    _st_active_count w1 = wrap_int (_st_active_count w - 1) ∧
    _st_free_stacks w1 = [ts] ∧
    st_thread_create sizeof_thread sizeof_ptr os start arg joinable size w1
      = Ret (Some (stk_bottom s)) w2 ∧
    threads w2 !! stk_bottom s =
      Some (mk_thread _ST_ST_RUNNABLE 0 start arg 0 (Some ts) 0 None None 0
              (replicate 16 0) None) ∧
    _st_free_stacks w2 = [] ∧
    _st_active_count w2 = wrap_int (wrap_int (_st_active_count w - 1) + 1).
Proof.
  intros me page req Hth Hterm Hprim Hstack Hs Hfree Hkm Hpd Hds Hpage Hsize Hfit
    Hreq Hmod.
  set (th0 := set_t_retval retval th).
  set (w0 := set_threads (<[me := th0]> (threads w)) w).
  destruct (cleanup_loop_spec me (Z.to_nat (key_max w)) 0 th0 w0)
    as (wc & Hclean & Hthc & _ & _ & _ & _).
  { apply lookup_insert_eq. }
  { simpl. lia. }
  { simpl. lia. }
  destruct (cleanup_loop_frame _ _ _ _ _ Hclean) as (tsc & calls & ->).
  cbn [threads set_destructor_calls set_threads] in Hthc. subst tsc.
  rewrite drop_0 in *. cbn [take app] in *.
  set (thc := set_t_private_data _ th0) in *.
  set (wc := set_destructor_calls calls _) in *.
  set (w1 := set_free_stacks [ts] (wrap_int (_st_num_free_stacks w + 1))
               (set_active_count (wrap_int (_st_active_count w - 1)) wc)).
  assert (Hexit : st_thread_exit_enter fuel retval w = Ret tt w1).
  { unfold st_thread_exit_enter. rewrite bind_eq. unfold _ST_CURRENT_THREAD, get at 1.
    fold me. rewrite bind_eq, (upd_thread_some _ _ th) by done. fold th0 w0.
    rewrite bind_eq. unfold _st_thread_cleanup. rewrite bind_eq. unfold get at 1.
    replace (key_max w0) with (key_max w) by done.
    change (Z.of_nat 0) with 0 in Hclean. rewrite Hclean.
    rewrite bind_eq. unfold modify at 1.
    rewrite bind_eq. unfold get_thread at 1.
    cbn [threads set_active_count]. replace (threads wc) with
      (<[me := thc]> (threads w0)) by done.
    rewrite lookup_insert_eq.
    replace (t_term thc) with (t_term th) by done. rewrite Hterm.
    replace (t_flags thc) with (t_flags th) by done. rewrite Hprim.
    replace (t_stack thc) with (t_stack th) by done. rewrite Hstack.
    cbn [negb when _st_stack_free]. unfold modify. do 2 f_equal.
    subst w1. cbn [_st_free_stacks _st_num_free_stacks set_active_count].
    replace (_st_free_stacks wc) with (_st_free_stacks w) by done.
    by rewrite Hfree. }
  assert (Hreq0 : 0 <= req)
    by (subst req; unfold ST_DEFAULT_STACK_SIZE; destruct (size =? 0); lia).
  destruct (round_up_to_page req page Hreq0 Hpage Hfit) as [Hround Hrmod].
  set (rounded := wrap_int (wrap_int (wrap_int (req + page - 1) ÷ page) * page)) in *.
  assert (Hle : rounded <= stk_size s).
  { apply Z.mod_divide in Hmod as [k Hk]; [|lia].
    apply Z.mod_divide in Hrmod as [q Hq]; [|lia].
    destruct (Z_le_gt_dec q k) as [Hqk|Hqk]; [nia|].
    assert ((k + 1) * page <= q * page) by nia. lia. }
  eexists w1, _. split; [exact Hexit|].
  split. { subst w1 wc w0. simpl. by rewrite lookup_insert_eq. }
  split; [done|]. split; [done|].
  assert (Hcreate : ∀ B (k : option Z → M B),
    (stack ← _st_stack_new os rounded; k stack) w1 =
    k (Some ts) (set_free_stacks [] (wrap_int (_st_num_free_stacks w1 - 1)) w1)).
  { intros B k. rewrite bind_eq. unfold _st_stack_new. rewrite bind_eq. unfold get at 1.
    replace (_st_free_stacks w1) with ([] ++ ts :: []) by done.
    rewrite bind_eq, (first_fit_some _ _ _ s) by (done || apply Forall_nil_2).
    rewrite bind_eq. unfold modify at 1. unfold mret, M_ret.
    replace (_st_free_stacks w1) with [ts] by done.
    unfold ST_REMOVE_LINK. rewrite filter_cons, filter_nil.
    by destruct (decide (ts ≠ ts)). }
  unfold st_thread_create. rewrite bind_eq. unfold get at 1.
  replace (pagesize (_st_this_vp w1)) with page by done.
  destruct (Z.eqb_spec page 0); [lia|].
  fold req. fold rounded. rewrite Hcreate.
  rewrite bind_eq. unfold get_stack at 1.
  replace (stacks (set_free_stacks [] (wrap_int (_st_num_free_stacks w1 - 1)) w1))
    with (stacks w) by done.
  rewrite Hs. cbv zeta.
  rewrite bind_eq. unfold put_stack at 1, modify at 1.
  rewrite bind_eq. unfold modify at 1.
  rewrite bind_eq. unfold upd_thread at 1. cbn [threads set_threads set_stacks].
  rewrite lookup_insert_eq.
  rewrite bind_eq. unfold modify at 1.
  rewrite bind_eq. unfold _ST_ADD_RUNQ, upd_vp, modify. unfold mret, M_ret.
  split; [reflexivity|].
  split. { simpl. by rewrite insert_insert_eq, lookup_insert_eq. }
  done.
Qed.

End ExitCreate.

Lemma exit_then_create_reuses_stack_witness :
  ∃ w1 w2,
    st_thread_exit_enter 31 5 worker_running = Ret tt w1 ∧
    _st_free_stacks w1 = [7000] ∧
    st_thread_create 1024 8 (mk_os_alloc None None 0) 11 12 0 8000 w1
      = Ret (Some 69632) w2 ∧
    _st_free_stacks w2 = [].
Proof.
  destruct (exit_then_create_reuses_stack 1024 8 31 (mk_os_alloc None None 0)
              5 11 12 0 8000 7000 (mk_stack 65536 16384 8192 69632 77824 70784)
              (mk_thread _ST_ST_RUNNING 0 0 0 0 (Some 7000) 0 None None 0
                 (replicate 16 0) None)
              worker_running)
    as (w1 & w2 & Hexit & _ & _ & Hfree1 & Hcreate & _ & Hfree2 & _);
    try reflexivity; try (unfold ST_KEYS_MAX; simpl; lia).
  exists w1, w2. split; [exact Hexit|]. split; [exact Hfree1|].
  split; [exact Hcreate|exact Hfree2].
Defined.

(** ** The clock ([sched.c]) *)

Lemma flag_set_add_other (flags a b : Z) :
  Z.land a b = 0 → flag_set (flag_add flags a) b = flag_set flags b.
Proof.
  intros Hab. unfold flag_set, flag_add.
  by rewrite Z.land_lor_distr_l, Hab, Z.lor_0_r.
Qed.

Lemma flag_set_clear_other (flags a b : Z) :
  Z.land (Z.lnot a) b = b → flag_set (flag_clear flags a) b = flag_set flags b.
Proof.
  intros Hab. unfold flag_set, flag_clear. by rewrite <- Z.land_assoc, Hab.
Qed.

(** [heap_delete] of the only element of the sleep heap empties the heap. *)
Lemma heap_delete_lone (fuel : nat) (t : Z) (th : _st_thread_t) (w : world) :
  sleep_q (_st_this_vp w) = Some t →
  sleepq_size (_st_this_vp w) = 1 →
  threads w !! t = Some th →
  heap_delete (S (S fuel)) t w =
    Ret tt (set_threads (<[t := set_t_left None (set_t_right None th)]> (threads w))
              (set_vp (set_sleepq_size 0 (set_sleep_q None (_st_this_vp w))) w)).
Proof.
  intros Hroot Hsize Hth. unfold heap_delete.
  rewrite bind_eq. unfold get at 1. rewrite Hsize.
  rewrite bind_eq. cbn [heap_delete_bits c_true Z.eqb negb].
  change (Z.shiftr 1 1) with 0. change (c_true 0) with false.
  change (wrap_int (0 + 1)) with 1. unfold mret at 1, M_ret at 1. cbv beta iota.
  rewrite bind_eq. unfold get at 1. change (Z.to_nat (1 - 1)) with 0%nat.
  rewrite bind_eq. cbn [heap_delete_walk]. unfold mret at 1, M_ret at 1.
  rewrite bind_eq. unfold load, get at 1. rewrite Hroot.
  rewrite bind_eq. unfold store, upd_vp at 1, modify at 1.
  rewrite bind_eq. unfold upd_vp at 1, modify at 1.
  rewrite bind_eq. destruct (decide (Some t ≠ Some t)) as [Hne|_]; [done|].
  unfold mret at 1, M_ret at 1.
  rewrite bind_eq. unfold upd_thread at 1. cbn [threads set_vp]. rewrite Hth.
  unfold upd_thread. cbn [threads set_vp set_threads]. rewrite lookup_insert_eq.
  rewrite insert_insert_eq. f_equal.
  cbn [_st_this_vp set_vp sleepq_size set_sleep_q]. rewrite Hsize.
  change (wrap_int (1 - 1)) with 0. by destruct w.
Qed.

(** X21.  [_st_vp_check_clock] sets the clock of the virtual processor to
    [now] and refreshes the cached time of day when it is in use and more
    than 999000 microseconds old.  With no sleeper, or with the earliest
    sleeper not yet due, nothing else changes.  A single sleeper that is due
    is taken off the heap and made runnable at the tail of the run queue,
    with [_ST_FL_TIMEDOUT] set exactly when it was waiting on a condition
    variable. *)
Theorem check_clock_cases (fuel : nat) (now time_now : Z) (tc : time_cache) (w : world) :
  let tc' :=
    if c_true (_st_curr_time tc) && (wrap_utime (now - _st_last_tset tc) >? 999000)
    then mk_time_cache time_now now else tc in
  (sleep_q (_st_this_vp w) = None →
   _st_vp_check_clock (S fuel) now time_now tc w = Ret tc' (at_clock now w)) ∧
  (∀ t th,
     sleep_q (_st_this_vp w) = Some t → threads w !! t = Some th →
     flag_set (t_flags th) _ST_FL_ON_SLEEPQ = true →
     t_due th > now →
     _st_vp_check_clock (S fuel) now time_now tc w = Ret tc' (at_clock now w)) ∧
  (∀ t th,
     sleep_q (_st_this_vp w) = Some t → sleepq_size (_st_this_vp w) = 1 →
     threads w !! t = Some th →
     flag_set (t_flags th) _ST_FL_ON_SLEEPQ = true →
     flag_set (t_flags th) _ST_FL_IDLE_THREAD = false →
     t_due th <= now →
     _st_vp_check_clock (S (S (S fuel))) now time_now tc w =
       Ret tc'
         (set_threads (<[t := woken th]> (threads w))
            (set_vp (mk_vp (idle_thread (_st_this_vp w)) now
                       (run_q (_st_this_vp w) ++ [t]) (io_q (_st_this_vp w))
                       (zombie_q (_st_this_vp w)) (pagesize (_st_this_vp w)) None 0)
               w))).
Proof.
  intros tc'. split; [|split].
  - intros Hroot. unfold _st_vp_check_clock.
    rewrite bind_eq. unfold upd_vp at 1, modify at 1. fold (at_clock now w).
    cbv zeta. rewrite bind_eq. cbn [_st_vp_check_clock_loop].
    rewrite bind_eq. unfold get at 1.
    replace (sleep_q (_st_this_vp (at_clock now w))) with (sleep_q (_st_this_vp w)) by done.
    by rewrite Hroot.
  - intros t th Hroot Hth Hon Hdue. unfold _st_vp_check_clock.
    rewrite bind_eq. unfold upd_vp at 1, modify at 1. fold (at_clock now w).
    cbv zeta. rewrite bind_eq. cbn [_st_vp_check_clock_loop].
    rewrite bind_eq. unfold get at 1.
    replace (sleep_q (_st_this_vp (at_clock now w))) with (sleep_q (_st_this_vp w)) by done.
    rewrite Hroot. rewrite bind_eq. unfold get_thread at 1.
    replace (threads (at_clock now w)) with (threads w) by done. rewrite Hth, Hon.
    rewrite bind_eq. cbn [assert]. unfold mret at 1, M_ret at 1.
    destruct (Z.gtb_spec (t_due th) now); [done|lia].
  - intros t th Hroot Hsize Hth Hon Hidle Hdue. unfold _st_vp_check_clock.
    rewrite bind_eq. unfold upd_vp at 1, modify at 1. fold (at_clock now w).
    cbv zeta. rewrite bind_eq. cbn [_st_vp_check_clock_loop].
    rewrite bind_eq. unfold get at 1.
    replace (sleep_q (_st_this_vp (at_clock now w))) with (sleep_q (_st_this_vp w)) by done.
    rewrite Hroot. rewrite bind_eq. unfold get_thread at 1.
    replace (threads (at_clock now w)) with (threads w) by done. rewrite Hth, Hon.
    rewrite bind_eq. cbn [assert]. unfold mret at 1, M_ret at 1.
    destruct (Z.gtb_spec (t_due th) now); [lia|].
    rewrite bind_eq. unfold _ST_DEL_SLEEPQ, _st_del_sleep_q.
    rewrite bind_eq, (heap_delete_lone fuel t th) by done.
    rewrite bind_eq. unfold get_thread at 1. cbn [threads set_threads].
    rewrite lookup_insert_eq. unfold upd_thread at 1. cbn [threads set_threads].
    rewrite lookup_insert_eq, insert_insert_eq.
    rewrite bind_eq. unfold get_thread at 1. cbn [threads set_threads].
    rewrite lookup_insert_eq. cbn [t_state set_t_flags set_t_left set_t_right t_flags].
    set (flags := flag_clear (t_flags th) _ST_FL_ON_SLEEPQ).
    assert (Hidle' : flag_set (if bool_decide (t_state th = _ST_ST_COND_WAIT)
                               then flag_add flags _ST_FL_TIMEDOUT else flags)
                       _ST_FL_IDLE_THREAD = false).
    { destruct (bool_decide _); subst flags;
        rewrite ?flag_set_add_other, flag_set_clear_other by done; done. }
    unfold woken. fold flags.
    destruct (bool_decide (t_state th = _ST_ST_COND_WAIT)); cbn [when].
    + rewrite bind_eq. unfold upd_thread at 1. cbn [threads set_threads].
      rewrite lookup_insert_eq, insert_insert_eq.
      rewrite bind_eq. unfold get_thread at 1. cbn [threads set_threads].
      rewrite lookup_insert_eq. cbn [t_flags set_t_flags]. rewrite Hidle'.
      cbn [negb assert]. rewrite bind_eq. unfold mret at 1, M_ret at 1.
      rewrite bind_eq. unfold upd_thread at 1. cbn [threads set_threads].
      rewrite lookup_insert_eq, insert_insert_eq.
      rewrite bind_eq. unfold _ST_ADD_RUNQ, upd_vp, modify.
      rewrite bind_eq. unfold get at 1. cbn [_st_this_vp set_vp set_threads sleep_q
        set_run_q set_sleepq_size set_sleep_q].
      unfold mret, M_ret. f_equal; f_equal; by destruct w.
    + rewrite bind_eq. unfold mret at 1, M_ret at 1.
      rewrite bind_eq. unfold get_thread at 1. cbn [threads set_threads].
      rewrite lookup_insert_eq. cbn [t_flags set_t_flags]. rewrite Hidle'.
      cbn [negb assert]. rewrite bind_eq. unfold mret at 1, M_ret at 1.
      rewrite bind_eq. unfold upd_thread at 1. cbn [threads set_threads].
      rewrite lookup_insert_eq, insert_insert_eq.
      rewrite bind_eq. unfold _ST_ADD_RUNQ, upd_vp, modify.
      rewrite bind_eq. unfold get at 1. cbn [_st_this_vp set_vp set_threads sleep_q
        set_run_q set_sleepq_size set_sleep_q].
      unfold mret, M_ret. f_equal; f_equal; by destruct w.
Qed.

Lemma check_clock_cases_witness :
  ∃ w', _st_vp_check_clock 3 100 7 (mk_time_cache 0 0) one_sleeper
          = Ret (mk_time_cache 0 0) w' ∧
        sleep_q (_st_this_vp w') = None ∧
        run_q (_st_this_vp w') = [1] ∧
        (t_state <$> threads w' !! 1) = Some _ST_ST_RUNNABLE ∧
        (t_flags <$> threads w' !! 1) = Some 0.
Proof.
  destruct (check_clock_cases 0 100 7 (mk_time_cache 0 0) one_sleeper) as (_ & _ & Hdue).
  eexists. split.
  - apply (Hdue 1 (set_t_heap_index 1 (set_t_due 50
                     (plain_thread _ST_ST_SLEEPING _ST_FL_ON_SLEEPQ))));
      first [reflexivity | simpl; lia].
  - repeat split; reflexivity.
Defined.

(** ** The scheduler and the idle thread ([sched.c]) *)

(** X22.  One round of [_st_vp_schedule].  With no active thread the
    program exits.  Otherwise the thread at the head of the run queue is
    taken off the queue, becomes the running and current thread, and the idle
    thread is chosen only when the run queue is empty; a chosen thread that
    is not in the runnable state fails the assertion. *)
Theorem schedule_round_cases (w : world) :
  (_st_active_count w = 0 → _st_vp_schedule w = Ret None w) ∧
  (∀ t q th,
     _st_active_count w ≠ 0 →
     run_q (_st_this_vp w) = t :: q → t ∉ q →
     threads w !! t = Some th →
     if bool_decide (t_state th = _ST_ST_RUNNABLE) then
       _st_vp_schedule w =
         Ret (Some t)
           (set_this_thread t
              (set_threads (<[t := set_t_state _ST_ST_RUNNING th]> (threads w))
                 (set_vp (set_run_q q (_st_this_vp w)) w)))
     else ∃ w', _st_vp_schedule w = Fault w') ∧
  (∀ i th,
     _st_active_count w ≠ 0 →
     run_q (_st_this_vp w) = [] →
     idle_thread (_st_this_vp w) = Some i →
     threads w !! i = Some th → t_state th = _ST_ST_RUNNABLE →
     _st_vp_schedule w =
       Ret (Some i)
         (set_this_thread i
            (set_threads (<[i := set_t_state _ST_ST_RUNNING th]> (threads w)) w))).
Proof.
  split; [|split].
  - intros H0. unfold _st_vp_schedule. rewrite bind_eq. unfold get at 1.
    by rewrite H0.
  - intros t q th Hn Hq Ht Hth.
    assert (Hrem : ST_REMOVE_LINK t (t :: q) = q).
    { unfold ST_REMOVE_LINK. rewrite filter_cons_False by (intros H; by apply H).
      by apply remove_link_absent. }
    destruct (bool_decide (t_state th = _ST_ST_RUNNABLE)) eqn:Hst.
    + unfold _st_vp_schedule. rewrite bind_eq. unfold get at 1.
      unfold c_true. destruct (Z.eqb_spec (_st_active_count w) 0); [done|]. cbn [negb].
      rewrite bind_eq. unfold get at 1. rewrite Hq.
      rewrite bind_eq, bind_eq. unfold upd_vp at 1, modify at 1.
      unfold mret at 1, M_ret at 1. rewrite Hq, Hrem.
      rewrite bind_eq. unfold get_thread_opt, get_thread at 1.
      cbn [threads set_vp]. rewrite Hth, Hst. cbn [assert].
      rewrite bind_eq. unfold mret at 1, M_ret at 1.
      rewrite bind_eq. unfold upd_thread_opt, upd_thread at 1. cbn [threads set_vp].
      rewrite Hth. rewrite bind_eq. unfold _ST_SET_CURRENT_THREAD, modify. done.
    + unfold _st_vp_schedule. rewrite bind_eq. unfold get at 1.
      unfold c_true. destruct (Z.eqb_spec (_st_active_count w) 0); [done|]. cbn [negb].
      rewrite bind_eq. unfold get at 1. rewrite Hq.
      rewrite bind_eq, bind_eq. unfold upd_vp at 1, modify at 1.
      unfold mret at 1, M_ret at 1. rewrite Hq, Hrem.
      rewrite bind_eq. unfold get_thread_opt, get_thread at 1.
      cbn [threads set_vp]. rewrite Hth, Hst. cbn [assert].
      rewrite bind_eq. unfold fault. by eexists.
  - intros i th Hn Hq Hidle Hth Hst.
    unfold _st_vp_schedule. rewrite bind_eq. unfold get at 1.
    unfold c_true. destruct (Z.eqb_spec (_st_active_count w) 0); [done|]. cbn [negb].
    rewrite bind_eq. unfold get at 1. rewrite Hq.
    rewrite bind_eq. unfold get at 1. rewrite Hidle.
    rewrite bind_eq. unfold get_thread_opt, get_thread at 1. rewrite Hth, Hst.
    rewrite bool_decide_eq_true_2 by done. cbn [assert].
    rewrite bind_eq. unfold mret at 1, M_ret at 1.
    rewrite bind_eq. unfold upd_thread_opt, upd_thread at 1. rewrite Hth.
    rewrite bind_eq. unfold _ST_SET_CURRENT_THREAD, modify. done.
Qed.

Lemma schedule_round_cases_witness :
  ∃ w', _st_vp_schedule granted_interrupted = Ret (Some 2) w' ∧
        run_q (_st_this_vp w') = [] ∧
        _st_this_thread w' = 2 ∧
        (t_state <$> threads w' !! 2) = Some _ST_ST_RUNNING.
Proof.
  destruct (schedule_round_cases granted_interrupted) as (_ & Hhead & _).
  eexists. split.
  - apply (Hhead 2 [] (plain_thread _ST_ST_RUNNABLE _ST_FL_INTERRUPT)).
    + simpl. lia.
    + reflexivity.
    + apply not_elem_of_nil.
    + reflexivity.
  - repeat split; reflexivity.
Defined.

(** The idle thread in a quiet environment: [getpid()] is unchanged and
    [epoll_wait] reports nothing, in every round. *)
Lemma idle_round_quiet (fuel : nat) (me : Z) (env : idle_env) (tc : time_cache)
    (th : _st_thread_t) (w : world) :
  pid_changed (idle_os env) = false →
  epoll_wait_result (idle_os env) (-1) = [] →
  sleep_q (_st_this_vp w) = None →
  threads w !! me = Some th →
  ∃ tc',
    _st_idle_thread_round (S fuel) me env tc w =
      Ret tc'
        (set_vp (set_run_q (run_q (_st_this_vp w) ++ [me])
                   (_st_this_vp (at_clock (idle_now env) w)))
           (set_threads (<[me := set_t_state _ST_ST_RUNNABLE th]> (threads w))
              (at_clock (idle_now env) w))).
Proof.
  intros Hpid Hwait Hsq Hth. unfold _st_idle_thread_round.
  assert (Hdisp : _st_epoll_dispatch (S fuel) (idle_os env) w = Ret tt w).
  { unfold _st_epoll_dispatch. rewrite bind_eq. unfold _st_epoll_dispatch_timeout.
    rewrite bind_eq. unfold get at 1. rewrite Hsq. unfold mret at 1, M_ret at 1.
    rewrite Hpid, bind_eq. unfold mret at 1, M_ret at 1. cbv zeta. by rewrite Hwait. }
  rewrite bind_eq, Hdisp. rewrite bind_eq.
  unfold _st_vp_check_clock. rewrite bind_eq. unfold upd_vp at 1, modify at 1.
  fold (at_clock (idle_now env) w). cbv zeta. rewrite bind_eq.
  cbn [_st_vp_check_clock_loop]. rewrite bind_eq. unfold get at 1.
  replace (sleep_q (_st_this_vp (at_clock (idle_now env) w)))
    with (sleep_q (_st_this_vp w)) by done.
  rewrite Hsq. unfold mret at 1, M_ret at 1. unfold mret at 1, M_ret at 1.
  rewrite bind_eq. unfold upd_thread at 1.
  replace (threads (at_clock (idle_now env) w)) with (threads w) by done.
  rewrite Hth. rewrite bind_eq. unfold _ST_ADD_RUNQ, upd_vp, modify.
  eexists. reflexivity.
Qed.

Lemma idle_loop_quiet (fuel : nat) (me : Z) (env : nat → idle_env) (rounds : nat) :
  (∀ i, pid_changed (idle_os (env i)) = false) →
  (∀ i, epoll_wait_result (idle_os (env i)) (-1) = []) →
  ∀ (i : nat) (tc : time_cache) (th : _st_thread_t) (w : world),
    sleep_q (_st_this_vp w) = None →
    threads w !! me = Some th →
    _st_idle_thread_loop rounds (S fuel) me env i tc w = Spin.
Proof.
  intros Hpid Hwait. induction rounds as [|rounds IH]; intros i tc th w Hsq Hth; [done|].
  cbn [_st_idle_thread_loop]. rewrite bind_eq.
  destruct (idle_round_quiet fuel me (env i) tc th w) as [tc' Hrun]; [done..|].
  rewrite Hrun. eapply IH; [done|]. simpl. apply lookup_insert_eq.
Qed.

(** X23.  The idle thread never gives the processor back.  The loop of
    [_st_idle_thread_start] has no context switch: in an environment where
    [epoll_wait] reports nothing and nobody sleeps, every round returns with
    the idle thread still the current thread, marked runnable and appended
    to the run queue once more, and the loop goes on for any number of
    rounds, so no other thread is scheduled again. *)
Theorem idle_thread_never_yields (fuel : nat) (env : nat → idle_env) (tc : time_cache)
    (th : _st_thread_t) (w : world) :
  let me := _st_this_thread w in
  (∀ i, pid_changed (idle_os (env i)) = false) →
  (∀ i, epoll_wait_result (idle_os (env i)) (-1) = []) →
  sleep_q (_st_this_vp w) = None →
  threads w !! me = Some th →
  (∃ tc' w',
     _st_idle_thread_round (S fuel) me (env 0%nat) tc w = Ret tc' w' ∧
     _st_this_thread w' = me ∧
     run_q (_st_this_vp w') = run_q (_st_this_vp w) ++ [me] ∧
     threads w' = <[me := set_t_state _ST_ST_RUNNABLE th]> (threads w)) ∧
  ∀ rounds, _st_idle_thread_start rounds (S fuel) env tc w = Spin.
Proof.
  intros me Hpid Hwait Hsq Hth. split.
  - destruct (idle_round_quiet fuel me (env 0%nat) tc th w) as [tc' Hrun]; [done..|].
    eexists _, _. split; [exact Hrun|]. done.
  - intros rounds. unfold _st_idle_thread_start. rewrite bind_eq.
    unfold _ST_CURRENT_THREAD, get. fold me.
    by eapply idle_loop_quiet.
Qed.

Lemma idle_thread_never_yields_witness :
  (∃ tc' w',
     _st_idle_thread_round 1 1 (mk_idle_env (mk_dispatch_os false 0 (λ _, [])) 5 0)
       (mk_time_cache 0 0) quiet = Ret tc' w' ∧
     _st_this_thread w' = 1 ∧
     run_q (_st_this_vp w') = [1]) ∧
  ∀ rounds,
    _st_idle_thread_start rounds 1
      (λ _, mk_idle_env (mk_dispatch_os false 0 (λ _, [])) 5 0)
      (mk_time_cache 0 0) quiet = Spin.
Proof.
  destruct (idle_thread_never_yields 0
              (λ _, mk_idle_env (mk_dispatch_os false 0 (λ _, [])) 5 0)
              (mk_time_cache 0 0) (plain_thread _ST_ST_RUNNING 0) quiet)
    as [(tc' & w' & Hrun & Hme & Hrq & _) Hloop]; try reflexivity.
  split; [|exact Hloop].
  exists tc', w'. split; [exact Hrun|]. split; [exact Hme|exact Hrq].
Defined.

(** ** Initialisation ([sched.c]) *)

Lemma cleanup_slots_null (ds : list Z) (n : nat) :
  cleanup_slots ds (replicate n 0) = replicate n 0.
Proof.
  revert n. induction ds as [|d ds IH]; intros [|n]; try done.
  cbn [replicate cleanup_slots c_true Z.eqb negb andb]. by rewrite IH.
Qed.

Section InitSpec.

Variables sizeof_thread sizeof_ptr : Z.
Variables _st_io_init eventsys_init : M Z.
Variables (getpagesize utime : Z) (idle_alloc : os_alloc).
Variable idle_start : Z.

(** X24.  [st_init] does nothing when the library is already initialised.
    Otherwise, once the I/O layer and the event system are set up, it leaves
    a virtual processor with empty run, I/O and zombie queues and an empty
    sleep heap; the idle thread is created runnable with
    [_ST_FL_IDLE_THREAD], is not on the run queue and is not counted as
    active; the primordial thread is the current thread, running, with
    [_ST_FL_PRIMORDIAL] and null thread-specific data, and it is the one
    active thread.  When the [calloc] of the primordial thread fails the
    call returns -1 with the stack of the idle thread on the free list and
    no active thread. *)
Theorem st_init_establishes (primordial_calloc : option Z) (ts va : Z)
    (w w1 w2 : world) :
  let init := st_init sizeof_thread sizeof_ptr _st_io_init eventsys_init
                getpagesize utime idle_alloc primordial_calloc idle_start in
  (_st_active_count w ≠ 0 → init w = Ret 0 w) ∧
  (_st_active_count w = 0 →
   _st_io_init w = Ret 0 w1 →
   eventsys_init (set_vp (mk_vp None 0 [] [] [] 0 None 0) w1) = Ret 0 w2 →
   _st_this_vp w2 = mk_vp None 0 [] [] [] 0 None 0 →
   _st_active_count w2 = 0 →
   _st_free_stacks w2 = [] →
   0 <= key_max w2 <= ST_KEYS_MAX →
   length (_st_destructors w2) = Z.to_nat ST_KEYS_MAX →
   getpagesize ≠ 0 →
   calloc_result idle_alloc = Some ts → mmap_result idle_alloc = Some va →
   ∃ (idle : Z) (w' : world),
     let idle_rec := mk_thread _ST_ST_RUNNABLE _ST_FL_IDLE_THREAD idle_start 0 0
                       (Some ts) 0 None None 0 (replicate 16 0) None in
     match primordial_calloc with
     | Some thread =>
         init w = Ret 0 w' ∧
         _st_this_vp w' = mk_vp (Some idle) utime [] [] [] getpagesize None 0 ∧
         _st_active_count w' = 1 ∧
         _st_this_thread w' = thread ∧
         threads w' =
           <[thread := mk_thread _ST_ST_RUNNING _ST_FL_PRIMORDIAL 0 0 0 None 0
                         None None 0 (replicate 16 0) None]>
             (<[idle := idle_rec]> (threads w2))
     | None =>
         init w = Ret (-1) w' ∧
         _st_active_count w' = 0 ∧
         _st_free_stacks w' = [ts] ∧
         threads w' = <[idle := idle_rec]> (threads w2)
     end).
Proof.
  intros init. split.
  - intros Hn. subst init. unfold st_init. rewrite bind_eq. unfold get at 1.
    unfold c_true. by destruct (Z.eqb_spec (_st_active_count w) 0).
  - intros H0 Hio Hev Hvp Hact Hfree Hkm Hds Hpage Hcalloc Hmmap.
    set (w3 := set_vp (mk_vp None utime [] [] [] getpagesize None 0) w2).
    pose proof (thread_create_fresh_run sizeof_thread sizeof_ptr idle_alloc
                  idle_start 0 0 0 ts va w3 Hfree Hpage Hcalloc Hmmap) as Hcreate.
    cbv zeta in Hcreate.
    match type of Hcreate with
    | _ = Ret (Some ?t) _ => set (idle := t) in *
    end.
    clearbody idle.
    match type of Hcreate with
    | _ = Ret _ ?w0 => set (w4 := w0) in *
    end.
    assert (Hhead : ∀ B (k : option Z → M B),
      init w = ((upd_vp (λ v, mk_vp (Some idle) (last_clock v) (run_q v) (io_q v)
                         (zombie_q v) (pagesize v) (sleep_q v) (sleepq_size v));;
                upd_thread idle (set_t_flags _ST_FL_IDLE_THREAD);;
                modify (λ w, set_active_count (wrap_int (_st_active_count w - 1)) w);;
                upd_vp (λ v, set_run_q (ST_REMOVE_LINK idle (run_q v)) v);;
                match primordial_calloc with
                | None =>
                    _st_thread_cleanup idle;;
                    th ← get_thread idle;
                    _st_stack_free (t_stack th);;
                    mret (-1)
                | Some thread =>
                    modify (λ w, set_threads
                                   (<[thread := mk_thread _ST_ST_RUNNING _ST_FL_PRIMORDIAL
                                                  0 0 0 None 0 None None 0
                                                  (replicate (Z.to_nat ST_KEYS_MAX) 0) None]>
                                      (threads w)) w);;
                    _ST_SET_CURRENT_THREAD thread;;
                    modify (λ w, set_active_count (wrap_int (_st_active_count w + 1)) w);;
                    mret 0
                end) w4)).
    { intros _ _. subst init. unfold st_init. rewrite bind_eq. unfold get at 1.
      rewrite H0. cbn [c_true Z.eqb negb]. rewrite bind_eq, Hio. cbn [Z.ltb Z.compare].
      rewrite bind_eq. unfold modify at 1. rewrite bind_eq, Hev. cbn [Z.ltb Z.compare].
      rewrite bind_eq. unfold upd_vp at 1, modify at 1.
      rewrite bind_eq. unfold upd_vp at 1, modify at 1.
      rewrite Hvp. cbn [idle_thread last_clock run_q io_q zombie_q pagesize sleep_q
        sleepq_size _st_this_vp set_vp].
      rewrite bind_eq.
      match goal with
      | |- context [st_thread_create _ _ _ _ _ _ _ ?w0] => change w0 with w3
      end.
      rewrite Hcreate. reflexivity. }
    specialize (Hhead unit (λ _, mret tt)). rewrite Hhead. clear Hhead.
    exists idle.
    set (idle_rec := mk_thread _ST_ST_RUNNABLE _ST_FL_IDLE_THREAD idle_start 0 0
                       (Some ts) 0 None None 0 (replicate 16 0) None).
    assert (Hth4 : threads w4 !! idle = Some (mk_thread _ST_ST_RUNNABLE 0 idle_start 0 0
                       (Some ts) 0 None None 0 (replicate 16 0) None))
      by (subst w4; simpl; apply lookup_insert_eq).
    set (w5 := set_vp (mk_vp (Some idle) utime [] [] [] getpagesize None 0)
                 (set_active_count 0
                    (set_threads (<[idle := idle_rec]> (threads w2))
                       (set_stacks (stacks w4) w2)))).
    assert (Hpre : ∀ B (k : M B),
      (upd_vp (λ v, mk_vp (Some idle) (last_clock v) (run_q v) (io_q v)
                 (zombie_q v) (pagesize v) (sleep_q v) (sleepq_size v));;
       upd_thread idle (set_t_flags _ST_FL_IDLE_THREAD);;
       modify (λ w, set_active_count (wrap_int (_st_active_count w - 1)) w);;
       upd_vp (λ v, set_run_q (ST_REMOVE_LINK idle (run_q v)) v);;
       k) w4 = k w5).
    { intros B k.
      rewrite bind_eq. unfold upd_vp at 1, modify at 1.
      rewrite bind_eq. unfold upd_thread at 1. cbn [threads set_vp]. rewrite Hth4.
      rewrite bind_eq. unfold modify at 1.
      rewrite bind_eq. unfold upd_vp at 1, modify at 1. f_equal.
      subst w5 w4 w3. simpl. rewrite insert_insert_eq, Hact.
      change (wrap_int (wrap_int (0 + 1) - 1)) with 0.
      unfold ST_REMOVE_LINK. rewrite filter_cons, filter_nil.
      destruct (decide (idle ≠ idle)); [done|]. by destruct w2. }
    destruct primordial_calloc as [thread|]; rewrite Hpre.
    + rewrite bind_eq. unfold modify at 1.
      rewrite bind_eq. unfold _ST_SET_CURRENT_THREAD, modify at 1.
      rewrite bind_eq. unfold modify at 1. unfold mret, M_ret.
      eexists. split; [reflexivity|]. done.
    + destruct (cleanup_loop_spec idle (Z.to_nat (key_max w2)) 0 idle_rec w5)
        as (wc & Hclean & Hthc & _).
      { subst w5. simpl. apply lookup_insert_eq. }
      { unfold ST_KEYS_MAX in *. simpl. lia. }
      { replace (_st_destructors w5) with (_st_destructors w2) by done.
        unfold ST_KEYS_MAX in *. lia. }
      destruct (cleanup_loop_frame _ _ _ _ _ Hclean) as (tsc & calls & ->).
      cbn [threads set_destructor_calls set_threads] in Hthc. subst tsc.
      rewrite bind_eq. unfold _st_thread_cleanup. rewrite bind_eq. unfold get at 1.
      replace (key_max w5) with (key_max w2) by done.
      change (Z.of_nat 0) with 0 in Hclean. rewrite Hclean.
      rewrite bind_eq. unfold get_thread at 1.
      cbn [threads set_destructor_calls set_threads].
      rewrite lookup_insert_eq. cbn [t_stack set_t_private_data].
      change (t_stack idle_rec) with (Some ts).
      rewrite bind_eq. unfold _st_stack_free, modify. unfold mret, M_ret.
      eexists. split; [reflexivity|].
      split; [done|]. split.
      { cbn [_st_free_stacks set_free_stacks set_destructor_calls set_threads].
        replace (_st_free_stacks w5) with (_st_free_stacks w2) by done.
        by rewrite Hfree. }
      cbn [threads set_free_stacks set_destructor_calls set_threads].
      replace (threads w5) with (<[idle := idle_rec]> (threads w2)) by done.
      rewrite insert_insert_eq. f_equal.
      subst idle_rec. cbn [set_t_private_data t_private_data take app].
      by rewrite !drop_0, cleanup_slots_null.
Qed.

End InitSpec.

Lemma st_init_establishes_witness :
  ∃ (idle : Z) (w' : world),
    st_init 1024 8 (mret 0) (mret 0) 4096 1000 os_grants (Some 9000) 77 uninitialised
      = Ret 0 w' ∧
    _st_this_vp w' = mk_vp (Some idle) 1000 [] [] [] 4096 None 0 ∧
    _st_active_count w' = 1 ∧
    _st_this_thread w' = 9000.
Proof.
  destruct (st_init_establishes 1024 8 (mret 0) (mret 0) 4096 1000 os_grants 77
              (Some 9000) 7000 65536 uninitialised uninitialised uninitialised)
    as [_ Hfresh].
  destruct Hfresh as (idle & w' & Hrun & Hvp & Hact & Hme & _);
    try reflexivity; try (unfold ST_KEYS_MAX; simpl; lia).
  exists idle, w'. split; [exact Hrun|]. split; [exact Hvp|]. split; [exact Hact|exact Hme].
Defined.

(** ** [_st_epoll_dispatch] without events *)

(** X25.  A [dispatch] round in which [epoll_wait] reports nothing changes
    nothing, and it never waits past the next wake-up: with an empty sleep
    heap the timeout handed to [epoll_wait] is -1; otherwise it is the time
    until the earliest sleeper is due, in whole milliseconds rounded down,
    and 0 when that time has passed, as long as it is less than [2 ^ 31]
    milliseconds. *)
Theorem dispatch_without_events (fuel : nat) (os : dispatch_os) (w : world) :
  pid_changed os = false →
  (sleep_q (_st_this_vp w) = None →
   _st_epoll_dispatch_timeout w = Ret (-1) w ∧
   (epoll_wait_result os (-1) = [] → _st_epoll_dispatch fuel os w = Ret tt w)) ∧
  (∀ t th,
     sleep_q (_st_this_vp w) = Some t → threads w !! t = Some th →
     let wait := Z.max 0 (t_due th - last_clock (_st_this_vp w)) in
     wait < 1000 * 2 ^ 31 →
     _st_epoll_dispatch_timeout w = Ret (wait / 1000) w ∧
     0 <= wait / 1000 * 1000 <= wait ∧
     (epoll_wait_result os (wait / 1000) = [] →
      _st_epoll_dispatch fuel os w = Ret tt w)).
Proof.
  intros Hpid.
  assert (Hidle : ∀ ms, _st_epoll_dispatch_timeout w = Ret ms w →
                        epoll_wait_result os ms = [] →
                        _st_epoll_dispatch fuel os w = Ret tt w).
  { intros ms Hms Hwait. unfold _st_epoll_dispatch. rewrite bind_eq, Hms, Hpid.
    rewrite bind_eq. unfold mret at 1, M_ret at 1. cbv zeta. by rewrite Hwait. }
  split.
  - intros Hsq.
    assert (Hms : _st_epoll_dispatch_timeout w = Ret (-1) w).
    { unfold _st_epoll_dispatch_timeout. rewrite bind_eq. unfold get at 1.
      by rewrite Hsq. }
    split; [done|]. by apply Hidle.
  - intros t th Hsq Hth wait Hwait.
    assert (Hms : _st_epoll_dispatch_timeout w = Ret (wait / 1000) w).
    { unfold _st_epoll_dispatch_timeout. rewrite bind_eq. unfold get at 1.
      rewrite Hsq. rewrite bind_eq, (get_thread_some _ _ _ Hth).
      rewrite bind_eq. unfold get at 1. unfold mret, M_ret. f_equal.
      subst wait.
      destruct (Z.leb_spec (t_due th) (last_clock (_st_this_vp w))) as [Hle|Hgt].
      - rewrite Z.max_l by lia. reflexivity.
      - rewrite Z.max_r in * by lia. unfold wrap_utime.
        rewrite Z.mod_small by lia.
        rewrite Z.quot_div_nonneg by lia.
        apply wrap_int_small.
        assert (0 <= (t_due th - last_clock (_st_this_vp w)) / 1000)
          by (apply Z.div_pos; lia).
        assert ((t_due th - last_clock (_st_this_vp w)) / 1000 < 2 ^ 31)
          by (apply Z.div_lt_upper_bound; lia).
        lia. }
    split; [done|]. split; [|by apply Hidle].
    assert (0 <= wait) by (subst wait; lia).
    pose proof (Z.div_mod wait 1000 ltac:(lia)).
    pose proof (Z.mod_pos_bound wait 1000 ltac:(lia)).
    assert (0 <= wait / 1000) by (apply Z.div_pos; lia). lia.
Qed.

Lemma dispatch_without_events_witness :
  _st_epoll_dispatch_timeout (at_clock 20 one_sleeper) = Ret 0 (at_clock 20 one_sleeper) ∧
  _st_epoll_dispatch 1 (mk_dispatch_os false 0 (λ _, [])) (at_clock 20 one_sleeper)
    = Ret tt (at_clock 20 one_sleeper).
Proof.
  destruct (dispatch_without_events 1 (mk_dispatch_os false 0 (λ _, []))
              (at_clock 20 one_sleeper) eq_refl) as [_ Hsleep].
  destruct (Hsleep 1 (set_t_heap_index 1 (set_t_due 50
                        (plain_thread _ST_ST_SLEEPING _ST_FL_ON_SLEEPQ))))
    as (Hms & _ & Hidle).
  - reflexivity.
  - reflexivity.
  - simpl. lia.
  - split; [exact Hms|]. apply Hidle. reflexivity.
Defined.

(** ** Joining a thread ([sched.c]) *)



(** ** Two sleepers *)

(** [heap_delete] of the root of a heap of two elements moves the other
    element into its place with [heap_insert], whose first loop does not end
    on a non-zero [heap_index]. *)
Lemma heap_delete_root_of_two_spins (fuel : nat) (r l : Z) (tr tl : _st_thread_t)
    (w : world) :
  sleep_q (_st_this_vp w) = Some r →
  sleepq_size (_st_this_vp w) = 2 →
  threads w !! r = Some tr → t_left tr = Some l → l ≠ r →
  threads w !! l = Some tl →
  t_heap_index tr ≠ 0 →
  heap_delete fuel r w = Spin.
Proof.
  intros Hroot Hsize Hr Hleft Hlr Hl Hidx. unfold heap_delete.
  rewrite bind_eq. unfold get at 1. rewrite Hsize. rewrite bind_eq.
  destruct fuel as [|[|[|fuel]]]; try done.
  cbn [heap_delete_bits]. change (c_true 2) with true. cbv iota.
  change (Z.shiftr 2 1) with 1. change (c_true 1) with true. cbv iota.
  change (Z.shiftr 1 1) with 0. change (c_true 0) with false. cbv iota.
  change (wrap_int (wrap_int (0 + 1) + 1)) with 2.
  unfold mret at 1, M_ret at 1.
  rewrite bind_eq. unfold get at 1. rewrite Hsize.
  change (Z.to_nat (2 - 1)) with 1%nat. cbn [heap_delete_walk].
  assert (Hload0 : load SlotRoot w = Ret (Some r) w)
    by (unfold load, get; by rewrite Hroot).
  rewrite ?bind_eq, Hload0.
  change (c_true (Z.land 2 (Z.shiftl 1 (Z.of_nat 0)))) with false. cbv iota.
  unfold mret at 1, M_ret at 1.
  assert (Hload1 : load (SlotLeft (Some r)) w = Ret (Some l) w).
  { unfold load. rewrite bind_eq. unfold get_thread_opt, get_thread.
    by rewrite Hr, Hleft. }
  cbv beta iota. rewrite ?bind_eq, Hload1.
  set (w1 := set_threads (<[r := set_t_left None tr]> (threads w)) w).
  assert (Hstore : store (SlotLeft (Some r)) None w = Ret tt w1)
    by (unfold store, upd_thread_opt, upd_thread; by rewrite Hr).
  rewrite ?bind_eq, Hstore. unfold upd_vp at 1, modify at 1.
  destruct (decide (Some l ≠ Some r)) as [_|Hn]; [|exfalso; apply Hn; congruence].
  rewrite ?bind_eq.
  match goal with |- context [get_thread r ?w0] => set (w2 := w0) end.
  assert (Hr2 : threads w2 !! r = Some (set_t_left None tr))
    by (subst w2 w1; simpl; apply lookup_insert_eq).
  assert (Hl2 : threads w2 !! l = Some tl)
    by (subst w2 w1; simpl; by rewrite lookup_insert_ne).
  rewrite ?bind_eq, (get_thread_some _ _ _ Hr2).
  unfold upd_thread_opt. rewrite ?bind_eq, (upd_thread_some _ _ tl) by done.
  unfold mret at 1, M_ret at 1. rewrite ?bind_eq.
  erewrite heap_insert_spin; [done| |].
  - cbn [threads set_threads]. apply lookup_insert_eq.
  - done.
Qed.

(** X27.  With two sleepers, the earlier one can never be woken.  In a sleep
    heap of two threads, taking the root off the heap makes [heap_delete]
    re-insert the other thread at the root's non-zero [heap_index], and the
    first loop of [heap_insert] does not end.  So [_st_del_sleep_q] on the
    root never returns, nor does [_st_vp_check_clock] once the root is due,
    nor [st_thread_interrupt] on the root. *)
Theorem two_sleepers_root_never_wakes (r l : Z) (tr tl : _st_thread_t) (w : world) :
  sleep_q (_st_this_vp w) = Some r →
  sleepq_size (_st_this_vp w) = 2 →
  threads w !! r = Some tr → t_left tr = Some l → l ≠ r →
  threads w !! l = Some tl →
  t_heap_index tr ≠ 0 →
  flag_set (t_flags tr) _ST_FL_ON_SLEEPQ = true →
  (∀ fuel, _st_del_sleep_q fuel r w = Spin) ∧
  (∀ fuel now time_now tc,
     t_due tr <= now → _st_vp_check_clock fuel now time_now tc w = Spin) ∧
  (∀ fuel,
     t_state tr = _ST_ST_SLEEPING → st_thread_interrupt fuel r w = Spin).
Proof.
  intros Hroot Hsize Hr Hleft Hlr Hl Hidx Hon. split; [|split].
  - intros fuel. unfold _st_del_sleep_q.
    by rewrite bind_eq, (heap_delete_root_of_two_spins fuel r l tr tl).
  - intros fuel now time_now tc Hdue. unfold _st_vp_check_clock.
    rewrite bind_eq. unfold upd_vp at 1, modify at 1. fold (at_clock now w).
    cbv zeta. rewrite bind_eq. destruct fuel as [|fuel]; [done|].
    cbn [_st_vp_check_clock_loop]. rewrite ?bind_eq. unfold get at 1.
    replace (sleep_q (_st_this_vp (at_clock now w))) with (sleep_q (_st_this_vp w)) by done.
    rewrite Hroot. rewrite ?bind_eq, (get_thread_some (at_clock now w) r tr) by done.
    rewrite Hon. cbn [assert]. unfold mret, M_ret. cbv beta iota.
    destruct (Z.gtb_spec (t_due tr) now); [lia|].
    unfold _ST_DEL_SLEEPQ, _st_del_sleep_q. rewrite ?bind_eq.
    by rewrite (heap_delete_root_of_two_spins fuel r l tr tl (at_clock now w)).
  - intros fuel Hst. unfold st_thread_interrupt.
    rewrite ?bind_eq, (get_thread_some _ _ _ Hr), Hst.
    destruct (decide (_ST_ST_SLEEPING = _ST_ST_ZOMBIE)) as [Hbad|_]; [done|].
    rewrite ?bind_eq, (upd_thread_some _ _ tr) by done.
    set (tr' := set_t_flags (flag_add (t_flags tr) _ST_FL_INTERRUPT) tr).
    set (w1 := set_threads _ w).
    assert (Hr1 : threads w1 !! r = Some tr') by (subst w1; simpl; apply lookup_insert_eq).
    assert (Hl1 : threads w1 !! l = Some tl)
      by (subst w1; simpl; by rewrite lookup_insert_ne).
    rewrite ?bind_eq, (get_thread_some _ _ _ Hr1).
    replace (t_state tr') with _ST_ST_SLEEPING by done.
    destruct (decide (_ST_ST_SLEEPING = _ST_ST_RUNNABLE ∨ _ST_ST_SLEEPING = _ST_ST_RUNNING))
      as [[Hbad|Hbad]|_]; [done..|].
    replace (t_flags tr') with (flag_add (t_flags tr) _ST_FL_INTERRUPT) by done.
    rewrite flag_add_interrupt_on_sleepq, Hon. cbn [when].
    unfold _ST_DEL_SLEEPQ, _st_del_sleep_q. rewrite ?bind_eq.
    by rewrite (heap_delete_root_of_two_spins fuel r l tr' tl w1).
Qed.

Lemma two_sleepers_root_never_wakes_witness :
  (∀ fuel, _st_del_sleep_q fuel 10 two_sleepers = Spin) ∧
  (∀ fuel, _st_vp_check_clock fuel 15 0 (mk_time_cache 0 0) two_sleepers = Spin) ∧
  (∀ fuel, st_thread_interrupt fuel 10 two_sleepers = Spin).
Proof.
  destruct (two_sleepers_root_never_wakes 10 11
              (set_t_left (Some 11) (set_t_heap_index 1 (set_t_due 10
                 (plain_thread _ST_ST_SLEEPING _ST_FL_ON_SLEEPQ))))
              (set_t_heap_index 2 (set_t_due 20
                 (plain_thread _ST_ST_SLEEPING _ST_FL_ON_SLEEPQ)))
              two_sleepers) as (Hdel & Hclock & Hint);
    try reflexivity; try discriminate.
  split; [exact Hdel|]. split.
  - intros fuel. apply Hclock. simpl. lia.
  - intros fuel. apply Hint. reflexivity.
Defined.

(** ** [_st_epoll_dispatch] after a [fork] *)

Lemma frames_dispatch_readd (fuel : nat) (q : list Z) :
  frames (_st_epoll_dispatch_readd fuel q).
Proof.
  induction q as [|pq q IH]; cbn [_st_epoll_dispatch_readd]; [apply frames_ret|].
  apply frames_bind; [|intros p].
  - intros w a w'. unfold get_pollq. destruct (pollqs w !! pq); [|done].
    intros [= _ <-]. apply epoll_frame_refl.
  - apply frames_bind; [apply frames_pollset_add|]. intros _. apply IH.
Qed.



(** ** Creating, trying and destroying a mutex *)

(** X29.  The life of a mutex at a fresh address: [st_mutex_new] makes it
    free, so that [st_mutex_destroy] at once gives the initial state back;
    [st_mutex_trylock] gives it to the caller, whether or not an interrupt
    is pending; after that [st_mutex_trylock] by any thread, the owner
    included, and [st_mutex_destroy] fail with [EBUSY] and change nothing
    else; and once the owner has unlocked it [st_mutex_destroy] returns 0 and
    the state is the one before [st_mutex_new]. *)
Theorem mutex_new_trylock_destroy (lock : Z) (w : world) :
  mutexes w !! lock = None →
  ∃ w1 w2,
    st_mutex_new (Some lock) w = Ret (Some lock) w1 ∧
    st_mutex_destroy lock w1 = Ret 0 w ∧
    st_mutex_trylock lock w1 = Ret 0 w2 ∧
    mutexes w2 !! lock = Some (mk_mutex (Some (_st_this_thread w)) []) ∧
    (∀ t, st_mutex_trylock lock (set_this_thread t w2)
          = Ret (-1) (set_errno EBUSY (set_this_thread t w2))) ∧
    st_mutex_destroy lock w2 = Ret (-1) (set_errno EBUSY w2) ∧
    (st_mutex_unlock lock;; st_mutex_destroy lock) w2 = Ret 0 w.
Proof.
  intros Hfresh.
  assert (Hback : set_mutexes (delete lock (<[lock := mk_mutex None []]> (mutexes w))) w = w).
  { rewrite delete_insert_id by done. by destruct w. }
  exists (set_mutexes (<[lock := mk_mutex None []]> (mutexes w)) w),
    (set_mutexes (<[lock := mk_mutex (Some (_st_this_thread w)) []]> (mutexes w)) w).
  repeat split.
  - unfold st_mutex_destroy. mrun. exact (f_equal (Ret 0) Hback).
  - unfold st_mutex_trylock. mrun. by rewrite insert_insert_eq.
  - simpl. by rewrite lookup_insert_eq.
  - intros t. unfold st_mutex_trylock. by mrun.
  - unfold st_mutex_destroy. by mrun.
  - unfold st_mutex_unlock. mrun. destruct (decide _) as [Hn|_]; [done|].
    mrun. unfold st_mutex_destroy. mrun.
    rewrite !insert_insert_eq. exact (f_equal (Ret 0) Hback).
Qed.

Lemma mutex_new_trylock_destroy_witness :
  ∃ w1 w2,
    st_mutex_new (Some 200) initialised = Ret (Some 200) w1 ∧
    st_mutex_destroy 200 w1 = Ret 0 initialised ∧
    st_mutex_trylock 200 w1 = Ret 0 w2 ∧
    mutexes w2 !! 200 = Some (mk_mutex (Some (_st_this_thread initialised)) []) ∧
    (∀ t, st_mutex_trylock 200 (set_this_thread t w2)
          = Ret (-1) (set_errno EBUSY (set_this_thread t w2))) ∧
    st_mutex_destroy 200 w2 = Ret (-1) (set_errno EBUSY w2) ∧
    (st_mutex_unlock 200;; st_mutex_destroy 200) w2 = Ret 0 initialised.
Proof. apply (mutex_new_trylock_destroy 200 initialised). reflexivity. Defined.

(** ** [_st_epoll_fd_close] and the poll sets *)

(** A valid entry asks for one of the three events. *)
Lemma valid_pollfd_bits (pd : pollfd) :
  valid_pollfd pd →
  c_true (Z.land (pd_events pd) POLLIN) || c_true (Z.land (pd_events pd) POLLOUT)
  || c_true (Z.land (pd_events pd) POLLPRI) = true.
Proof.
  intros (_ & Hne & Hmask). destruct pd as [fd e r]. simpl in *.
  change (Z.lnot (Z.lor (Z.lor POLLIN POLLOUT) POLLPRI)) with (Z.lnot 7) in Hmask.
  assert (He : e = e mod 2 ^ 3).
  { rewrite <- Z.land_ones by lia. change (Z.ones 3) with 7.
    rewrite <- (Z.lor_0_r (Z.land e 7)), <- Hmask, <- Z.land_lor_distr_r.
    change (Z.lor 7 (Z.lnot 7)) with (-1). by rewrite Z.land_m1_r. }
  pose proof (Z.mod_pos_bound e (2 ^ 3) ltac:(lia)) as Hb. rewrite <- He in Hb.
  assert (Hcases : e = 1 ∨ e = 2 ∨ e = 3 ∨ e = 4 ∨ e = 5 ∨ e = 6 ∨ e = 7) by lia.
  destruct Hcases as [->|[->|[->|[->|[->|[->| ->]]]]]]; reflexivity.
Qed.

Lemma counts_below_le (n m : Z) (d : _epoll_fd_data_t) :
  m <= n → counts_below n d → counts_below m d.
Proof. unfold counts_below. lia. Qed.

Lemma add_interest_grows (events n : Z) (d : _epoll_fd_data_t) :
  0 <= n → counts_below (n + 1) d →
  counts_below n (add_interest events d) ∧
  interests d <= interests (add_interest events d) ∧
  (c_true (Z.land events POLLIN) || c_true (Z.land events POLLOUT)
   || c_true (Z.land events POLLPRI) = true →
   interests d < interests (add_interest events d)).
Proof.
  intros Hn ((? & ?) & (? & ?) & (? & ?)). unfold counts_below, interests, add_interest.
  destruct (c_true (Z.land events POLLIN)), (c_true (Z.land events POLLOUT)),
    (c_true (Z.land events POLLPRI));
    cbn [rd_ref_cnt wr_ref_cnt ex_ref_cnt orb]; rewrite ?wrap_int_small by lia;
    (split; [lia|split; [lia|intros; first [lia|discriminate]]]).
Qed.

(** The reference counts only grow when interests are added, those of a
    descriptor of the array grow indeed, and the others stay. *)
Lemma add_table_grows (a : list pollfd) :
  ∀ (l : list _epoll_fd_data_t) (i : nat) (d : _epoll_fd_data_t),
    Forall valid_pollfd a →
    Forall (counts_below (Z.of_nat (length a))) l →
    l !! i = Some d →
    ∃ d', add_table a l !! i = Some d' ∧ counts_below 0 d' ∧
          interests d <= interests d' ∧
          ((∃ pd, pd ∈ a ∧ Z.to_nat (pd_fd pd) = i) → interests d < interests d') ∧
          ((∀ pd, pd ∈ a → Z.to_nat (pd_fd pd) ≠ i) → d' = d).
Proof.
  induction a as [|pd a IH]; intros l i d Hval Hl Hd.
  - exists d. split; [done|]. split; [by eapply (Forall_lookup_1 _ l i)|].
    split; [lia|]. split; [|done]. intros (pd & Hin & _). by apply elem_of_nil in Hin.
  - apply Forall_cons in Hval as [Hpd Hval]. cbn [add_table].
    set (j := Z.to_nat (pd_fd pd)).
    set (l1 := match l !! j with
               | Some d0 => <[j := add_interest (pd_events pd) d0]> l
               | None => l
               end).
    assert (Hlen : Z.of_nat (length (pd :: a)) = Z.of_nat (length a) + 1)
      by (cbn [length]; lia).
    rewrite Hlen in Hl.
    assert (Hl1 : Forall (counts_below (Z.of_nat (length a))) l1 ∧
                  ∃ d1, l1 !! i = Some d1 ∧ interests d <= interests d1 ∧
                        (j = i → interests d < interests d1) ∧ (j ≠ i → d1 = d)).
    { subst l1. destruct (l !! j) as [d0|] eqn:Hj.
      - pose proof (Forall_lookup_1 _ l j d0 Hl Hj) as Hd0.
        destruct (add_interest_grows (pd_events pd) (Z.of_nat (length a)) d0
                    ltac:(lia) Hd0) as (Hc & Hle & Hlt).
        split.
        + apply Forall_insert; [|done].
          eapply Forall_impl; [exact Hl|]. intros x. apply counts_below_le. lia.
        + destruct (decide (j = i)) as [->|Hne].
          * assert (d0 = d) by congruence. subst d0.
            exists (add_interest (pd_events pd) d).
            split; [apply list_lookup_insert_eq; by eapply lookup_lt_Some|].
            split; [done|]. split; [|done]. intros _. apply Hlt.
            by apply valid_pollfd_bits.
          * exists d. split; [by rewrite list_lookup_insert_ne|].
            split; [lia|]. split; done.
      - split.
        + eapply Forall_impl; [exact Hl|]. intros x. apply counts_below_le. lia.
        + exists d. split; [done|]. split; [lia|]. split; [|done].
          intros ->. congruence. }
    destruct Hl1 as (Hl1 & d1 & Hd1 & Hle1 & Hlt1 & Heq1).
    destruct (IH l1 i d1 Hval Hl1 Hd1) as (d' & Hd' & Hc' & Hle' & Hlt' & Heq').
    exists d'. split; [done|]. split; [done|]. split; [lia|]. split.
    + intros (pd' & Hin & Hfd). apply elem_of_cons in Hin as [->|Hin].
      * specialize (Hlt1 Hfd). lia.
      * assert (interests d1 < interests d') by (apply Hlt'; by exists pd'). lia.
    + intros Hnone.
      rewrite Heq'; [apply Heq1|].
      * apply (Hnone pd). by left.
      * intros pd' Hin. apply Hnone. by right.
Qed.

(** X30.  [_st_epoll_fd_close] refuses a descriptor that a poll set refers
    to.  When [_st_epoll_pollset_add] has returned 0 for an array of valid
    entries, on a table whose counts are not negative and have room for the
    new interests, [_st_epoll_fd_close] returns -1 with [errno = EBUSY] for
    the descriptor of every entry of the array, and it returns 0 and changes
    nothing for a descriptor that no entry names and that had no interest
    before. *)
Theorem fd_close_busy_while_registered (fuel : nat) (pds npds : Z) (a : list pollfd)
    (w w' : world) :
  pollfds w !! pds = Some a →
  0 <= npds → (Z.to_nat npds ≤ length a)%nat →
  Forall valid_pollfd (take (Z.to_nat npds) a) →
  fds_in_table w (take (Z.to_nat npds) a) →
  Forall (counts_below npds) (fd_data (_st_epoll_data w)) →
  evtlist_room w npds →
  _st_epoll_pollset_add fuel pds npds w = Ret 0 w' →
  (∀ pd, pd ∈ take (Z.to_nat npds) a →
         _st_epoll_fd_close (pd_fd pd) w' = Ret (-1) (set_errno EBUSY w')) ∧
  (∀ fd d, 0 <= fd →
           fd_data (_st_epoll_data w) !! Z.to_nat fd = Some d → interests d = 0 →
           (∀ pd, pd ∈ take (Z.to_nat npds) a → pd_fd pd ≠ fd) →
           _st_epoll_fd_close fd w' = Ret 0 w').
Proof.
  intros Ha Hn Hlen Hval Hfds Hbelow Hroom Hrun.
  set (entries := take (Z.to_nat npds) a) in *.
  assert (Hrange : Forall counts_in_range (fd_data (_st_epoll_data w))).
  { eapply Forall_impl; [exact Hbelow|]. intros d. unfold counts_below, counts_in_range. lia. }
  destruct (pollset_add_outcome fuel pds npds a w Ha Hn Hlen Hval Hfds Hrange Hroom)
    as (rv & w1 & calls & Hrun1 & _ & Hcases & _).
  rewrite Hrun in Hrun1. injection Hrun1 as <- <-.
  destruct Hcases as [[_ Htab]|[? _]]; [|done]. fold entries in Htab.
  assert (Hbelow' : Forall (counts_below (Z.of_nat (length entries)))
                      (fd_data (_st_epoll_data w))).
  { eapply Forall_impl; [exact Hbelow|]. intros d. apply counts_below_le.
    unfold entries. rewrite length_take. lia. }
  assert (Hclose : ∀ fd d', 0 <= fd →
            fd_data (_st_epoll_data w') !! Z.to_nat fd = Some d' →
            _st_epoll_fd_close fd w'
            = if c_true (rd_ref_cnt d') || c_true (wr_ref_cnt d') || c_true (ex_ref_cnt d')
              then Ret (-1) (set_errno EBUSY w') else Ret 0 w').
  { intros fd d' Hfd Hd'. unfold _st_epoll_fd_close. rewrite bind_eq.
    unfold get_fd_data. destruct (Z.ltb_spec fd 0); [lia|]. rewrite Hd'.
    by destruct (c_true (rd_ref_cnt d') || c_true (wr_ref_cnt d') || c_true (ex_ref_cnt d')). }
  split.
  - intros pd Hin.
    pose proof (proj1 (Forall_forall _ _) Hval pd Hin) as Hpd.
    pose proof (proj1 (Forall_forall _ _) Hfds pd Hin) as Hidx. cbv beta in Hidx.
    destruct (lookup_lt_is_Some_2 (fd_data (_st_epoll_data w)) (Z.to_nat (pd_fd pd)))
      as [d Hd]; [lia|].
    destruct (add_table_grows entries _ _ d Hval Hbelow' Hd)
      as (d' & Hd' & Hc' & _ & Hlt & _).
    rewrite <- Htab in Hd'. rewrite (Hclose _ d') by (done || lia).
    assert (Hpos : interests d < interests d') by (apply Hlt; by exists pd).
    pose proof (Forall_lookup_1 _ _ _ _ Hbelow' Hd) as Hc.
    unfold interests, counts_below in *. unfold c_true.
    destruct (Z.eqb_spec (rd_ref_cnt d') 0), (Z.eqb_spec (wr_ref_cnt d') 0),
      (Z.eqb_spec (ex_ref_cnt d') 0); try reflexivity. lia.
  - intros fd d Hfd Hd Hzero Hnone.
    destruct (add_table_grows entries _ _ d Hval Hbelow' Hd)
      as (d' & Hd' & _ & _ & _ & Heq).
    rewrite <- Htab in Hd'. rewrite (Hclose _ d') by done.
    rewrite Heq.
    + pose proof (Forall_lookup_1 _ _ _ _ Hbelow' Hd) as Hc.
      unfold interests, counts_below in *. unfold c_true.
      destruct (Z.eqb_spec (rd_ref_cnt d) 0), (Z.eqb_spec (wr_ref_cnt d) 0),
        (Z.eqb_spec (ex_ref_cnt d) 0); try reflexivity; lia.
    + intros pd Hin Heqfd. apply (Hnone pd Hin).
      pose proof (proj1 (Forall_forall _ _) Hval pd Hin) as (? & _). lia.
Qed.

Lemma fd_close_busy_while_registered_witness :
  ∃ w', _st_epoll_pollset_add 31 500 2 latched_fd = Ret 0 w' ∧
        _st_epoll_fd_close 3 w' = Ret (-1) (set_errno EBUSY w') ∧
        _st_epoll_fd_close 0 w' = Ret 0 w'.
Proof.
  destruct (pollset_add_outcome 31 500 2
              [mk_pollfd 3 POLLIN POLLIN; mk_pollfd 4 POLLIN 0] latched_fd)
    as (rv & w' & _ & Hrun & _ & _ & Hok).
  - reflexivity.
  - lia.
  - simpl. lia.
  - repeat constructor; simpl; try lia; done.
  - repeat constructor; simpl; lia.
  - repeat constructor; simpl; lia.
  - repeat split; simpl; lia.
  - assert (Hrv : rv = 0) by (apply Hok; intros c; simpl; lia).
    rewrite Hrv in Hrun.
    destruct (fd_close_busy_while_registered 31 500 2
                [mk_pollfd 3 POLLIN POLLIN; mk_pollfd 4 POLLIN 0] latched_fd w')
      as [Hbusy Hfree].
    + reflexivity.
    + lia.
    + simpl. lia.
    + repeat constructor; simpl; try lia; done.
    + repeat constructor; simpl; lia.
    + repeat constructor; simpl; lia.
    + repeat split; simpl; lia.
    + exact Hrun.
    + exists w'. split; [exact Hrun|]. split.
      * apply (Hbusy (mk_pollfd 3 POLLIN POLLIN)). by left.
      * apply (Hfree 0 zero_fd_data); [lia|reflexivity|reflexivity|].
        intros pd Hin. simpl in Hin.
        apply elem_of_cons in Hin as [->|Hin]; [simpl; lia|].
        apply elem_of_cons in Hin as [->|Hin]; [simpl; lia|].
        by apply elem_of_nil in Hin.
Defined.
